(** * UPC, EAN and ISBN encoding (backend/upcean.c)

    A shallow embedding of libzint's [upcean.c] and the properties its
    specification states about it.

    Conventions of the embedding.
    - A C [char] array is a [list ascii] of its cells; a cell outside the
      list reads as NUL, so the list is the string when it holds no NUL.
      The string a buffer holds is [cstring]: its cells up to the first NUL.
    - A C [int] is a [Z].  Every quantity computed here is bounded by a
      small multiple of the input length (at most 19 characters pass the
      entry point), far inside the 32-bit range; [%] is [Z.rem] and [/] is
      [Z.quot], as C truncates.
    - A function that writes through [symbol] or [dest] returns the new
      values next to its [int] result.
    - The [printf] calls under [ZINT_DEBUG_PRINT] write to stdout only and
      are left out. *)

From Stdlib Require Import ZArith List Ascii String Bool Lia.
Import ListNotations.
Open Scope Z_scope.

(** ** Characters, strings and loops *)

Definition NUL : ascii := Ascii.zero.

Definition code_of (c : ascii) : Z := Z.of_N (N_of_ascii c).

Definition char_of (n : Z) : ascii := ascii_of_N (Z.to_N (n mod 256)).

Definition chars (s : string) : list ascii := list_ascii_of_string s.

(** [s[i]] *)
Definition char_at (s : list ascii) (i : Z) : ascii :=
  if i <? 0 then NUL else nth (Z.to_nat i) s NUL.

(** [s[i] = c], the cells between the end of the list and [i] being NUL *)
Definition set_char (s : list ascii) (i : Z) (c : ascii) : list ascii :=
  let n := Z.to_nat i in
  if (n <? List.length s)%nat
  then firstn n s ++ c :: skipn (S n) s
  else s ++ repeat NUL (n - List.length s) ++ [c].

Fixpoint cstring (s : list ascii) : list ascii :=
  match s with
  | [] => []
  | c :: r => if Ascii.eqb c NUL then [] else c :: cstring r
  end.

Definition ustrlen (s : list ascii) : Z := Z.of_nat (List.length (cstring s)).

(** [ustrcpy(dest, src)] and [ustrcat(dest, src)]: the string left in [dest] *)
Definition ustrcpy (src : list ascii) : list ascii := cstring src.

Definition ustrcat (dest src : list ascii) : list ascii :=
  cstring dest ++ cstring src.

Definition ustrncat (dest src : list ascii) (n : Z) : list ascii :=
  cstring dest ++ firstn (Z.to_nat n) (cstring src).

(** [for (i = lo; i < hi; i++) body], on the state [st] *)
Fixpoint for_up {St : Type} (n : nat) (i : Z) (body : Z -> St -> St) (st : St) : St :=
  match n with
  | O => st
  | S n' => for_up n' (i + 1) body (body i st)
  end.

Definition for_range {St : Type} (lo hi : Z) (body : Z -> St -> St) (st : St) : St :=
  for_up (Z.to_nat (hi - lo)) lo body st.

(** [for (i = hi; i > lo; i--) body] *)
Fixpoint for_down {St : Type} (n : nat) (i : Z) (body : Z -> St -> St) (st : St) : St :=
  match n with
  | O => st
  | S n' => for_down n' (i - 1) body (body i st)
  end.

(** ** Helpers of common.c and constants of common.h and zint.h *)

(** Modelled from the spec: [ctoi] of common.c is not part of the sources at
    hand.  It gives a digit character its value (the checksum engine's
    [digit[i]]), a hexadecimal letter its value, anything else -1. *)
Definition ctoi (source : ascii) : Z :=
  let c := code_of source in
  if (48 <=? c) && (c <=? 57) then c - 48
  else if (65 <=? c) && (c <=? 70) then c - 65 + 10
  else if (97 <=? c) && (c <=? 102) then c - 97 + 10
  else -1.

(** Modelled from the spec: [itoc] of common.c is not part of the sources at
    hand.  It gives 0..9 their digit character; the add-on gap 10, 11, 12 is
    one character too, the hexadecimal letter. *)
Definition itoc (source : Z) : ascii :=
  if (0 <=? source) && (source <=? 9) then char_of (48 + source)
  else char_of (65 + (source - 10)).

(** Modelled from the spec: the digit alphabet [NEON] of common.h. *)
Definition NEON : list ascii := chars "0123456789".

Definition SODIUM : list ascii := chars "0123456789+".

(** [table[i]]; an index outside the table reads nothing *)
Definition entry (table : list (list ascii)) (i : Z) : list ascii :=
  if i <? 0 then [] else nth (Z.to_nat i) table [].

(** Modelled from the spec: [lookup] of common.c, the table lookup of the
    pattern assembler: the entry of [table] at the position of [data] in
    [set_string] is appended to [dest]. *)
Definition lookup (set_string : list ascii) (table : list (list ascii))
    (data : ascii) (dest : list ascii) : list ascii :=
  for_range 0 (ustrlen set_string)
    (fun i dest =>
       if Ascii.eqb data (char_at set_string i)
       then ustrcat dest (entry table i) else dest)
    dest.

(** Modelled from the spec: the result codes of zint.h. *)
Definition ZINT_ERROR : Z := 5.
Definition ZINT_ERROR_TOO_LONG : Z := 5.
Definition ZINT_ERROR_INVALID_DATA : Z := 6.
Definition ZINT_ERROR_INVALID_CHECK : Z := 7.

(** Modelled from the spec: [is_sane] of common.c, the character-set check:
    every one of the first [length] characters occurs in [test_string]. *)
Definition is_sane (test_string source : list ascii) (length : Z) : Z :=
  for_range 0 length
    (fun i r =>
       if r =? 0 then
         if existsb (Ascii.eqb (char_at source i)) (cstring test_string)
         then 0 else ZINT_ERROR_INVALID_DATA
       else r)
    0.

(** Modelled from the spec: [to_upper] of common.c. *)
Definition to_upper (source : list ascii) : list ascii :=
  map (fun c => if (97 <=? code_of c) && (code_of c <=? 122)
                then char_of (code_of c - 97 + 65) else c) source.

(** ** Tables (EN 797:1996) *)

Definition UPCParity0 : list (list ascii) :=
  map chars ["BBBAAA"; "BBABAA"; "BBAABA"; "BBAAAB"; "BABBAA"; "BAABBA"; "BAAABB";
             "BABABA"; "BABAAB"; "BAABAB"]%string.

Definition UPCParity1 : list (list ascii) :=
  map chars ["AAABBB"; "AABABB"; "AABBAB"; "AABBBA"; "ABAABB"; "ABBAAB"; "ABBBAA";
             "ABABAB"; "ABABBA"; "ABBABA"]%string.

Definition EAN2Parity : list (list ascii) :=
  map chars ["AA"; "AB"; "BA"; "BB"]%string.

Definition EAN5Parity : list (list ascii) :=
  map chars ["BBAAA"; "BABAA"; "BAABA"; "BAAAB"; "ABBAA"; "AABBA"; "AAABB"; "ABABA";
             "ABAAB"; "AABAB"]%string.

Definition EAN13Parity : list (list ascii) :=
  map chars ["AAAAA"; "ABABB"; "ABBAB"; "ABBBA"; "BAABB"; "BBAAB"; "BBBAA"; "BABAB";
             "BABBA"; "BBABA"]%string.

Definition EANsetA : list (list ascii) :=
  map chars ["3211"; "2221"; "2122"; "1411"; "1132"; "1231"; "1114"; "1312"; "1213";
             "3112"]%string.

Definition EANsetB : list (list ascii) :=
  map chars ["1123"; "1222"; "2212"; "1141"; "2311"; "1321"; "4111"; "2131"; "3121";
             "2113"]%string.

(** ** Check digits *)

(** Calculate the correct check digit for a UPC barcode *)
Definition upc_check (source : list ascii) (length : Z) : ascii :=
  let count :=
    for_range 0 length
      (fun i count =>
         count + (if negb (Z.land i 1 =? 0)
                  then ctoi (char_at source i)
                  else 3 * ctoi (char_at source i)))
      0 in
  let check_digit := 10 - Z.rem count 10 in
  let check_digit := if check_digit =? 10 then 0 else check_digit in
  itoc check_digit.

(** Calculate the correct check digit for a EAN-13 barcode (including ISBN(13)) *)
Definition ean_check (source : list ascii) (length : Z) : ascii :=
  let count :=
    for_range 0 length
      (fun i count =>
         count + (if negb (Z.land i 1 =? 0)
                  then 3 * ctoi (char_at source i)
                  else ctoi (char_at source i)))
      0 in
  let check_digit := 10 - Z.rem count 10 in
  let check_digit := if check_digit =? 10 then 0 else check_digit in
  itoc check_digit.

(** For ISBN(10) and SBN only *)
Definition isbn_check (source : list ascii) (length : Z) : ascii :=
  let '(sum, weight) :=
    for_range 0 length
      (fun i '(sum, weight) => (sum + ctoi (char_at source i) * weight, weight + 1))
      (0, 1) in
  let check := Z.rem sum 11 in
  let check_char := itoc check in
  if check =? 10 then "X"%char else check_char.

(** ** The symbol *)

(** The symbologies [upcean.c] tells apart; [BARCODE_OTHER] is any other
    value of [symbol->symbology], which matches no [case]. *)
Inductive symbology_t : Type :=
  | BARCODE_EANX | BARCODE_EANX_CHK | BARCODE_EANX_CC
  | BARCODE_UPCA | BARCODE_UPCA_CHK | BARCODE_UPCA_CC
  | BARCODE_UPCE | BARCODE_UPCE_CHK | BARCODE_UPCE_CC
  | BARCODE_ISBNX | BARCODE_OTHER.

Scheme Equality for symbology_t.

(** The fields of [struct zint_symbol] this file reads or writes.
    [encoded_data] is the module matrix, addressed by row and column. *)
Record zint_symbol : Type := mk_symbol {
  symbology : symbology_t;
  option_2 : Z;
  rows : Z;
  width : Z;
  row_height : Z -> Z;
  encoded_data : Z -> Z -> bool;
  text : list ascii;
  errtxt : list ascii
}.

Definition set_option_2 (s : zint_symbol) (v : Z) : zint_symbol :=
  mk_symbol (symbology s) v (rows s) (width s) (row_height s) (encoded_data s)
            (text s) (errtxt s).

Definition set_rows (s : zint_symbol) (v : Z) : zint_symbol :=
  mk_symbol (symbology s) (option_2 s) v (width s) (row_height s) (encoded_data s)
            (text s) (errtxt s).

Definition set_width (s : zint_symbol) (v : Z) : zint_symbol :=
  mk_symbol (symbology s) (option_2 s) (rows s) v (row_height s) (encoded_data s)
            (text s) (errtxt s).

(** [symbol->row_height[y] = h] *)
Definition set_row_height (s : zint_symbol) (y h : Z) : zint_symbol :=
  mk_symbol (symbology s) (option_2 s) (rows s) (width s)
            (fun r => if r =? y then h else row_height s r) (encoded_data s)
            (text s) (errtxt s).

Definition set_text (s : zint_symbol) (v : list ascii) : zint_symbol :=
  mk_symbol (symbology s) (option_2 s) (rows s) (width s) (row_height s)
            (encoded_data s) v (errtxt s).

(** [strcpy(symbol->errtxt, v)] *)
Definition set_errtxt (s : zint_symbol) (v : string) : zint_symbol :=
  mk_symbol (symbology s) (option_2 s) (rows s) (width s) (row_height s)
            (encoded_data s) (text s) (chars v).

Definition write_module (s : zint_symbol) (y x : Z) (b : bool) : zint_symbol :=
  mk_symbol (symbology s) (option_2 s) (rows s) (width s) (row_height s)
            (fun r c => if (r =? y) && (c =? x) then b else encoded_data s r c)
            (text s) (errtxt s).

(** Modelled from the spec: the rasterizer primitives [set_module],
    [unset_module] and [module_is_set] of common.c, on an addressable
    bitmap. *)
Definition set_module (s : zint_symbol) (y x : Z) : zint_symbol := write_module s y x true.

Definition unset_module (s : zint_symbol) (y x : Z) : zint_symbol := write_module s y x false.

Definition module_is_set (s : zint_symbol) (y x : Z) : bool := encoded_data s y x.

(** Modelled from the spec: [expand] of common.c, which turns the pattern of
    run lengths (bar first, bars and spaces alternating) into the modules of
    row [symbol->rows], widens the symbol to the pattern and counts the row. *)
Definition expand (symbol : zint_symbol) (data : list ascii) : zint_symbol :=
  let '(symbol, writer, latch) :=
    for_range 0 (ustrlen data)
      (fun reader '(symbol, writer, latch) =>
         let '(symbol, writer) :=
           for_range 0 (ctoi (char_at data reader))
             (fun _ '(symbol, writer) =>
                ((if latch : bool then set_module symbol (rows symbol) writer else symbol),
                 writer + 1))
             (symbol, writer) in
         (symbol, writer, negb latch))
      (symbol, 0, true) in
  let symbol := if writer >? width symbol then set_width symbol writer else symbol in
  set_rows symbol (rows symbol + 1).

(** ** UPC-A *)

(** UPC A is usually used for 12 digit numbers, but this function takes a
    source of any length *)
Definition upca_draw (source : list ascii) (length : Z) (dest : list ascii) : list ascii :=
  let half_way := Z.quot length 2 in
  (* start character *)
  let dest := ustrcat dest (chars "111") in
  let dest :=
    for_range 0 length
      (fun i dest =>
         let dest := if i =? half_way then ustrcat dest (chars "11111") else dest in
         lookup NEON EANsetA (char_at source i) dest)
      dest in
  (* stop character *)
  ustrcat dest (chars "111").

(** Make a UPC A barcode when we haven't been given the check digit *)
Definition upca (symbol : zint_symbol) (source : list ascii) (length : Z)
    (dest : list ascii) : Z * zint_symbol * list ascii :=
  let gtin := ustrcpy source in
  let finish (gtin : list ascii) (length : Z) :=
    (0, set_text symbol (ustrcpy gtin), upca_draw gtin length dest) in
  if length =? 11 then
    let gtin := set_char gtin 11 (upc_check gtin 11) in
    let gtin := set_char gtin 12 NUL in
    finish gtin 12
  else if negb (Ascii.eqb (char_at source (length - 1)) (upc_check gtin 11)) then
    (ZINT_ERROR_INVALID_CHECK, set_errtxt symbol "270: Invalid check digit", dest)
  else finish gtin length.

(** ** UPC-E *)

(** The number-system prologue of [upce]: the number system, the
    human-readable text started in [hrt], and [source] and [length] once the
    number-system character has been taken off. *)
Definition upce_number_system (symbol : zint_symbol) (source : list ascii) (length : Z)
    : Z * list ascii * list ascii * Z :=
  if (negb (symbology_t_beq (symbology symbol) BARCODE_UPCE_CHK) && (length =? 7))
     || (length =? 8)
  then
    let num_system :=
      if Ascii.eqb (char_at source 0) "0" then 0
      else if Ascii.eqb (char_at source 0) "1" then 1
      else 0 (* First source char ignored *) in
    let hrt := ustrcpy source in
    let source :=
      for_range 1 (length + 1)
        (fun i source => set_char source (i - 1) (char_at hrt i)) source in
    (num_system, hrt, source, length - 1)
  else
    (* Length 6 with no check digit, or length 7 with check digit, system 0,
       insert leading zero *)
    let hrt := set_char [] 0 "0" in
    let hrt := set_char hrt 1 NUL in
    let hrt := ustrncat hrt source length in
    (0, hrt, source, length).

(** Expand the zero-compressed UPCE code to make a UPCA equivalent
    (EN Table 5): [inl] is the text of the error [upce] returns
    [ZINT_ERROR_INVALID_DATA] with, [inr] the array [equivalent]. *)
Definition upce_equivalent (num_system : Z) (hrt source : list ascii)
    : string + list ascii :=
  let emode := char_at source 5 in
  let equivalent := for_range 0 11 (fun i equivalent => set_char equivalent i "0") [] in
  let equivalent :=
    if num_system =? 1 then set_char equivalent 0 (char_at hrt 0) else equivalent in
  let equivalent := set_char equivalent 1 (char_at source 0) in
  let equivalent := set_char equivalent 2 (char_at source 1) in
  let equivalent := set_char equivalent 11 NUL in
  let mode (c : ascii) := Ascii.eqb emode c in
  if mode "0"%char || mode "1"%char || mode "2"%char then
    let equivalent := set_char equivalent 3 emode in
    let equivalent := set_char equivalent 8 (char_at source 2) in
    let equivalent := set_char equivalent 9 (char_at source 3) in
    let equivalent := set_char equivalent 10 (char_at source 4) in
    inr equivalent
  else if mode "3"%char then
    let equivalent := set_char equivalent 3 (char_at source 2) in
    let equivalent := set_char equivalent 9 (char_at source 3) in
    let equivalent := set_char equivalent 10 (char_at source 4) in
    if Ascii.eqb (char_at source 2) "0" || Ascii.eqb (char_at source 2) "1"
       || Ascii.eqb (char_at source 2) "2"
    then (* Note 1 - "X3 shall not be equal to 0, 1 or 2" *)
      inl "271: Invalid UPC-E data"%string
    else inr equivalent
  else if mode "4"%char then
    let equivalent := set_char equivalent 3 (char_at source 2) in
    let equivalent := set_char equivalent 4 (char_at source 3) in
    let equivalent := set_char equivalent 10 (char_at source 4) in
    if Ascii.eqb (char_at source 3) "0"
    then (* Note 2 - "X4 shall not be equal to 0" *)
      inl "272: Invalid UPC-E data"%string
    else inr equivalent
  else if mode "5"%char || mode "6"%char || mode "7"%char || mode "8"%char || mode "9"%char then
    let equivalent := set_char equivalent 3 (char_at source 2) in
    let equivalent := set_char equivalent 4 (char_at source 3) in
    let equivalent := set_char equivalent 5 (char_at source 4) in
    let equivalent := set_char equivalent 10 emode in
    if Ascii.eqb (char_at source 4) "0"
    then (* Note 3 - "X5 shall not be equal to 0" *)
      inl "273: Invalid UPC-E data"%string
    else inr equivalent
  else inr equivalent.

(** Use the number system and check digit information to choose a parity
    scheme *)
Definition upce_parity (num_system : Z) (check_digit : ascii) : list ascii :=
  if num_system =? 1 then ustrcpy (entry UPCParity1 (ctoi check_digit))
  else ustrcpy (entry UPCParity0 (ctoi check_digit)).

(** UPC E is a zero-compressed version of UPC A *)
Definition upce (symbol : zint_symbol) (source : list ascii) (length : Z)
    (dest : list ascii) : Z * zint_symbol * list ascii :=
  (* Two number systems can be used - system 0 and system 1 *)
  let '(num_system, hrt, source, length) := upce_number_system symbol source length in
  match upce_equivalent num_system hrt source with
  | inl msg => (ZINT_ERROR_INVALID_DATA, set_errtxt symbol msg, dest)
  | inr equivalent =>
    (* Get the check digit from the expanded UPCA code *)
    let check_digit := upc_check equivalent 11 in
    let parity := upce_parity num_system check_digit in
    (* start character *)
    let dest := ustrcat dest (chars "111") in
    let dest :=
      for_range 0 length
        (fun i dest =>
           if Ascii.eqb (char_at parity i) "A"
           then lookup NEON EANsetA (char_at source i) dest
           else if Ascii.eqb (char_at parity i) "B"
           then lookup NEON EANsetB (char_at source i) dest
           else dest)
        dest in
    (* stop character *)
    let dest := ustrcat dest (chars "111111") in
    if negb (symbology_t_beq (symbology symbol) BARCODE_UPCE_CHK) then
      let hrt := set_char hrt 7 check_digit in
      let hrt := set_char hrt 8 NUL in
      (0, set_text symbol (ustrcpy hrt), dest)
    else if negb (Ascii.eqb (char_at hrt 7) check_digit) then
      (ZINT_ERROR_INVALID_CHECK, set_errtxt symbol "274: Invalid check digit", dest)
    else (0, set_text symbol (ustrcpy hrt), dest)
  end.

(** ** EAN-2 and EAN-5 add-on codes *)

Definition EAN2 : Z := 102.
Definition EAN5 : Z := 105.

(** The parity pattern [add_on] selects *)
Definition add_on_parity (source : list ascii) (length : Z) : list ascii :=
  (* Determine EAN2 or EAN5 add-on *)
  let code_type := if length =? 2 then EAN2 else EAN5 in
  let parity : list ascii := [] in
  (* Calculate parity for EAN2 *)
  let parity :=
    if code_type =? EAN2 then
      let code_value := 10 * ctoi (char_at source 0) + ctoi (char_at source 1) in
      let parity_bit := Z.rem code_value 4 in
      ustrcpy (entry EAN2Parity parity_bit)
    else parity in
  if code_type =? EAN5 then
    let values := map (fun i => ctoi (char_at source i)) [0; 1; 2; 3; 4; 5] in
    let value i := nth i values 0 in
    let parity_sum := 3 * (value 0%nat + value 2%nat + value 4%nat) in
    let parity_sum := parity_sum + 9 * (value 1%nat + value 3%nat) in
    let parity_bit := Z.rem parity_sum 10 in
    ustrcpy (entry EAN5Parity parity_bit)
  else parity.

Definition add_on (source : list ascii) (length : Z) (dest : list ascii) (addon_gap : Z)
    : list ascii :=
  (* If an add-on then append with space *)
  let dest :=
    if negb (addon_gap =? 0) then
      let i := ustrlen dest in
      let dest := set_char dest i (itoc addon_gap) in
      set_char dest (i + 1) NUL
    else dest in
  (* Start character *)
  let dest := ustrcat dest (chars "112") in
  let parity := add_on_parity source length in
  for_range 0 length
    (fun i dest =>
       let dest :=
         if Ascii.eqb (char_at parity i) "A"
         then lookup NEON EANsetA (char_at source i) dest
         else if Ascii.eqb (char_at parity i) "B"
         then lookup NEON EANsetB (char_at source i) dest
         else dest in
       (* Glyph separator *)
       if negb (i =? length - 1) then ustrcat dest (chars "11") else dest)
    dest.

(** ** EAN-13, EAN-8 and ISBN *)

Definition ean13 (symbol : zint_symbol) (source : list ascii) (length : Z)
    (dest : list ascii) : Z * zint_symbol * list ascii :=
  let parity := set_char [] 0 NUL in
  let gtin := ustrcpy source in
  let finish (gtin : list ascii) (length : Z) :=
    (* Get parity for first half of the symbol *)
    let parity := lookup SODIUM EAN13Parity (char_at gtin 0) parity in
    (* Now get on with the cipher *)
    let half_way := 7 in
    (* start character *)
    let dest := ustrcat dest (chars "111") in
    let dest :=
      for_range 1 length
        (fun i dest =>
           let dest := if i =? half_way then ustrcat dest (chars "11111") else dest in
           if ((i >? 1) && (i <? 7)) && Ascii.eqb (char_at parity (i - 2)) "B"
           then lookup NEON EANsetB (char_at gtin i) dest
           else lookup NEON EANsetA (char_at gtin i) dest)
        dest in
    (* stop character *)
    let dest := ustrcat dest (chars "111") in
    (0, set_text symbol (ustrcpy gtin), dest) in
  (* Add the appropriate check digit *)
  if length =? 12 then
    let gtin := set_char gtin 12 (ean_check gtin 12) in
    let gtin := set_char gtin 13 NUL in
    finish gtin 13
  else if negb (Ascii.eqb (char_at source (length - 1)) (ean_check gtin 12)) then
    (ZINT_ERROR_INVALID_CHECK, set_errtxt symbol "275: Invalid check digit", dest)
  else finish gtin length.

(** Make an EAN-8 barcode when we haven't been given the check digit *)
Definition ean8 (symbol : zint_symbol) (source : list ascii) (length : Z)
    (dest : list ascii) : Z * zint_symbol * list ascii :=
  (* EAN-8 is basically the same as UPC-A but with fewer digits *)
  let gtin := ustrcpy source in
  let finish (gtin : list ascii) (length : Z) :=
    (0, set_text symbol (ustrcpy gtin), upca_draw gtin length dest) in
  if length =? 7 then
    let gtin := set_char gtin 7 (upc_check gtin 7) in
    let gtin := set_char gtin 8 NUL in
    finish gtin 8
  else if negb (Ascii.eqb (char_at source (length - 1)) (upc_check gtin 7)) then
    (ZINT_ERROR_INVALID_CHECK, set_errtxt symbol "276: Invalid check digit", dest)
  else finish gtin length.

(** Make an EAN-13 barcode from an SBN or ISBN *)
Definition isbn (symbol : zint_symbol) (source : list ascii) (src_len : Z)
    (dest : list ascii) : Z * zint_symbol * list ascii :=
  let source := to_upper source in
  let error_number := is_sane (chars "0123456789X") source src_len in
  if error_number =? ZINT_ERROR_INVALID_DATA then
    (error_number, set_errtxt symbol "277: Invalid characters in input", dest)
  (* Input must be 9, 10 or 13 characters *)
  else if negb (src_len =? 9) && negb (src_len =? 10) && negb (src_len =? 13) then
    (ZINT_ERROR_TOO_LONG, set_errtxt symbol "278: Input wrong length", dest)
  else
    let isbn10 (source : list ascii) :=
      if (src_len =? 9) || (src_len =? 10) then
        (* Using 10 digit ISBN or 9 digit SBN padded with leading zero *)
        let check_digit := isbn_check source 9 in
        if negb (Ascii.eqb check_digit (char_at source 9)) then
          (ZINT_ERROR_INVALID_CHECK,
           set_errtxt symbol (if src_len =? 9 then "281: Incorrect SBN check"
                              else "281: Incorrect ISBN check"),
           dest)
        else
          let source :=
            for_down 9 11 (fun i source => set_char source i (char_at source (i - 3)))
                     source in
          let source := set_char source 0 "9" in
          let source := set_char source 1 "7" in
          let source := set_char source 2 "8" in
          let source := set_char source 12 NUL in
          ean13 symbol source 12 dest
      else ean13 symbol source 12 dest in
    let sbn (source : list ascii) :=
      if src_len =? 9 then
        (* Using 9 digit SBN: add leading zero *)
        let source :=
          for_down 10 10 (fun i source => set_char source i (char_at source (i - 1)))
                   source in
        isbn10 (set_char source 0 "0")
      else isbn10 source in
    if src_len =? 13 then
      (* Using 13 character ISBN *)
      if negb ((Ascii.eqb (char_at source 0) "9" && Ascii.eqb (char_at source 1) "7")
               && (Ascii.eqb (char_at source 2) "8" || Ascii.eqb (char_at source 2) "9"))
      then (ZINT_ERROR_INVALID_DATA, set_errtxt symbol "279: Invalid ISBN", dest)
      else
        let check_digit := ean_check source 12 in
        if negb (Ascii.eqb (char_at source (src_len - 1)) check_digit) then
          (ZINT_ERROR_INVALID_CHECK, set_errtxt symbol "280: Incorrect ISBN check", dest)
        else sbn (set_char source 12 NUL)
    else sbn source.

(** ** Leading zeroes *)

(** The first loop of [ean_leading_zeroes]: whether a [+] was met, and the
    number of characters before it and of characters other than [+] after it. *)
Definition part_lengths (source : list ascii) : Z * Z * Z :=
  let h := ustrlen source in
  for_range 0 h
    (fun i '(with_addon, first_len, second_len) =>
       if Ascii.eqb (char_at source i) "+" then (1, first_len, second_len)
       else if with_addon =? 0 then (with_addon, first_len + 1, second_len)
       else (with_addon, first_len, second_len + 1))
    (0, 0, 0).

(** Calculate target lengths *)
Definition target_lengths (symbol : zint_symbol) (first_len second_len : Z) : Z * Z :=
  let zsecond_len :=
    if second_len =? 0 then 0
    else if second_len <=? 5 then (if second_len <=? 2 then 2 else 5)
    else 0 in
  let small (zfirst_len : Z) :=
    if first_len <=? 5 then (if first_len <=? 2 then 2 else 5) else zfirst_len in
  let zfirst_len :=
    match symbology symbol with
    | BARCODE_EANX | BARCODE_EANX_CC =>
      let zfirst_len :=
        if first_len <=? 12 then (if first_len <=? 7 then 7 else 12) else 0 in
      if (second_len =? 0) && symbology_t_beq (symbology symbol) BARCODE_EANX
      then (* No composite EAN-2/5 *) small zfirst_len
      else zfirst_len
    | BARCODE_EANX_CHK =>
      let zfirst_len :=
        if first_len <=? 13 then (if first_len <=? 8 then 8 else 13) else 0 in
      if second_len =? 0 then small zfirst_len else zfirst_len
    | BARCODE_UPCA | BARCODE_UPCA_CC => 11
    | BARCODE_UPCA_CHK => 12
    | BARCODE_UPCE | BARCODE_UPCE_CC =>
      if first_len =? 7 then 7 else if first_len <=? 6 then 6 else 0
    | BARCODE_UPCE_CHK =>
      if first_len =? 8 then 8 else if first_len <=? 7 then 7 else 0
    | BARCODE_ISBNX => if first_len <=? 9 then 9 else 0
    | BARCODE_OTHER => 0
    end in
  (zfirst_len, zsecond_len).

(** Add leading zeroes to EAN and UPC strings: [None] is the result 0, and
    [Some] the result 1 with what is left in [local_source] and
    [*p_with_addon]. *)
Definition ean_leading_zeroes (symbol : zint_symbol) (source local_source : list ascii)
    : option (list ascii * Z) :=
  let '(with_addon, first_len, second_len) := part_lengths source in
  if (first_len >? 13) || (second_len >? 5) then None
  else
    (* Split input into two strings *)
    let first_part :=
      for_range 0 first_len (fun i part => set_char part i (char_at source i)) [] in
    let first_part := set_char first_part first_len NUL in
    let second_part :=
      for_range 0 second_len
        (fun i part => set_char part i (char_at source (i + first_len + 1))) [] in
    let second_part := set_char second_part second_len NUL in
    let '(zfirst_len, zsecond_len) := target_lengths symbol first_len second_len in
    (* Add leading zeroes *)
    let zfirst_part := set_char [] 0 NUL in
    let zfirst_part :=
      for_range 0 (zfirst_len - first_len) (fun _ z => ustrcat z (chars "0")) zfirst_part in
    let zfirst_part := ustrcat zfirst_part first_part in
    let zsecond_part := set_char [] 0 NUL in
    let zsecond_part :=
      for_range 0 (zsecond_len - second_len) (fun _ z => ustrcat z (chars "0"))
                zsecond_part in
    let zsecond_part := ustrcat zsecond_part second_part in
    (* Copy adjusted data back to local_source *)
    let local_source := ustrcat local_source zfirst_part in
    let local_source :=
      if negb (Ascii.eqb (char_at zsecond_part 0) NUL)
      then ustrcat (ustrcat local_source (chars "+")) zsecond_part
      else local_source in
    Some (local_source, with_addon).

(** ** The entry point *)

(** [do body while (cond)], run for at most [fuel] turns *)
Fixpoint do_while {St : Type} (fuel : nat) (body : St -> St) (cond : St -> bool)
    (st : St) : St :=
  match fuel with
  | O => st
  | S fuel' =>
    let st := body st in
    if cond st then do_while fuel' body cond st else st
  end.

(** The state of the loop that splits [local_source] at its [+] *)
Record split_state : Type := mk_split {
  sp_first_part : list ascii;
  sp_second_part : list ascii;
  sp_latch : bool;
  sp_reader : Z;
  sp_writer : Z
}.

Definition split_body (local_source : list ascii) (st : split_state) : split_state :=
  let st :=
    if Ascii.eqb (char_at local_source (sp_reader st)) "+" then
      mk_split (set_char (sp_first_part st) (sp_writer st) NUL) (sp_second_part st)
               true (sp_reader st + 1) 0
    else st in
  if sp_latch st then
    mk_split (sp_first_part st)
             (set_char (sp_second_part st) (sp_writer st)
                       (char_at local_source (sp_reader st)))
             (sp_latch st) (sp_reader st + 1) (sp_writer st + 1)
  else
    mk_split (set_char (sp_first_part st) (sp_writer st)
                       (char_at local_source (sp_reader st)))
             (sp_second_part st)
             (sp_latch st) (sp_reader st + 1) (sp_writer st + 1).

(** The loop runs while [reader <= local_length] and every turn moves
    [reader] on, so [local_length + 1] turns are enough
    (see [split_parts_done]). *)
Definition split_parts (local_source : list ascii) : split_state :=
  let local_length := ustrlen local_source in
  do_while (Z.to_nat (local_length + 1)) (split_body local_source)
           (fun st => sp_reader st <=? local_length)
           (mk_split [] [] false 0 0).

(** The gap before the add-on *)
Definition eanx_addon_gap (symbol : zint_symbol) : Z :=
  if symbology_t_beq (symbology symbol) BARCODE_UPCA
     || symbology_t_beq (symbology symbol) BARCODE_UPCA_CHK
     || symbology_t_beq (symbology symbol) BARCODE_UPCA_CC
  then (if (option_2 symbol >=? 9) && (option_2 symbol <=? 12) then option_2 symbol else 9)
  else (if (option_2 symbol >=? 7) && (option_2 symbol <=? 12) then option_2 symbol else 7).

(** The checks and the normalisation [eanx] starts with: [inl] is the result
    and error text of an early return, [inr] gives [first_part],
    [second_part] and [addon_gap]. *)
Definition eanx_parts (symbol : zint_symbol) (source : list ascii) (src_len : Z)
    : Z * string + list ascii * list ascii * Z :=
  if src_len >? 19 then inl (ZINT_ERROR_TOO_LONG, "283: Input too long"%string)
  else
    let sane :=
      if negb (symbology_t_beq (symbology symbol) BARCODE_ISBNX)
      then (* ISBN has its own checking routine *)
        (is_sane (chars "0123456789+") source src_len, "284: Invalid characters in data"%string)
      else
        (is_sane (chars "0123456789Xx+") source src_len,
         "285: Invalid characters in input"%string) in
    if fst sane =? ZINT_ERROR_INVALID_DATA then inl sane
    else
      (* Add leading zeroes, checking max lengths of parts *)
      match ean_leading_zeroes symbol source [] with
      | None => inl (ZINT_ERROR_TOO_LONG, "294: Input too long"%string)
      | Some (local_source, with_addon) =>
        if negb (with_addon =? 0) then
          let st := split_parts local_source in
          inr (sp_first_part st, sp_second_part st, eanx_addon_gap symbol)
        else inr (ustrcpy local_source, [], 0)
      end.

(** The vertical separator bars of a composite symbol (ISO/IEC 24723
    section 11.4) in the three rows from [symbol->rows] on, which are then
    counted; [right] is the column of the right bar in the outer rows. *)
Definition separator_rows (symbol : zint_symbol) (right : Z) : zint_symbol :=
  let symbol := set_module symbol (rows symbol) 1 in
  let symbol := set_module symbol (rows symbol) right in
  let symbol := set_module symbol (rows symbol + 1) 0 in
  let symbol := set_module symbol (rows symbol + 1) (right + 1) in
  let symbol := set_module symbol (rows symbol + 2) 1 in
  let symbol := set_module symbol (rows symbol + 2) right in
  let symbol := set_row_height symbol (rows symbol) 2 in
  let symbol := set_row_height symbol (rows symbol + 1) 2 in
  let symbol := set_row_height symbol (rows symbol + 2) 2 in
  set_rows symbol (rows symbol + 3).

(** The [switch] on the symbology: the primary symbol.  A [return] from
    inside the [switch] gives a result that is at least [ZINT_ERROR], as an
    [error_number] that stops [eanx] right after the [switch] does. *)
Definition eanx_primary (symbol : zint_symbol) (first_part : list ascii)
    (dest : list ascii) : Z * zint_symbol * list ascii :=
  let first_part_len := ustrlen first_part in
  match symbology symbol with
  | BARCODE_EANX | BARCODE_EANX_CHK =>
    if (first_part_len =? 2) || (first_part_len =? 5) then
      (0, set_text symbol (ustrcpy first_part), add_on first_part first_part_len dest 0)
    else if (first_part_len =? 7) || (first_part_len =? 8) then
      ean8 symbol first_part first_part_len dest
    else if (first_part_len =? 12) || (first_part_len =? 13) then
      ean13 symbol first_part first_part_len dest
    else (ZINT_ERROR_TOO_LONG, set_errtxt symbol "286: Input wrong length", dest)
  | BARCODE_EANX_CC =>
    if first_part_len =? 7 then
      ean8 (separator_rows symbol 67) first_part first_part_len dest
    else if (first_part_len =? 12) || (first_part_len =? 13) then
      ean13 (separator_rows symbol 95) first_part first_part_len dest
    else (ZINT_ERROR_TOO_LONG, set_errtxt symbol "287: Input wrong length", dest)
  | BARCODE_UPCA | BARCODE_UPCA_CHK =>
    if (first_part_len =? 11) || (first_part_len =? 12) then
      upca symbol first_part first_part_len dest
    else (ZINT_ERROR_TOO_LONG, set_errtxt symbol "288: Input wrong length", dest)
  | BARCODE_UPCA_CC =>
    if (first_part_len =? 11) || (first_part_len =? 12) then
      upca (separator_rows symbol 95) first_part first_part_len dest
    else (ZINT_ERROR_TOO_LONG, set_errtxt symbol "289: Input wrong length", dest)
  | BARCODE_UPCE | BARCODE_UPCE_CHK =>
    if (first_part_len >=? 6)
       && (first_part_len <=? (if symbology_t_beq (symbology symbol) BARCODE_UPCE
                               then 7 else 8))
    then upce symbol first_part first_part_len dest
    else (ZINT_ERROR_TOO_LONG, set_errtxt symbol "290: Input wrong length", dest)
  | BARCODE_UPCE_CC =>
    if (first_part_len >=? 6) && (first_part_len <=? 7) then
      upce (separator_rows symbol 51) first_part first_part_len dest
    else (ZINT_ERROR_TOO_LONG, set_errtxt symbol "291: Input wrong length", dest)
  | BARCODE_ISBNX => isbn symbol first_part first_part_len dest
  | BARCODE_OTHER => (0, symbol, dest)
  end.

(** The add-on after the primary symbol *)
Definition eanx_addon (symbol : zint_symbol) (second_part : list ascii)
    (dest : list ascii) (addon_gap : Z) : Z * zint_symbol * list ascii :=
  let second_part_len := ustrlen second_part in
  if second_part_len =? 0 then (0, symbol, dest)
  else if (second_part_len =? 2) || (second_part_len =? 5) then
    let dest := add_on second_part second_part_len dest addon_gap in
    let symbol := set_text symbol (ustrcat (text symbol) (chars "+")) in
    let symbol := set_text symbol (ustrcat (text symbol) second_part) in
    (0, symbol, dest)
  else (ZINT_ERROR_TOO_LONG, set_errtxt symbol "292: Add-on input wrong length", dest).

(** shift the symbol to the right one space to allow for separator bars *)
Definition eanx_shift (symbol : zint_symbol) : zint_symbol :=
  match symbology symbol with
  | BARCODE_EANX_CC | BARCODE_UPCA_CC | BARCODE_UPCE_CC =>
    let symbol :=
      for_down (Z.to_nat (width symbol + 1)) (width symbol + 1)
        (fun i symbol =>
           if module_is_set symbol (rows symbol - 1) (i - 1)
           then set_module symbol (rows symbol - 1) i
           else unset_module symbol (rows symbol - 1) i)
        symbol in
    let symbol := unset_module symbol (rows symbol - 1) 0 in
    set_width symbol (width symbol + 2)
  | _ => symbol
  end.

(** The pattern of the whole symbol, before it is expanded: the result, the
    symbol and [dest]. *)
Definition eanx_linear (symbol : zint_symbol) (source : list ascii) (src_len : Z)
    : Z * zint_symbol * list ascii :=
  match eanx_parts symbol source src_len with
  | inl (error_number, msg) => (error_number, set_errtxt symbol msg, [])
  | inr (first_part, second_part, addon_gap) =>
    let '(error_number, symbol, dest) := eanx_primary symbol first_part [] in
    if error_number >=? ZINT_ERROR then (error_number, symbol, dest)
    else
      let '(addon_error, symbol, dest) := eanx_addon symbol second_part dest addon_gap in
      if addon_error >=? ZINT_ERROR then (addon_error, symbol, dest)
      else (error_number, symbol, dest)
  end.

Definition eanx (symbol : zint_symbol) (source : list ascii) (src_len : Z)
    : Z * zint_symbol :=
  let '(error_number, symbol, dest) := eanx_linear symbol source src_len in
  if error_number >=? ZINT_ERROR then (error_number, symbol)
  else (error_number, eanx_shift (expand symbol dest)).

(** * Specification *)

(** The notions the claims are stated with: predicates on the input,
    quantities in the words of the specification, and the invariants of
    the loops. *)

Definition is_digit (c : ascii) : bool := (48 <=? code_of c) && (code_of c <=? 57).

(** The first [n] cells of [s] hold digits. *)
Definition digits_upto (s : list ascii) (n : Z) : Prop :=
  forall i, 0 <= i < n -> is_digit (char_at s i) = true.

(** The value of a digit character and the character of a digit, as the
    specification uses them. *)
Definition digit_value (c : ascii) : Z := code_of c - 48.

Definition digit_char (n : Z) : ascii := char_of (48 + n).

(** [f lo + f (lo + 1) + ...], [n] terms *)
Fixpoint sum_from (n : nat) (i : Z) (f : Z -> Z) : Z :=
  match n with
  | O => 0
  | S n' => f i + sum_from n' (i + 1) f
  end.

(** The weighted sum of the specification: [digit[i]] times [weight i],
    over the first [length] characters. *)
Definition weighted_sum (weight : Z -> Z) (source : list ascii) (length : Z) : Z :=
  sum_from (Z.to_nat length) 0 (fun i => digit_value (char_at source i) * weight i).

(** Weight 3 at the even 0-based indices and 1 at the odd ones (UPC), and
    the flipped convention (EAN-13). *)
Definition upc_weight (i : Z) : Z := if Z.even i then 3 else 1.

Definition ean_weight (i : Z) : Z := if Z.even i then 1 else 3.

(** [(10 - (sum mod 10)) mod 10] *)
Definition mod10_check (sum : Z) : Z := (10 - sum mod 10) mod 10.

(** The sum of the specification for ISBN-10 and SBN: [digit[i]] times
    [i + 1], for [i] from 0 to 8. *)
Definition isbn_sum (source : list ascii) : Z :=
  sum_from 9 0 (fun i => digit_value (char_at source i) * (i + 1)).

(** The keys of the specification: [(10 * d0 + d1) mod 4] for EAN-2, and
    the sum of the five digits weighted 3, 9, 3, 9, 3, modulo 10, for EAN-5. *)
Definition ean2_key (source : list ascii) : Z :=
  let d i := digit_value (char_at source i) in
  (10 * d 0 + d 1) mod 4.

Definition ean5_key (source : list ascii) : Z :=
  let d i := digit_value (char_at source i) in
  (3 * (d 0 + d 2 + d 4) + 9 * (d 1 + d 3)) mod 10.

(** The combinations the standard forbids, in the words of the
    specification: mode 3 with [digits[2]] among 0, 1, 2; mode 4 with
    [digits[3]] 0; modes 5 to 9 with [digits[4]] 0. *)
Definition upce_forbidden (digits : list ascii) : bool :=
  let d i := char_at digits i in
  let emode := d 5 in
  (Ascii.eqb emode "3" && (Ascii.eqb (d 2) "0" || Ascii.eqb (d 2) "1" || Ascii.eqb (d 2) "2"))
  || (Ascii.eqb emode "4" && Ascii.eqb (d 3) "0")
  || ((Ascii.eqb emode "5" || Ascii.eqb emode "6" || Ascii.eqb emode "7"
       || Ascii.eqb emode "8" || Ascii.eqb emode "9")
      && Ascii.eqb (d 4) "0").

(** A symbol as [ZBarcode_Create] hands it out: no rows, no modules, no text. *)
Definition new_symbol (s : symbology_t) : zint_symbol :=
  mk_symbol s 0 0 0 (fun _ => 0) (fun _ _ => false) [] [].

(** The characters [eanx] lets through: digits and [+] *)
Definition is_sodium (c : ascii) : bool := is_digit c || Ascii.eqb c "+".

(** The step of the loop of [part_lengths] *)
Definition count_char (c : ascii) (st : Z * Z * Z) : Z * Z * Z :=
  let '(with_addon, first_len, second_len) := st in
  if Ascii.eqb c "+" then (1, first_len, second_len)
  else if with_addon =? 0 then (with_addon, first_len + 1, second_len)
  else (with_addon, first_len, second_len + 1).

(** [s] is [s0] but for the modules of row [y]. *)
Definition same_but_row (y : Z) (s0 s : zint_symbol) : Prop :=
  symbology s = symbology s0 /\ option_2 s = option_2 s0 /\ rows s = rows s0
  /\ width s = width s0 /\ row_height s = row_height s0
  /\ text s = text s0 /\ errtxt s = errtxt s0
  /\ forall r c, r <> y -> encoded_data s r c = encoded_data s0 r c.

(** The separator modules of the reserved row [k] (0, 1 or 2), [right] being
    the column of the right bar in the outer rows. *)
Definition separator_module (right k c : Z) : bool :=
  ((k =? 0) && ((c =? 1) || (c =? right)))
  || ((k =? 1) && ((c =? 0) || (c =? right + 1)))
  || ((k =? 2) && ((c =? 1) || (c =? right))).

(** The loop of [eanx_shift], from column [i] down *)
Definition shift_step (i : Z) (symbol : zint_symbol) : zint_symbol :=
  if module_is_set symbol (rows symbol - 1) (i - 1)
  then set_module symbol (rows symbol - 1) i
  else unset_module symbol (rows symbol - 1) i.

(** Columns above [i] hold what was one column to their left. *)
Definition shifted_above (s0 : zint_symbol) (i : Z) (s : zint_symbol) : Prop :=
  same_but_row (rows s0 - 1) s0 s
  /\ forall c, encoded_data s (rows s0 - 1) c
               = if (i <? c) && (c <=? width s0 + 1)
                 then encoded_data s0 (rows s0 - 1) (c - 1)
                 else encoded_data s0 (rows s0 - 1) c.

Definition is_composite (s : symbology_t) : bool :=
  match s with
  | BARCODE_EANX_CC | BARCODE_UPCA_CC | BARCODE_UPCE_CC => true
  | _ => false
  end.

(** [s'] is [s] but for its text. *)
Definition same_but_text (s s' : zint_symbol) : Prop :=
  symbology s' = symbology s /\ option_2 s' = option_2 s /\ rows s' = rows s
  /\ width s' = width s /\ row_height s' = row_height s
  /\ encoded_data s' = encoded_data s.

(** [x] is a string that starts with [prefix]. *)
Definition appended (prefix x : list ascii) : Prop :=
  (exists body, x = prefix ++ body) /\ cstring x = x.

(** The gap in the words of the specification: the override when it lies
    in 9..12 for the UPC-A symbologies and in 7..12 for the others, and 9 or
    7 otherwise. *)
Definition gap_in_words (s : symbology_t) (override : Z) : Z :=
  match s with
  | BARCODE_UPCA | BARCODE_UPCA_CHK | BARCODE_UPCA_CC =>
    if (9 <=? override) && (override <=? 12) then override else 9
  | _ => if (7 <=? override) && (override <=? 12) then override else 7
  end.

(** ** Patterns in closed form *)

(** What the loops of the encoders append, as functions of the digits: the
    further properties are proved through them. *)

(** The bars of one digit in a representation set *)
Definition digit_bars (table : list (list ascii)) (c : ascii) : list ascii :=
  cstring (entry table (ctoi c)).

(** The modules a pattern of run lengths takes: the sum of its run lengths,
    a character that is no run length taking none. *)
Definition modules (pattern : list ascii) : Z :=
  fold_right (fun c acc => Z.max 0 (ctoi c) + acc) 0 pattern.

(** The characters [s], each drawn by [glyph] with its index, from index
    [i] on. *)
Fixpoint bars_from (glyph : Z -> ascii -> list ascii) (i : Z) (s : list ascii)
    : list ascii :=
  match s with
  | [] => []
  | c :: r => glyph i c ++ bars_from glyph (i + 1) r
  end.

(** The centre guard, which comes before the digit at index [half_way] *)
Definition centre_guard (half_way i : Z) : list ascii :=
  if i =? half_way then chars "11111" else [].

(** What one turn of the loop of [upca_draw] appends *)
Definition upca_glyph (half_way i : Z) (c : ascii) : list ascii :=
  centre_guard half_way i ++ digit_bars EANsetA c.

(** What one turn of the loop of [ean13] appends: set B where [parity] says
    so, for the digits at the indices 2 to 6 *)
Definition ean13_glyph (parity : list ascii) (i : Z) (c : ascii) : list ascii :=
  centre_guard 7 i
  ++ (if ((i >? 1) && (i <? 7)) && Ascii.eqb (char_at parity (i - 2)) "B"
      then digit_bars EANsetB c else digit_bars EANsetA c).

(** What one turn of the loop of [upce] appends *)
Definition parity_glyph (parity : list ascii) (i : Z) (c : ascii) : list ascii :=
  if Ascii.eqb (char_at parity i) "A" then digit_bars EANsetA c
  else if Ascii.eqb (char_at parity i) "B" then digit_bars EANsetB c
  else [].

(** What one turn of the loop of [add_on] appends: the digit, and the glyph
    separator but after the last one *)
Definition add_on_glyph (parity : list ascii) (length i : Z) (c : ascii) : list ascii :=
  parity_glyph parity i c ++ (if negb (i =? length - 1) then chars "11" else []).

(** The pattern of a number drawn as [upca_draw] does it, after what the
    caller's [dest] holds *)
Definition upca_pattern (dest gtin : list ascii) : list ascii :=
  cstring dest ++ chars "111"
  ++ bars_from (upca_glyph (Z.quot (Z.of_nat (List.length gtin)) 2)) 0 gtin
  ++ chars "111".

(** The pattern of an EAN-13 number, after what the caller's [dest] holds:
    its first digit selects the sets of the next six and is not drawn. *)
Definition ean13_pattern (dest gtin : list ascii) : list ascii :=
  cstring dest ++ chars "111"
  ++ bars_from (ean13_glyph (digit_bars EAN13Parity (char_at gtin 0))) 1 (tl gtin)
  ++ chars "111".

(** The step of the outer loop of [expand], for the run length [c] *)
Definition expand_step (c : ascii) (st : zint_symbol * Z * bool) : zint_symbol * Z * bool :=
  let '(symbol, writer, latch) := st in
  let '(symbol, writer) :=
    for_range 0 (ctoi c)
      (fun _ '(symbol, writer) =>
         ((if latch : bool then set_module symbol (rows symbol) writer else symbol),
          writer + 1))
      (symbol, writer) in
  (symbol, writer, negb latch).

(** [s] with zeroes in front, to [n] characters *)
Definition zero_padded (n : nat) (s : list ascii) : list ascii :=
  repeat "0"%char (n - List.length s) ++ s.

(** The pattern of a UPC-E symbol, after what the caller's [dest] holds *)
Definition upce_pattern (dest parity digits : list ascii) : list ascii :=
  cstring dest ++ chars "111" ++ bars_from (parity_glyph parity) 0 digits
  ++ chars "111111".

(** The UPC-A equivalent of the six digits of a UPC-E code (EN Table 5),
    after the number system [h]: the mode digit, the sixth, says where the
    zeroes go. *)
Definition upce_expansion (h : ascii) (digits : list ascii) : list ascii :=
  let d i := char_at digits i in
  let z := "0"%char in
  let mode (c : ascii) := Ascii.eqb (d 5) c in
  if mode "0"%char || mode "1"%char || mode "2"%char
  then [h; d 0; d 1; d 5; z; z; z; z; d 2; d 3; d 4]
  else if mode "3"%char then [h; d 0; d 1; d 2; z; z; z; z; z; d 3; d 4]
  else if mode "4"%char then [h; d 0; d 1; d 2; d 3; z; z; z; z; z; d 4]
  else [h; d 0; d 1; d 2; d 3; d 4; z; z; z; z; d 5].

(** The pattern of an add-on, after what the caller's [dest] holds: the
    gap, when there is one, the start and the digits with their separators *)
Definition add_on_pattern (dest : list ascii) (gap : Z) (parity addon : list ascii)
    : list ascii :=
  cstring dest ++ (if gap =? 0 then [] else [itoc gap]) ++ chars "112"
  ++ bars_from (add_on_glyph parity (Z.of_nat (List.length addon))) 0 addon.

(** Glyphs of the same length at every place, from which the digit can be
    read *)
Definition readable (g g' : Z -> ascii -> list ascii) : Prop :=
  forall i c c', is_digit c = true -> is_digit c' = true ->
                 List.length (g i c) = List.length (g' i c')
                 /\ (g i c = g' i c' -> c = c').

(** * Properties *)

(** ** Digits *)

Lemma code_of_range (c : ascii) : 0 <= code_of c < 256.
Proof.
  unfold code_of. pose proof (N_ascii_bounded c). lia.
Qed.

Lemma char_of_code (c : ascii) : char_of (code_of c) = c.
Proof.
  unfold char_of. rewrite Z.mod_small by apply code_of_range.
  unfold code_of. rewrite N2Z.id. apply ascii_N_embedding.
Qed.

Lemma code_of_char (n : Z) : 0 <= n < 256 -> code_of (char_of n) = n.
Proof.
  intros H. unfold code_of, char_of. rewrite Z.mod_small by exact H.
  rewrite N_ascii_embedding by lia. lia.
Qed.

Lemma code_of_inj (a b : ascii) : code_of a = code_of b -> a = b.
Proof.
  intros H. rewrite <- (char_of_code a), <- (char_of_code b), H. reflexivity.
Qed.

Lemma is_digit_range (c : ascii) : is_digit c = true <-> 48 <= code_of c <= 57.
Proof.
  unfold is_digit. rewrite andb_true_iff, !Z.leb_le. tauto.
Qed.

Lemma ctoi_digit (c : ascii) : is_digit c = true -> ctoi c = digit_value c.
Proof.
  unfold ctoi, digit_value. intros H. unfold is_digit in H. rewrite H. reflexivity.
Qed.

Lemma digit_value_range (c : ascii) : is_digit c = true -> 0 <= digit_value c <= 9.
Proof.
  rewrite is_digit_range. unfold digit_value. lia.
Qed.

Lemma digit_char_value (c : ascii) : is_digit c = true -> digit_char (digit_value c) = c.
Proof.
  intros _. unfold digit_char, digit_value.
  replace (48 + (code_of c - 48)) with (code_of c) by lia. apply char_of_code.
Qed.

Lemma itoc_digit (n : Z) : 0 <= n <= 9 -> itoc n = digit_char n.
Proof.
  intros H. unfold itoc, digit_char.
  replace ((0 <=? n) && (n <=? 9)) with true; [reflexivity|].
  symmetry. apply andb_true_iff. rewrite !Z.leb_le. lia.
Qed.

Lemma is_digit_digit_char (n : Z) : 0 <= n <= 9 -> is_digit (digit_char n) = true.
Proof.
  intros H. apply is_digit_range. unfold digit_char. rewrite code_of_char; lia.
Qed.

Lemma is_digit_not (c d : ascii) :
  is_digit c = true -> is_digit d = false -> Ascii.eqb c d = false.
Proof.
  intros Hc Hd. destruct (Ascii.eqb_spec c d) as [->|]; congruence.
Qed.

Lemma is_digit_not_nul (c : ascii) : is_digit c = true -> Ascii.eqb c NUL = false.
Proof.
  intros H. apply is_digit_not; auto.
Qed.

Lemma is_digit_not_plus (c : ascii) : is_digit c = true -> Ascii.eqb c "+" = false.
Proof.
  intros H. apply is_digit_not; auto.
Qed.

Lemma digits_upto_all (s : list ascii) (n : Z) :
  forallb is_digit s = true -> n <= Z.of_nat (List.length s) -> digits_upto s n.
Proof.
  intros Hall Hn i Hi. unfold char_at.
  destruct (Z.ltb_spec i 0) as [|_]; [lia|].
  rewrite forallb_forall in Hall. apply Hall, nth_In. lia.
Qed.

(** ** Loops *)

Lemma for_up_add (f : Z -> Z) (n : nat) :
  forall i acc, for_up n i (fun i acc => acc + f i) acc = acc + sum_from n i f.
Proof.
  induction n as [|n IH]; intros i acc; simpl.
  - lia.
  - rewrite IH. lia.
Qed.

Lemma sum_from_ext (f g : Z -> Z) (n : nat) :
  forall i, (forall k, i <= k < i + Z.of_nat n -> f k = g k) ->
            sum_from n i f = sum_from n i g.
Proof.
  induction n as [|n IH]; intros i H; simpl; [reflexivity|].
  rewrite (H i) by lia. rewrite (IH (i + 1)); [reflexivity|].
  intros k Hk. apply H. lia.
Qed.

Lemma sum_from_nonneg (f : Z -> Z) (n : nat) :
  forall i, (forall k, i <= k < i + Z.of_nat n -> 0 <= f k) -> 0 <= sum_from n i f.
Proof.
  induction n as [|n IH]; intros i H; simpl; [lia|].
  assert (0 <= f i) by (apply H; lia).
  assert (0 <= sum_from n (i + 1) f) by (apply IH; intros k Hk; apply H; lia).
  lia.
Qed.

Lemma for_up_weighted (f : Z -> Z) (n : nat) :
  forall i sum weight,
    for_up n i (fun i '(sum, weight) => (sum + f i * weight, weight + 1)) (sum, weight)
    = (sum + sum_from n i (fun k => f k * (weight + (k - i))), weight + Z.of_nat n).
Proof.
  induction n as [|n IH]; intros i sum weight.
  - simpl. f_equal; lia.
  - cbn [for_up sum_from]. rewrite IH. f_equal; [|lia].
    replace (weight + (i - i)) with weight by lia.
    rewrite <- Z.add_assoc. f_equal. f_equal.
    apply sum_from_ext. intros k _. f_equal. lia.
Qed.

Lemma land_1_even (i : Z) : negb (Z.land i 1 =? 0) = negb (Z.even i).
Proof.
  f_equal. change 1 with (Z.ones 1). rewrite Z.land_ones by lia.
  rewrite Zeven_mod. reflexivity.
Qed.

(** ** The check digits (claims C1 and C6) *)

Lemma weighted_sum_nonneg (weight : Z -> Z) (source : list ascii) (length : Z) :
  (forall i, 0 <= weight i) -> digits_upto source length ->
  0 <= weighted_sum weight source length.
Proof.
  intros Hw Hd. apply sum_from_nonneg. intros k Hk.
  assert (0 <= digit_value (char_at source k) <= 9) by (apply digit_value_range, Hd; lia).
  specialize (Hw k). nia.
Qed.

Lemma check_digit_char (count : Z) :
  0 <= count ->
  itoc (if 10 - Z.rem count 10 =? 10 then 0 else 10 - Z.rem count 10)
  = digit_char (mod10_check count).
Proof.
  intros H. unfold mod10_check. rewrite Z.rem_mod_nonneg by lia.
  pose proof (Z.mod_pos_bound count 10 ltac:(lia)) as Hr.
  destruct (Z.eqb_spec (10 - count mod 10) 10) as [E|E].
  - replace (count mod 10) with 0 by lia. reflexivity.
  - rewrite (Z.mod_small (10 - count mod 10)) by lia. apply itoc_digit. lia.
Qed.

Lemma upc_check_spec (source : list ascii) (length : Z) :
  digits_upto source length ->
  upc_check source length = digit_char (mod10_check (weighted_sum upc_weight source length)).
Proof.
  intros Hd. unfold upc_check, for_range. rewrite for_up_add, Z.sub_0_r, Z.add_0_l.
  rewrite (sum_from_ext _ (fun i => digit_value (char_at source i) * upc_weight i)).
  - apply check_digit_char.
    apply weighted_sum_nonneg; [|exact Hd]. intros i. unfold upc_weight.
    destruct (Z.even i); lia.
  - intros k Hk. rewrite land_1_even, ctoi_digit by (apply Hd; lia).
    unfold upc_weight. destruct (Z.even k); cbn [negb]; lia.
Qed.

Lemma ean_check_spec (source : list ascii) (length : Z) :
  digits_upto source length ->
  ean_check source length = digit_char (mod10_check (weighted_sum ean_weight source length)).
Proof.
  intros Hd. unfold ean_check, for_range. rewrite for_up_add, Z.sub_0_r, Z.add_0_l.
  rewrite (sum_from_ext _ (fun i => digit_value (char_at source i) * ean_weight i)).
  - apply check_digit_char.
    apply weighted_sum_nonneg; [|exact Hd]. intros i. unfold ean_weight.
    destruct (Z.even i); lia.
  - intros k Hk. rewrite land_1_even, ctoi_digit by (apply Hd; lia).
    unfold ean_weight. destruct (Z.even k); cbn [negb]; lia.
Qed.

Lemma mod10_check_range (sum : Z) : 0 <= mod10_check sum <= 9.
Proof.
  unfold mod10_check. pose proof (Z.mod_pos_bound (10 - sum mod 10) 10 ltac:(lia)). lia.
Qed.

Lemma upc_check_is_digit (source : list ascii) (length : Z) :
  digits_upto source length -> is_digit (upc_check source length) = true.
Proof.
  intros H. rewrite upc_check_spec by exact H.
  apply is_digit_digit_char, mod10_check_range.
Qed.

Lemma ean_check_is_digit (source : list ascii) (length : Z) :
  digits_upto source length -> is_digit (ean_check source length) = true.
Proof.
  intros H. rewrite ean_check_spec by exact H.
  apply is_digit_digit_char, mod10_check_range.
Qed.

(** C1.  On the 7, 11 or 12 digits it is given, [upc_check] returns the
    digit character of [(10 - (sum mod 10)) mod 10], the sum weighting the
    digit at an even 0-based index by 3 and at an odd index by 1;
    [ean_check] does the same with weight 1 at the even indices and 3 at the
    odd ones.  A raw value of 10 is the check digit 0 in both, which is what
    the outer [mod 10] says. *)
Theorem check_digit_weights (source : list ascii) (length : Z) :
  length = 7 \/ length = 11 \/ length = 12 ->
  digits_upto source length ->
  upc_check source length
  = digit_char (mod10_check (weighted_sum upc_weight source length))
  /\ ean_check source length
     = digit_char (mod10_check (weighted_sum ean_weight source length))
  /\ (weighted_sum upc_weight source length mod 10 = 0 ->
      upc_check source length = "0"%char)
  /\ (weighted_sum ean_weight source length mod 10 = 0 ->
      ean_check source length = "0"%char).
Proof.
  intros _ Hd. rewrite (upc_check_spec source length Hd), (ean_check_spec source length Hd).
  unfold mod10_check. repeat split; intros E; rewrite E; reflexivity.
Qed.

Lemma check_digit_weights_witness :
  upc_check (chars "03600029145") 11 = "2"%char
  /\ ean_check (chars "978019501109") 12 = "8"%char.
Proof.
  split.
  - rewrite (proj1 (check_digit_weights (chars "03600029145") 11
                      (or_intror (or_introl eq_refl))
                      (digits_upto_all (chars "03600029145") 11 eq_refl
                                       ltac:(simpl; lia)))).
    reflexivity.
  - rewrite (proj1 (proj2 (check_digit_weights (chars "978019501109") 12
                             (or_intror (or_intror eq_refl))
                             (digits_upto_all (chars "978019501109") 12 eq_refl
                                              ltac:(simpl; lia))))).
    reflexivity.
Defined.


(** C6.  On nine digits [isbn_check] returns the character of
    [(digit[0] * 1 + ... + digit[8] * 9) mod 11]: its decimal digit when
    that is 0 to 9, and [X] when it is 10. *)
Theorem isbn_check_character (source : list ascii) :
  digits_upto source 9 ->
  isbn_check source 9
  = (if isbn_sum source mod 11 =? 10 then "X"%char
     else digit_char (isbn_sum source mod 11))
  /\ 0 <= isbn_sum source mod 11 <= 10.
Proof.
  intros Hd.
  assert (Hsum : sum_from 9 0 (fun k => ctoi (char_at source k) * (1 + (k - 0)))
                 = isbn_sum source).
  { apply sum_from_ext. intros k Hk. rewrite ctoi_digit by (apply Hd; lia).
    f_equal. lia. }
  assert (Hpos : 0 <= isbn_sum source).
  { apply sum_from_nonneg. intros k Hk.
    assert (0 <= digit_value (char_at source k) <= 9) by (apply digit_value_range, Hd; lia).
    nia. }
  pose proof (Z.mod_pos_bound (isbn_sum source) 11 ltac:(lia)) as Hr.
  split; [|lia].
  unfold isbn_check, for_range. change (Z.to_nat (9 - 0)) with 9%nat.
  rewrite (for_up_weighted (fun i => ctoi (char_at source i))).
  rewrite Hsum, Z.add_0_l, Z.rem_mod_nonneg by lia.
  destruct (Z.eqb_spec (isbn_sum source mod 11) 10) as [E|E]; [reflexivity|].
  apply itoc_digit. lia.
Qed.

Lemma isbn_check_character_witness :
  isbn_check (chars "019501109") 9 = "0"%char
  /\ isbn_check (chars "080442957") 9 = "X"%char.
Proof.
  split.
  - rewrite (proj1 (isbn_check_character (chars "019501109")
                      (digits_upto_all (chars "019501109") 9 eq_refl ltac:(simpl; lia)))).
    reflexivity.
  - rewrite (proj1 (isbn_check_character (chars "080442957")
                      (digits_upto_all (chars "080442957") 9 eq_refl ltac:(simpl; lia)))).
    reflexivity.
Defined.

(** ** The parity of the add-ons (claim C5) *)

Lemma cstring_entry_EAN2Parity (k : Z) :
  0 <= k < 4 -> ustrcpy (entry EAN2Parity k) = entry EAN2Parity k.
Proof.
  intros H. assert (E : k = 0 \/ k = 1 \/ k = 2 \/ k = 3) by lia.
  destruct E as [->|[->|[->| ->]]]; reflexivity.
Qed.

Lemma cstring_entry_EAN5Parity (k : Z) :
  0 <= k < 10 -> ustrcpy (entry EAN5Parity k) = entry EAN5Parity k.
Proof.
  intros H.
  assert (E : k = 0 \/ k = 1 \/ k = 2 \/ k = 3 \/ k = 4 \/ k = 5 \/ k = 6 \/ k = 7
              \/ k = 8 \/ k = 9) by lia.
  repeat (destruct E as [->|E]; [reflexivity|]). subst k. reflexivity.
Qed.

(** C5, amended.  The parity pattern [add_on] selects for a 2-digit add-on
    is [EAN2Parity[(10 * d0 + d1) mod 4]] and for a 5-digit add-on
    [EAN5Parity[(3 * (d0 + d2 + d4) + 9 * (d1 + d3)) mod 10]]; the add-on
    [12] selects entry [(10 * 1 + 2) mod 4 = 0], the pattern [AA]. *)
Theorem add_on_parity_selection (source : list ascii) (length : Z) :
  length = 2 \/ length = 5 ->
  digits_upto source length ->
  add_on_parity source length
  = (if length =? 2 then entry EAN2Parity (ean2_key source)
     else entry EAN5Parity (ean5_key source))
  /\ ean2_key (chars "12") = 0
  /\ add_on_parity (chars "12") 2 = chars "AA".
Proof.
  intros Hlen Hd. split; [|split; reflexivity].
  assert (Hv : forall i, 0 <= i < length ->
                         ctoi (char_at source i) = digit_value (char_at source i)
                         /\ 0 <= digit_value (char_at source i) <= 9).
  { intros i Hi. split; [apply ctoi_digit | apply digit_value_range]; apply Hd; exact Hi. }
  destruct Hlen as [-> | ->].
  - destruct (Hv 0 ltac:(lia)) as [E0 R0], (Hv 1 ltac:(lia)) as [E1 R1].
    unfold add_on_parity, ean2_key. cbn [Z.eqb Pos.eqb EAN2 EAN5].
    rewrite E0, E1, Z.rem_mod_nonneg by lia.
    apply cstring_entry_EAN2Parity, Z.mod_pos_bound. lia.
  - destruct (Hv 0 ltac:(lia)) as [E0 R0], (Hv 1 ltac:(lia)) as [E1 R1],
             (Hv 2 ltac:(lia)) as [E2 R2], (Hv 3 ltac:(lia)) as [E3 R3],
             (Hv 4 ltac:(lia)) as [E4 R4].
    unfold add_on_parity, ean5_key. cbn [Z.eqb Pos.eqb EAN2 EAN5 map nth].
    rewrite E0, E1, E2, E3, E4, Z.rem_mod_nonneg by lia.
    apply cstring_entry_EAN5Parity, Z.mod_pos_bound. lia.
Qed.

Lemma add_on_parity_selection_witness :
  add_on_parity (chars "12") 2 = chars "AA"
  /\ add_on_parity (chars "54321") 5 = chars "BABAA".
Proof.
  split.
  - rewrite (proj1 (add_on_parity_selection (chars "12") 2 (or_introl eq_refl)
                      (digits_upto_all (chars "12") 2 eq_refl ltac:(simpl; lia)))).
    reflexivity.
  - rewrite (proj1 (add_on_parity_selection (chars "54321") 5 (or_intror eq_refl)
                      (digits_upto_all (chars "54321") 5 eq_refl ltac:(simpl; lia)))).
    reflexivity.
Defined.

(** C5 as it is worded fails on its own example: 12 is a multiple of 4, so
    the add-on [12] selects entry 0 of [EAN2Parity], which is [AA]; [BA] is
    entry 2. *)
Lemma add_on_parity_12_not_BA :
  ean2_key (chars "12") <> 2
  /\ add_on_parity (chars "12") 2 <> chars "BA"
  /\ add_on_parity (chars "12") 2 = entry EAN2Parity 0
  /\ entry EAN2Parity 2 = chars "BA".
Proof.
  repeat split; try reflexivity; vm_compute; discriminate.
Qed.

(** ** Strings of digits *)

Lemma cstring_digits (s : list ascii) : forallb is_digit s = true -> cstring s = s.
Proof.
  induction s as [|c s IH]; simpl; [reflexivity|].
  rewrite andb_true_iff. intros [Hc Hs].
  rewrite (is_digit_not_nul c Hc), IH by exact Hs. reflexivity.
Qed.

Lemma ustrlen_digits (s : list ascii) :
  forallb is_digit s = true -> ustrlen s = Z.of_nat (List.length s).
Proof.
  intros H. unfold ustrlen. rewrite cstring_digits by exact H. reflexivity.
Qed.

Lemma cstring_idem (s : list ascii) : cstring (cstring s) = cstring s.
Proof.
  induction s as [|c s IH]; simpl; [reflexivity|].
  destruct (Ascii.eqb c NUL) eqn:E; simpl; [reflexivity|].
  rewrite E, IH. reflexivity.
Qed.

Lemma cstring_app_nul (s t : list ascii) : cstring (cstring s ++ NUL :: t) = cstring s.
Proof.
  induction s as [|c s IH]; simpl; [reflexivity|].
  destruct (Ascii.eqb c NUL) eqn:E; simpl; [reflexivity|].
  rewrite E, IH. reflexivity.
Qed.

Lemma cstring_app (s t : list ascii) : cstring (cstring s ++ cstring t) = cstring s ++ cstring t.
Proof.
  induction s as [|c s IH]; simpl; [apply cstring_idem|].
  destruct (Ascii.eqb c NUL) eqn:E; simpl; [apply cstring_idem|].
  rewrite E, IH. reflexivity.
Qed.

(** ** UPC-E expansion (claims C2 and C3) *)

Ltac case_chars :=
  repeat match goal with
         | |- context [Ascii.eqb ?a ?b] =>
           destruct (Ascii.eqb_spec a b); try subst a; cbn [orb andb negb]
         end.

Lemma upce_equivalent_forbidden (num_system : Z) (hrt source : list ascii) :
  if upce_forbidden source
  then exists msg, upce_equivalent num_system hrt source = inl msg
  else exists equivalent, upce_equivalent num_system hrt source = inr equivalent.
Proof.
  unfold upce_forbidden, upce_equivalent. cbv zeta.
  generalize (char_at source 2) (char_at source 3) (char_at source 4) (char_at source 5).
  intros c2 c3 c4 emode.
  case_chars; try discriminate; eauto.
Qed.

Lemma upce_number_system_6 (symbol : zint_symbol) (source : list ascii) :
  upce_number_system symbol source 6
  = (0, "0"%char :: firstn 6 (cstring source), source, 6).
Proof.
  unfold upce_number_system. cbn [Z.eqb Pos.eqb]. rewrite andb_false_r. reflexivity.
Qed.

Lemma upce_result (symbol : zint_symbol) (source : list ascii) (length : Z)
    (dest : list ascii) :
  let '(num_system, hrt, code, _) := upce_number_system symbol source length in
  match upce_equivalent num_system hrt code with
  | inl msg => upce symbol source length dest
               = (ZINT_ERROR_INVALID_DATA, set_errtxt symbol msg, dest)
  | inr _ => fst (fst (upce symbol source length dest)) = 0
             \/ fst (fst (upce symbol source length dest)) = ZINT_ERROR_INVALID_CHECK
  end.
Proof.
  unfold upce.
  destruct (upce_number_system symbol source length) as [[[num_system hrt] code] len].
  destruct (upce_equivalent num_system hrt code) as [msg|equivalent]; [reflexivity|].
  destruct (negb (symbology_t_beq (symbology symbol) BARCODE_UPCE_CHK)); [left; reflexivity|].
  destruct (negb (Ascii.eqb (char_at hrt 7) (upc_check equivalent 11)));
    [right|left]; reflexivity.
Qed.

Lemma upce_equivalent_low (num_system : Z) (hrt source : list ascii) :
  let d i := char_at source i in
  d 5 = "0"%char \/ d 5 = "1"%char \/ d 5 = "2"%char ->
  upce_equivalent num_system hrt source
  = inr [if num_system =? 1 then char_at hrt 0 else "0"%char; d 0; d 1; d 5;
         "0"%char; "0"%char; "0"%char; "0"%char; d 2; d 3; d 4; NUL].
Proof.
  intros d H. subst d. cbv beta in *. unfold upce_equivalent. cbv zeta.
  revert H.
  generalize (char_at source 0) (char_at source 1) (char_at source 2)
             (char_at source 3) (char_at source 4) (char_at source 5) (char_at hrt 0).
  intros c0 c1 c2 c3 c4 emode h0 H.
  destruct (num_system =? 1); destruct H as [-> | [-> | ->]]; reflexivity.
Qed.

Lemma char_at_cstring_0 (s : list ascii) (c : ascii) :
  char_at s 0 = c -> Ascii.eqb c NUL = false -> char_at (cstring s) 0 = c.
Proof.
  destruct s as [|a s]; cbn; intros <- H; [discriminate H|].
  rewrite H. reflexivity.
Qed.

(** C3.  For a UPC-E code whose mode digit, the sixth, is 0, 1 or 2, the
    UPC-A equivalent has at position 0 the digit [0], or the leading system
    digit the caller supplied when the number system is 1; at positions 1
    and 2 the first two digits; at position 3 the mode digit; zeroes at
    positions 4 to 7; and the third to fifth digits at positions 8 to 10.
    [digits] is the code once [upce] has taken the system digit off. *)
Theorem upce_equivalent_modes_0_1_2 (symbol : zint_symbol) (source : list ascii)
    (length : Z) (num_system : Z) (hrt digits : list ascii) (len : Z) :
  upce_number_system symbol source length = (num_system, hrt, digits, len) ->
  (let emode := char_at digits 5 in
   emode = "0"%char \/ emode = "1"%char \/ emode = "2"%char) ->
  let d i := char_at digits i in
  (num_system = 0 \/ num_system = 1)
  /\ upce_equivalent num_system hrt digits
     = inr [if num_system =? 1 then char_at source 0 else "0"%char; d 0; d 1; d 5;
            "0"%char; "0"%char; "0"%char; "0"%char; d 2; d 3; d 4; NUL].
Proof.
  intros Hns Hmode d.
  rewrite (upce_equivalent_low num_system hrt digits Hmode). fold d.
  unfold upce_number_system in Hns.
  destruct ((negb (symbology_t_beq (symbology symbol) BARCODE_UPCE_CHK) && (length =? 7))
            || (length =? 8)).
  - destruct (Ascii.eqb_spec (char_at source 0) "0") as [E0|E0];
      [injection Hns as <- _ _ _; split; [left|]; reflexivity|].
    destruct (Ascii.eqb_spec (char_at source 0) "1") as [E1|E1];
      [|injection Hns as <- _ _ _; split; [left|]; reflexivity].
    injection Hns as <- <- _ _. split; [right; reflexivity|].
    cbn [Z.eqb Pos.eqb]. unfold ustrcpy.
    rewrite (char_at_cstring_0 source "1" E1 eq_refl), E1. reflexivity.
  - injection Hns as <- _ _ _. split; [left|]; reflexivity.
Qed.

Lemma upce_equivalent_modes_0_1_2_witness :
  upce_equivalent 1 (chars "1123451") (chars "123451" ++ [NUL])
  = inr (chars "11210000345" ++ [NUL])
  /\ upce_equivalent 0 (chars "0123452") (chars "123452")
     = inr (chars "01220000345" ++ [NUL]).
Proof.
  split.
  - exact (proj2 (upce_equivalent_modes_0_1_2 (new_symbol BARCODE_UPCE) (chars "1123451") 7
                    1 (chars "1123451") (chars "123451" ++ [NUL]) 6 eq_refl
                    (or_intror (or_introl eq_refl)))).
  - exact (proj2 (upce_equivalent_modes_0_1_2 (new_symbol BARCODE_UPCE) (chars "123452") 6
                    0 (chars "0123452") (chars "123452") 6 eq_refl
                    (or_intror (or_intror eq_refl)))).
Defined.

(** ** Supplied check digits (claim C4) *)

Lemma eqb_neq (a b : ascii) : a <> b -> Ascii.eqb a b = false.
Proof.
  intros H. destruct (Ascii.eqb_spec a b); [contradiction|reflexivity].
Qed.

Lemma upca_mismatch (symbol : zint_symbol) (source dest : list ascii) :
  forallb is_digit source = true ->
  char_at source 11 <> upc_check source 11 ->
  upca symbol source 12 dest
  = (ZINT_ERROR_INVALID_CHECK, set_errtxt symbol "270: Invalid check digit", dest).
Proof.
  intros Hd Hne. unfold upca, ustrcpy. rewrite !(cstring_digits source Hd).
  cbn [Z.eqb Pos.eqb Z.sub Z.add Z.opp Z.pos_sub Pos.pred_double].
  rewrite (eqb_neq _ _ Hne). reflexivity.
Qed.

Lemma ean13_mismatch (symbol : zint_symbol) (source dest : list ascii) :
  forallb is_digit source = true ->
  char_at source 12 <> ean_check source 12 ->
  ean13 symbol source 13 dest
  = (ZINT_ERROR_INVALID_CHECK, set_errtxt symbol "275: Invalid check digit", dest).
Proof.
  intros Hd Hne. unfold ean13, ustrcpy. rewrite !(cstring_digits source Hd).
  cbn [Z.eqb Pos.eqb Z.sub Z.add Z.opp Z.pos_sub Pos.pred_double].
  rewrite (eqb_neq _ _ Hne). reflexivity.
Qed.

Lemma ean8_mismatch (symbol : zint_symbol) (source dest : list ascii) :
  forallb is_digit source = true ->
  char_at source 7 <> upc_check source 7 ->
  ean8 symbol source 8 dest
  = (ZINT_ERROR_INVALID_CHECK, set_errtxt symbol "276: Invalid check digit", dest).
Proof.
  intros Hd Hne. unfold ean8, ustrcpy. rewrite !(cstring_digits source Hd).
  cbn [Z.eqb Pos.eqb Z.sub Z.add Z.opp Z.pos_sub Pos.pred_double].
  rewrite (eqb_neq _ _ Hne). reflexivity.
Qed.

(** What the prologue of [upce] leaves in [hrt] at index 7 when the check
    digit is supplied: the last character of the input. *)
Lemma upce_chk_hrt (symbol : zint_symbol) (source : list ascii) (length : Z) :
  symbology symbol = BARCODE_UPCE_CHK ->
  forallb is_digit source = true ->
  length = Z.of_nat (List.length source) ->
  length = 7 \/ length = 8 ->
  let '(_, hrt, _, _) := upce_number_system symbol source length in
  char_at hrt 7 = char_at source (length - 1).
Proof.
  intros Hsym Hd Hlen [E|E]; rewrite E in *.
  - assert (Hn : List.length source = 7%nat) by lia. clear Hlen.
    do 8 (destruct source as [|? source]; try discriminate Hn).
    unfold upce_number_system. rewrite Hsym.
    cbn [symbology_t_beq negb andb orb Z.eqb Pos.eqb]. unfold ustrncat.
    rewrite !(cstring_digits _ Hd). reflexivity.
  - assert (Hn : List.length source = 8%nat) by lia. clear Hlen.
    do 9 (destruct source as [|? source]; try discriminate Hn).
    unfold upce_number_system. rewrite orb_true_r. unfold ustrcpy.
    rewrite !(cstring_digits _ Hd). reflexivity.
Qed.

(** ** The first character of a 7-character UPC-E input (claim C10) *)

Lemma upce_equivalent_reads (hrt hrt' source source' : list ascii) :
  (forall i, 0 <= i < 6 -> char_at source i = char_at source' i) ->
  upce_equivalent 0 hrt source = upce_equivalent 0 hrt' source'.
Proof.
  intros H. unfold upce_equivalent. cbn [Z.eqb].
  rewrite (H 0), (H 1), (H 2), (H 3), (H 4), (H 5) by lia. reflexivity.
Qed.

Lemma digits_upto_firstn (s : list ascii) (n : Z) :
  forallb is_digit (firstn (Z.to_nat n) s) = true ->
  (Z.to_nat n <= List.length s)%nat ->
  digits_upto s n.
Proof.
  intros Hall Hlen i Hi.
  pose proof (digits_upto_all (firstn (Z.to_nat n) s) n Hall) as H.
  rewrite length_firstn in H. specialize (H ltac:(lia) i Hi).
  unfold char_at in *. destruct (i <? 0); [exact H|].
  rewrite nth_firstn in H. destruct (Nat.ltb_spec (Z.to_nat i) (Z.to_nat n)); [exact H|lia].
Qed.

Lemma upce_equivalent_digits (hrt source equivalent : list ascii) :
  digits_upto source 6 ->
  upce_equivalent 0 hrt source = inr equivalent ->
  digits_upto equivalent 11 /\ char_at equivalent 0 = "0"%char.
Proof.
  intros Hd.
  pose proof (Hd 0 ltac:(lia)) as H0. pose proof (Hd 1 ltac:(lia)) as H1.
  pose proof (Hd 2 ltac:(lia)) as H2. pose proof (Hd 3 ltac:(lia)) as H3.
  pose proof (Hd 4 ltac:(lia)) as H4. pose proof (Hd 5 ltac:(lia)) as H5.
  clear Hd. unfold upce_equivalent. cbv zeta. cbn [Z.eqb].
  revert H0 H1 H2 H3 H4 H5.
  generalize (char_at source 0) (char_at source 1) (char_at source 2)
             (char_at source 3) (char_at source 4) (char_at source 5).
  intros c0 c1 c2 c3 c4 emode H0 H1 H2 H3 H4 H5.
  case_chars.
  all: intros E; cbv in E; try discriminate E; injection E as <-.
  all: split; [|reflexivity].
  all: apply digits_upto_firstn; [|cbn [List.length]; lia].
  all: change (Z.to_nat 11) with 11%nat; cbn [firstn forallb].
  all: rewrite ?H0, ?H1, ?H2, ?H3, ?H4, ?H5; reflexivity.
Qed.

Lemma not_upce_chk (symbol : zint_symbol) :
  symbology symbol <> BARCODE_UPCE_CHK ->
  symbology_t_beq (symbology symbol) BARCODE_UPCE_CHK = false.
Proof.
  intros H. destruct (symbology symbol); try reflexivity. contradiction.
Qed.

Lemma cstring_digits_nul (s t : list ascii) :
  forallb is_digit s = true -> cstring (s ++ NUL :: t) = s.
Proof.
  intros H. rewrite <- (cstring_digits s H) at 1. rewrite cstring_app_nul.
  apply cstring_digits, H.
Qed.

(** ** Lengths (claim C7) *)

(** A loop over the characters of a string is a fold over them. *)
Lemma for_up_chars {St : Type} (f : ascii -> St -> St) (s : list ascii) :
  forall (pre post : list ascii) (st : St),
    for_up (List.length s) (Z.of_nat (List.length pre))
           (fun i st => f (char_at (pre ++ s ++ post) i) st) st
    = fold_left (fun st c => f c st) s st.
Proof.
  induction s as [|c s IH]; intros pre post st; [reflexivity|].
  cbn [List.length for_up fold_left].
  assert (E : char_at (pre ++ (c :: s) ++ post) (Z.of_nat (List.length pre)) = c).
  { unfold char_at. destruct (Z.ltb_spec (Z.of_nat (List.length pre)) 0); [lia|].
    change ((c :: s) ++ post) with (c :: (s ++ post)).
    rewrite Nat2Z.id, nth_middle. reflexivity. }
  rewrite E.
  replace (Z.of_nat (List.length pre) + 1) with (Z.of_nat (List.length (pre ++ [c])))
    by (rewrite length_app; cbn [List.length]; lia).
  replace (pre ++ (c :: s) ++ post) with ((pre ++ [c]) ++ s ++ post)
    by (rewrite <- app_assoc; reflexivity).
  apply IH.
Qed.

Lemma for_range_chars {St : Type} (f : ascii -> St -> St) (s : list ascii) (st : St) :
  for_range 0 (Z.of_nat (List.length s)) (fun i st => f (char_at s i) st) st
  = fold_left (fun st c => f c st) s st.
Proof.
  unfold for_range. rewrite Z.sub_0_r, Nat2Z.id.
  pose proof (for_up_chars f s [] [] st) as H. rewrite app_nil_r in H. exact H.
Qed.

Lemma is_sodium_not_nul (c : ascii) : is_sodium c = true -> Ascii.eqb c NUL = false.
Proof.
  unfold is_sodium. rewrite orb_true_iff. intros [H|H].
  - apply is_digit_not_nul, H.
  - apply Ascii.eqb_eq in H. subst c. reflexivity.
Qed.

Lemma cstring_sodium (s : list ascii) : forallb is_sodium s = true -> cstring s = s.
Proof.
  induction s as [|c s IH]; simpl; [reflexivity|].
  rewrite andb_true_iff. intros [Hc Hs].
  rewrite (is_sodium_not_nul c Hc), IH by exact Hs. reflexivity.
Qed.

Lemma digit_cases (c : ascii) :
  is_digit c = true ->
  In c (chars "0123456789").
Proof.
  intros H. apply is_digit_range in H.
  rewrite <- (char_of_code c).
  assert (E : code_of c = 48 \/ code_of c = 49 \/ code_of c = 50 \/ code_of c = 51
              \/ code_of c = 52 \/ code_of c = 53 \/ code_of c = 54 \/ code_of c = 55
              \/ code_of c = 56 \/ code_of c = 57) by lia.
  repeat (destruct E as [->|E]; [cbn; tauto|]). rewrite E. cbn; tauto.
Qed.

Lemma sodium_in (test : list ascii) (c : ascii) :
  (forall d, In d (chars "0123456789+") -> In d test) ->
  is_sodium c = true -> existsb (Ascii.eqb c) test = true.
Proof.
  intros Hsub H. apply existsb_exists. exists c. split; [|apply Ascii.eqb_refl].
  apply Hsub. unfold is_sodium in H. apply orb_true_iff in H. destruct H as [H|H].
  - apply digit_cases in H. cbn in H |- *. tauto.
  - apply Ascii.eqb_eq in H. subst c. cbn. tauto.
Qed.

Lemma is_sane_sodium (test source : list ascii) :
  (forall d, In d (chars "0123456789+") -> In d (cstring test)) ->
  forallb is_sodium source = true ->
  is_sane test source (Z.of_nat (List.length source)) = 0.
Proof.
  intros Hsub Hs. unfold is_sane.
  rewrite (for_range_chars
             (fun c r => if r =? 0
                         then if existsb (Ascii.eqb c) (cstring test)
                              then 0 else ZINT_ERROR_INVALID_DATA
                         else r)).
  induction source as [|c s IH]; [reflexivity|].
  cbn [forallb] in Hs. apply andb_true_iff in Hs. destruct Hs as [Hc Hs].
  cbn [fold_left Z.eqb]. rewrite (sodium_in _ c Hsub Hc). apply IH, Hs.
Qed.

Lemma forallb_digit_sodium (s : list ascii) :
  forallb is_digit s = true -> forallb is_sodium s = true.
Proof.
  induction s as [|c s IH]; [reflexivity|]. cbn [forallb]. rewrite !andb_true_iff.
  intros [Hc Hs]. unfold is_sodium. rewrite Hc. auto.
Qed.

Lemma sodium_with_addon (primary addon : list ascii) :
  forallb is_digit primary = true -> forallb is_digit addon = true ->
  forallb is_sodium (primary ++ "+"%char :: addon) = true.
Proof.
  intros Hp Ha. rewrite forallb_app. cbn [forallb].
  rewrite !forallb_digit_sodium by assumption. reflexivity.
Qed.

Lemma part_lengths_fold (source : list ascii) :
  forallb is_sodium source = true ->
  part_lengths source = fold_left (fun st c => count_char c st) source (0, 0, 0).
Proof.
  intros H. unfold part_lengths, ustrlen. rewrite cstring_sodium by exact H.
  exact (for_range_chars count_char source (0, 0, 0)).
Qed.

Lemma count_primary (p : list ascii) :
  forallb is_digit p = true ->
  forall f s, fold_left (fun st c => count_char c st) p (0, f, s)
              = (0, f + Z.of_nat (List.length p), s).
Proof.
  induction p as [|c p IH]; intros H f s.
  - cbn. f_equal. f_equal. lia.
  - cbn [forallb] in H. apply andb_true_iff in H. destruct H as [Hc Hp].
    cbn [fold_left count_char]. rewrite (is_digit_not_plus c Hc). cbn [Z.eqb].
    rewrite IH by exact Hp. cbn [List.length]. f_equal. f_equal. lia.
Qed.

Lemma count_addon (a : list ascii) :
  forallb is_digit a = true ->
  forall f s, fold_left (fun st c => count_char c st) a (1, f, s)
              = (1, f, s + Z.of_nat (List.length a)).
Proof.
  induction a as [|c a IH]; intros H f s.
  - cbn. f_equal. lia.
  - cbn [forallb] in H. apply andb_true_iff in H. destruct H as [Hc Ha].
    cbn [fold_left count_char]. rewrite (is_digit_not_plus c Hc). cbn [Z.eqb].
    rewrite IH by exact Ha. cbn [List.length]. f_equal. lia.
Qed.

Lemma part_lengths_primary (primary : list ascii) :
  forallb is_digit primary = true ->
  part_lengths primary = (0, Z.of_nat (List.length primary), 0).
Proof.
  intros Hp. rewrite part_lengths_fold by (apply forallb_digit_sodium, Hp).
  rewrite count_primary by exact Hp. reflexivity.
Qed.

Lemma part_lengths_addon (primary addon : list ascii) :
  forallb is_digit primary = true -> forallb is_digit addon = true ->
  part_lengths (primary ++ "+"%char :: addon)
  = (1, Z.of_nat (List.length primary), Z.of_nat (List.length addon)).
Proof.
  intros Hp Ha. rewrite part_lengths_fold by (apply sodium_with_addon; assumption).
  rewrite fold_left_app, count_primary by exact Hp.
  cbn [fold_left count_char Ascii.eqb Bool.eqb]. rewrite count_addon by exact Ha.
  reflexivity.
Qed.

Lemma eanx_parts_sane (symbol : zint_symbol) (source : list ascii) :
  forallb is_sodium source = true ->
  eanx_parts symbol source (Z.of_nat (List.length source))
  = if Z.of_nat (List.length source) >? 19
    then inl (ZINT_ERROR_TOO_LONG, "283: Input too long"%string)
    else match ean_leading_zeroes symbol source [] with
         | None => inl (ZINT_ERROR_TOO_LONG, "294: Input too long"%string)
         | Some (local_source, with_addon) =>
           if negb (with_addon =? 0) then
             let st := split_parts local_source in
             inr (sp_first_part st, sp_second_part st, eanx_addon_gap symbol)
           else inr (ustrcpy local_source, [], 0)
         end.
Proof.
  intros H. unfold eanx_parts.
  destruct (Z.of_nat (List.length source) >? 19); [reflexivity|].
  destruct (negb (symbology_t_beq (symbology symbol) BARCODE_ISBNX)); cbn [fst].
  - rewrite is_sane_sodium; [reflexivity| |exact H].
    intros d Hd. exact Hd.
  - rewrite is_sane_sodium; [reflexivity| |exact H].
    intros d Hd. cbn in Hd |- *. tauto.
Qed.

Lemma eanx_result_of_parts (symbol : zint_symbol) (source : list ascii) (src_len : Z)
    (error_number : Z) (msg : string) :
  eanx_parts symbol source src_len = inl (error_number, msg) ->
  error_number >= ZINT_ERROR ->
  eanx symbol source src_len = (error_number, set_errtxt symbol msg).
Proof.
  intros H Hge. unfold eanx, eanx_linear. rewrite H.
  destruct (Z.geb_spec error_number ZINT_ERROR); [reflexivity|lia].
Qed.

(** C7.  An input of more than 19 characters is refused by [eanx] with
    [ZINT_ERROR_TOO_LONG] whatever it holds: nothing has looked at its
    characters, and of the symbol only the error text changes.  A primary
    part of more than 13 digits, or an add-on part of more than 5, is
    refused by [ean_leading_zeroes], and [eanx] returns
    [ZINT_ERROR_TOO_LONG] for it as well. *)
Theorem eanx_length_errors (symbol : zint_symbol) (source : list ascii) (src_len : Z)
    (primary addon : list ascii) :
  (src_len > 19 ->
   eanx symbol source src_len
   = (ZINT_ERROR_TOO_LONG, set_errtxt symbol "283: Input too long"))
  /\ (forallb is_digit primary = true -> forallb is_digit addon = true ->
      (List.length primary > 13 \/ List.length addon > 5)%nat ->
      ean_leading_zeroes symbol (primary ++ "+"%char :: addon) [] = None
      /\ fst (eanx symbol (primary ++ "+"%char :: addon)
                   (Z.of_nat (List.length (primary ++ "+"%char :: addon))))
         = ZINT_ERROR_TOO_LONG)
  /\ (forallb is_digit primary = true -> (List.length primary > 13)%nat ->
      ean_leading_zeroes symbol primary [] = None
      /\ fst (eanx symbol primary (Z.of_nat (List.length primary))) = ZINT_ERROR_TOO_LONG).
Proof.
  split; [|split].
  - intros H. apply eanx_result_of_parts; [|unfold ZINT_ERROR_TOO_LONG, ZINT_ERROR; lia].
    unfold eanx_parts. destruct (Z.gtb_spec src_len 19); [reflexivity|lia].
  - intros Hp Ha Hlen.
    assert (N : ean_leading_zeroes symbol (primary ++ "+"%char :: addon) [] = None).
    { unfold ean_leading_zeroes. rewrite part_lengths_addon by assumption.
      destruct (Z.gtb_spec (Z.of_nat (List.length primary)) 13);
        destruct (Z.gtb_spec (Z.of_nat (List.length addon)) 5); try reflexivity; lia. }
    split; [exact N|].
    pose proof (eanx_parts_sane symbol _ (sodium_with_addon primary addon Hp Ha)) as P.
    rewrite N in P.
    destruct (Z.of_nat (List.length (primary ++ "+"%char :: addon)) >? 19);
      rewrite (eanx_result_of_parts _ _ _ _ _ P); try reflexivity;
      unfold ZINT_ERROR_TOO_LONG, ZINT_ERROR; lia.
  - intros Hp Hlen.
    assert (N : ean_leading_zeroes symbol primary [] = None).
    { unfold ean_leading_zeroes. rewrite part_lengths_primary by assumption.
      destruct (Z.gtb_spec (Z.of_nat (List.length primary)) 13); [reflexivity|lia]. }
    split; [exact N|].
    pose proof (eanx_parts_sane symbol _ (forallb_digit_sodium primary Hp)) as P.
    rewrite N in P.
    destruct (Z.of_nat (List.length primary) >? 19);
      rewrite (eanx_result_of_parts _ _ _ _ _ P); try reflexivity;
      unfold ZINT_ERROR_TOO_LONG, ZINT_ERROR; lia.
Qed.

Lemma eanx_length_errors_witness :
  eanx (new_symbol BARCODE_EANX) (chars "12345678901234567890") 20
  = (ZINT_ERROR_TOO_LONG, set_errtxt (new_symbol BARCODE_EANX) "283: Input too long")
  /\ fst (eanx (new_symbol BARCODE_EANX) (chars "1234567+123456") 14) = ZINT_ERROR_TOO_LONG
  /\ fst (eanx (new_symbol BARCODE_UPCA) (chars "12345678901234") 14) = ZINT_ERROR_TOO_LONG.
Proof.
  split; [|split].
  - apply (proj1 (eanx_length_errors (new_symbol BARCODE_EANX)
                    (chars "12345678901234567890") 20 [] [])).
    lia.
  - apply (proj1 (proj2 (eanx_length_errors (new_symbol BARCODE_EANX) [] 0
                           (chars "1234567") (chars "123456")))
                 eq_refl eq_refl).
    right. cbn. lia.
  - apply (proj2 (proj2 (eanx_length_errors (new_symbol BARCODE_UPCA) [] 0
                           (chars "12345678901234") []))
                 eq_refl).
    cbn. lia.
Defined.

(** ** Composite symbols (claim C8) *)

Lemma for_up_invariant {St : Type} (P : St -> Prop) (body : Z -> St -> St) (n : nat) :
  (forall k st, P st -> P (body k st)) ->
  forall i st, P st -> P (for_up n i body st).
Proof.
  intros Hbody. induction n as [|n IH]; intros i st H; simpl; [exact H|].
  apply IH, Hbody, H.
Qed.

Lemma same_but_row_refl (y : Z) (s : zint_symbol) : same_but_row y s s.
Proof.
  unfold same_but_row. repeat split; reflexivity.
Qed.

Lemma same_but_row_write (y x : Z) (b : bool) (s0 s : zint_symbol) :
  same_but_row y s0 s -> same_but_row y s0 (write_module s y x b).
Proof.
  unfold same_but_row. intros (H1 & H2 & H3 & H4 & H5 & H6 & H7 & H8).
  cbn [write_module symbology option_2 rows width row_height text errtxt encoded_data].
  repeat split; try assumption.
  intros r c Hr. destruct (Z.eqb_spec r y); [contradiction|]. cbn [andb]. apply H8, Hr.
Qed.

(** [expand] writes one row, the one at [symbol->rows], and counts it. *)
Lemma expand_row (symbol : zint_symbol) (data : list ascii) :
  rows (expand symbol data) = rows symbol + 1
  /\ symbology (expand symbol data) = symbology symbol
  /\ row_height (expand symbol data) = row_height symbol
  /\ (forall r c, r <> rows symbol ->
                  encoded_data (expand symbol data) r c = encoded_data symbol r c)
  /\ text (expand symbol data) = text symbol.
Proof.
  unfold expand.
  set (P := fun st : zint_symbol * Z * bool =>
              same_but_row (rows symbol) symbol (fst (fst st))).
  match goal with
  | |- context [for_range 0 (ustrlen data) ?body ?init] =>
    assert (H : P (for_range 0 (ustrlen data) body init));
      [|destruct (for_range 0 (ustrlen data) body init) as [[s writer] latch]]
  end.
  - unfold for_range. apply (for_up_invariant P); [|apply same_but_row_refl].
    intros reader [[s writer] latch] Hs. unfold P in *. cbn [fst] in Hs.
    cbv beta iota.
    set (Q := fun st : zint_symbol * Z => same_but_row (rows symbol) symbol (fst st)).
    match goal with
    | |- context [for_up ?n 0 ?body ?init] =>
      assert (H : Q (for_up n 0 body init));
        [|destruct (for_up n 0 body init) as [s' writer']; exact H]
    end.
    apply (for_up_invariant Q); [|exact Hs].
    intros k [s' writer'] Hs'. unfold Q in *. cbv beta iota. cbn [fst] in *.
    destruct latch; [|exact Hs'].
    unfold set_module. replace (rows s') with (rows symbol)
      by (symmetry; apply Hs'). apply same_but_row_write, Hs'.
  - unfold P, same_but_row in H. cbn [fst] in H.
    destruct H as (H1 & H2 & H3 & H4 & H5 & H6 & H7 & H8).
    destruct (writer >? width s);
      cbn [set_rows set_width symbology rows row_height encoded_data text];
      rewrite H3; auto.
Qed.

Ltac case_eqb :=
  repeat match goal with
         | |- context [Z.eqb ?a ?b] => destruct (Z.eqb_spec a b); cbn [andb orb]
         end.

Lemma separator_rows_spec (symbol : zint_symbol) (right : Z) :
  rows (separator_rows symbol right) = rows symbol + 3
  /\ symbology (separator_rows symbol right) = symbology symbol
  /\ width (separator_rows symbol right) = width symbol
  /\ (forall y, row_height (separator_rows symbol right) y
                = if (rows symbol <=? y) && (y <? rows symbol + 3) then 2
                  else row_height symbol y)
  /\ (forall y c, encoded_data (separator_rows symbol right) y c
                  = separator_module right (y - rows symbol) c || encoded_data symbol y c).
Proof.
  unfold separator_rows, set_module, separator_module.
  cbn [set_rows set_row_height write_module symbology rows width row_height encoded_data].
  repeat split.
  - intros y.
    destruct (Z.leb_spec (rows symbol) y); destruct (Z.ltb_spec y (rows symbol + 3));
      cbn [andb]; case_eqb; try reflexivity; lia.
  - intros y c. case_eqb; try reflexivity; lia.
Qed.

Lemma shift_step_write (i : Z) (s : zint_symbol) :
  shift_step i s = write_module s (rows s - 1) i (encoded_data s (rows s - 1) (i - 1)).
Proof.
  unfold shift_step, module_is_set, set_module, unset_module.
  destruct (encoded_data s (rows s - 1) (i - 1)); reflexivity.
Qed.

Lemma shift_loop (s0 : zint_symbol) (n : nat) :
  forall i s, i <= width s0 + 1 -> shifted_above s0 i s ->
              shifted_above s0 (i - Z.of_nat n) (for_down n i shift_step s).
Proof.
  induction n as [|n IH]; intros i s Hi H.
  - cbn [for_down]. replace (i - Z.of_nat 0) with i by lia. exact H.
  - cbn [for_down]. replace (i - Z.of_nat (S n)) with (i - 1 - Z.of_nat n) by lia.
    apply IH; [lia|]. destruct H as [Hsame Hrow].
    rewrite shift_step_write.
    assert (Hrows : rows s = rows s0) by apply Hsame. rewrite Hrows.
    split; [apply same_but_row_write, Hsame|].
    intros c. cbn [write_module encoded_data]. rewrite Z.eqb_refl. cbn [andb].
    rewrite !Hrow.
    destruct (Z.eqb_spec c i) as [->|Hc].
    + destruct (Z.ltb_spec i (i - 1)); [lia|]. cbn [andb].
      destruct (Z.ltb_spec (i - 1) i); [|lia].
      destruct (Z.leb_spec i (width s0 + 1)); [reflexivity|lia].
    + destruct (Z.ltb_spec i c); destruct (Z.ltb_spec (i - 1) c); try reflexivity; lia.
Qed.

Lemma eanx_shift_spec (s : zint_symbol) :
  is_composite (symbology s) = true ->
  rows (eanx_shift s) = rows s
  /\ row_height (eanx_shift s) = row_height s
  /\ width (eanx_shift s) = width s + 2
  /\ (forall r c, r <> rows s - 1 -> encoded_data (eanx_shift s) r c = encoded_data s r c)
  /\ (forall c, encoded_data (eanx_shift s) (rows s - 1) c
                = if c =? 0 then false
                  else if (1 <=? c) && (c <=? width s + 1)
                       then encoded_data s (rows s - 1) (c - 1)
                       else encoded_data s (rows s - 1) c).
Proof.
  intros Hcc.
  pose proof (shift_loop s (Z.to_nat (width s + 1)) (width s + 1) s ltac:(lia)) as H.
  assert (H0 : shifted_above s (width s + 1) s).
  { split; [apply same_but_row_refl|]. intros c.
    destruct (Z.ltb_spec (width s + 1) c); destruct (Z.leb_spec c (width s + 1));
      try reflexivity; lia. }
  specialize (H H0). clear H0.
  assert (E : eanx_shift s
              = let s1 := for_down (Z.to_nat (width s + 1)) (width s + 1) shift_step s in
                set_width (unset_module s1 (rows s1 - 1) 0) (width s1 + 2)).
  { unfold eanx_shift. destruct (symbology s); try discriminate Hcc; reflexivity. }
  rewrite E. clear E. cbv zeta.
  destruct H as [(H1 & H2 & H3 & H4 & H5 & H6 & H7 & H8) Hrow].
  cbn [set_width unset_module write_module rows row_height width encoded_data].
  rewrite H3, H4, H5. repeat split.
  - intros r c Hr. destruct (Z.eqb_spec r (rows s - 1)); [contradiction|]. cbn [andb].
    apply H8, Hr.
  - intros c. rewrite Z.eqb_refl. cbn [andb]. destruct (Z.eqb_spec c 0); [reflexivity|].
    rewrite Hrow.
    destruct (Z.ltb_spec (width s + 1 - Z.of_nat (Z.to_nat (width s + 1))) c);
      destruct (Z.leb_spec 1 c); destruct (Z.leb_spec c (width s + 1));
      cbn [andb]; try reflexivity; lia.
Qed.

Lemma same_but_text_refl (s : zint_symbol) : same_but_text s s.
Proof.
  unfold same_but_text. repeat split; reflexivity.
Qed.

Lemma same_but_text_set (s s' : zint_symbol) (t : list ascii) :
  same_but_text s s' -> same_but_text s (set_text s' t).
Proof.
  unfold same_but_text. intros H. exact H.
Qed.

Lemma same_but_text_trans (s1 s2 s3 : zint_symbol) :
  same_but_text s1 s2 -> same_but_text s2 s3 -> same_but_text s1 s3.
Proof.
  unfold same_but_text.
  intros (A1 & A2 & A3 & A4 & A5 & A6) (B1 & B2 & B3 & B4 & B5 & B6).
  repeat split; congruence.
Qed.

Lemma ean13_success (s : zint_symbol) (first_part dest : list ascii) :
  ustrlen first_part = 12
  \/ (ustrlen first_part = 13
      /\ char_at first_part 12 = ean_check (cstring first_part) 12) ->
  exists s' pattern,
    ean13 s first_part (ustrlen first_part) dest = (0, s', pattern)
    /\ same_but_text s s'.
Proof.
  intros [E | [E Hc]]; rewrite E; unfold ean13, ustrcpy.
  - cbn [Z.eqb Pos.eqb]. do 2 eexists. split; [reflexivity|].
    apply same_but_text_set, same_but_text_refl.
  - cbn [Z.eqb Pos.eqb Z.sub Z.add Z.opp Z.pos_sub Pos.pred_double].
    rewrite Hc, Ascii.eqb_refl. cbn [negb]. do 2 eexists. split; [reflexivity|].
    apply same_but_text_set, same_but_text_refl.
Qed.

Lemma eanx_addon_success (s : zint_symbol) (second_part dest : list ascii) (gap : Z) :
  ustrlen second_part = 0 \/ ustrlen second_part = 2 \/ ustrlen second_part = 5 ->
  exists s' pattern,
    eanx_addon s second_part dest gap = (0, s', pattern) /\ same_but_text s s'.
Proof.
  intros [E | [E | E]]; unfold eanx_addon; rewrite E; cbn [Z.eqb Pos.eqb orb];
    do 2 eexists; (split; [reflexivity|]).
  - apply same_but_text_refl.
  - apply same_but_text_set, same_but_text_set, same_but_text_refl.
  - apply same_but_text_set, same_but_text_set, same_but_text_refl.
Qed.

(** C8, amended.  For an EAN-13 composite request whose primary part has 12
    digits, or 13 with the right check digit, [eanx] puts three rows under
    the linear symbol's row index: the rows from [symbol->rows] on get
    height 2 and two separator modules each, at columns 1 and 95 in the
    first and the third and at columns 0 and 96 in the second; the linear
    pattern is expanded into the fourth row, whose modules are then moved
    one column to the right, column 0 being cleared. *)
Theorem eanx_composite_rows (symbol : zint_symbol) (source : list ascii) (src_len : Z)
    (first_part second_part : list ascii) (gap : Z) :
  symbology symbol = BARCODE_EANX_CC ->
  eanx_parts symbol source src_len = inr (first_part, second_part, gap) ->
  ustrlen first_part = 12
  \/ (ustrlen first_part = 13
      /\ char_at first_part 12 = ean_check (cstring first_part) 12) ->
  ustrlen second_part = 0 \/ ustrlen second_part = 2 \/ ustrlen second_part = 5 ->
  exists linear dest,
    eanx_linear symbol source src_len = (0, linear, dest)
    /\ eanx symbol source src_len = (0, eanx_shift (expand linear dest))
    /\ let bitmap := expand linear dest in
       let final := eanx_shift bitmap in
       let r := rows symbol in
       rows linear = r + 3
       /\ rows final = r + 4
       /\ (forall y, r <= y < r + 3 -> row_height final y = 2)
       /\ (forall y c, r <= y < r + 3 ->
                       encoded_data final y c
                       = separator_module 95 (y - r) c || encoded_data symbol y c)
       /\ (forall c, 1 <= c <= width bitmap + 1 ->
                     encoded_data final (r + 3) c = encoded_data bitmap (r + 3) (c - 1))
       /\ encoded_data final (r + 3) 0 = false
       /\ width final = width bitmap + 2.
Proof.
  intros Hsym Hparts Hfirst Hsecond.
  destruct (separator_rows_spec symbol 95) as (R1 & R2 & R3 & R4 & R5).
  destruct (ean13_success (separator_rows symbol 95) first_part [] Hfirst)
    as (s1 & d1 & E1 & T1).
  destruct (eanx_addon_success s1 second_part d1 gap Hsecond) as (s2 & d2 & E2 & T2).
  pose proof (same_but_text_trans _ _ _ T1 T2) as (S1 & S2 & S3 & S4 & S5 & S6).
  assert (P : eanx_primary symbol first_part [] = (0, s1, d1)).
  { unfold eanx_primary. rewrite Hsym, <- E1.
    destruct Hfirst as [E | [E _]]; rewrite E; reflexivity. }
  assert (L : eanx_linear symbol source src_len = (0, s2, d2)).
  { unfold eanx_linear. rewrite Hparts, P. cbn [Z.geb Z.compare ZINT_ERROR].
    rewrite E2. reflexivity. }
  exists s2, d2. split; [exact L|]. split; [unfold eanx; rewrite L; reflexivity|].
  destruct (expand_row s2 d2) as (X1 & X2 & X3 & X4 & _).
  destruct (eanx_shift_spec (expand s2 d2)) as (F1 & F2 & F3 & F4 & F5).
  { rewrite X2, S1, R2, Hsym. reflexivity. }
  cbv zeta. rewrite F1, F2, F3, X1, X3, S3, S5, R1. repeat split; try lia.
  - intros y Hy. rewrite R4.
    destruct (Z.leb_spec (rows symbol) y); destruct (Z.ltb_spec y (rows symbol + 3));
      try reflexivity; lia.
  - intros y c Hy. rewrite F4 by lia. rewrite X4 by lia. rewrite S6. apply R5.
  - intros c Hc.
    replace (rows symbol + 3) with (rows (expand s2 d2) - 1) by lia.
    rewrite F5. destruct (Z.eqb_spec c 0); [lia|].
    destruct (Z.leb_spec 1 c); destruct (Z.leb_spec c (width (expand s2 d2) + 1));
      try reflexivity; lia.
  - replace (rows symbol + 3) with (rows (expand s2 d2) - 1) by lia.
    rewrite F5. reflexivity.
Qed.

Lemma eanx_composite_rows_witness :
  let final := snd (eanx (new_symbol BARCODE_EANX_CC) (chars "123456789012") 12) in
  rows final = 4
  /\ row_height final 0 = 2 /\ row_height final 1 = 2 /\ row_height final 2 = 2
  /\ encoded_data final 0 1 = true /\ encoded_data final 0 95 = true
  /\ encoded_data final 1 0 = true /\ encoded_data final 1 96 = true
  /\ encoded_data final 2 1 = true /\ encoded_data final 2 95 = true
  /\ encoded_data final 3 0 = false.
Proof.
  destruct (eanx_composite_rows (new_symbol BARCODE_EANX_CC) (chars "123456789012") 12
              (chars "123456789012") [] 0 eq_refl eq_refl (or_introl eq_refl)
              (or_introl eq_refl))
    as (linear & dest & _ & E & H1 & H2 & H3 & H4 & H5 & H6 & H7).
  rewrite E. cbn [snd]. cbn [new_symbol rows] in *.
  split; [exact H2|].
  rewrite !H3 by lia. rewrite !H4 by lia.
  repeat split; try reflexivity. exact H6.
Defined.

(** C8 as it is worded fails in the second reserved row, whose separator
    modules are at columns 0 and 96, not at columns 1 and 95. *)
Lemma eanx_composite_middle_row :
  let final := snd (eanx (new_symbol BARCODE_EANX_CC) (chars "123456789012") 12) in
  fst (eanx (new_symbol BARCODE_EANX_CC) (chars "123456789012") 12) = 0
  /\ encoded_data final 1 1 = false /\ encoded_data final 1 95 = false
  /\ encoded_data final 1 0 = true /\ encoded_data final 1 96 = true.
Proof.
  vm_compute. repeat split.
Qed.

(** ** The gap before the add-on (claim C9) *)

Lemma upca_option_2 (s : zint_symbol) (o : Z) (source : list ascii) (length : Z)
    (dest : list ascii) :
  upca (set_option_2 s o) source length dest
  = let '(e, s', d) := upca s source length dest in (e, set_option_2 s' o, d).
Proof.
  unfold upca. destruct (length =? 11); [reflexivity|].
  destruct (negb (Ascii.eqb (char_at source (length - 1)) (upc_check (ustrcpy source) 11)));
    reflexivity.
Qed.

Lemma ean8_option_2 (s : zint_symbol) (o : Z) (source : list ascii) (length : Z)
    (dest : list ascii) :
  ean8 (set_option_2 s o) source length dest
  = let '(e, s', d) := ean8 s source length dest in (e, set_option_2 s' o, d).
Proof.
  unfold ean8. destruct (length =? 7); [reflexivity|].
  destruct (negb (Ascii.eqb (char_at source (length - 1)) (upc_check (ustrcpy source) 7)));
    reflexivity.
Qed.

Lemma ean13_option_2 (s : zint_symbol) (o : Z) (source : list ascii) (length : Z)
    (dest : list ascii) :
  ean13 (set_option_2 s o) source length dest
  = let '(e, s', d) := ean13 s source length dest in (e, set_option_2 s' o, d).
Proof.
  unfold ean13. destruct (length =? 12); [reflexivity|].
  destruct (negb (Ascii.eqb (char_at source (length - 1)) (ean_check (ustrcpy source) 12)));
    reflexivity.
Qed.

Lemma upce_option_2 (s : zint_symbol) (o : Z) (source : list ascii) (length : Z)
    (dest : list ascii) :
  upce (set_option_2 s o) source length dest
  = let '(e, s', d) := upce s source length dest in (e, set_option_2 s' o, d).
Proof.
  unfold upce.
  change (upce_number_system (set_option_2 s o) source length)
    with (upce_number_system s source length).
  destruct (upce_number_system s source length) as [[[num_system hrt] code] len].
  destruct (upce_equivalent num_system hrt code) as [msg|equivalent]; [reflexivity|].
  change (symbology (set_option_2 s o)) with (symbology s).
  destruct (negb (symbology_t_beq (symbology s) BARCODE_UPCE_CHK)); [reflexivity|].
  destruct (negb (Ascii.eqb (char_at hrt 7) (upc_check equivalent 11))); reflexivity.
Qed.

Ltac case_if :=
  match goal with
  | |- context [if ?c then _ else _] =>
    match c with
    | context [if _ then _ else _] => fail 1
    | _ => destruct c
    end
  end.

Lemma isbn_option_2 (s : zint_symbol) (o : Z) (source : list ascii) (src_len : Z)
    (dest : list ascii) :
  isbn (set_option_2 s o) source src_len dest
  = let '(e, s', d) := isbn s source src_len dest in (e, set_option_2 s' o, d).
Proof.
  unfold isbn. cbv zeta. rewrite !ean13_option_2. repeat case_if; reflexivity.
Qed.

Lemma separator_rows_option_2 (s : zint_symbol) (o right : Z) :
  separator_rows (set_option_2 s o) right = set_option_2 (separator_rows s right) o.
Proof.
  reflexivity.
Qed.

Lemma eanx_primary_option_2 (s : zint_symbol) (o : Z) (first_part dest : list ascii) :
  eanx_primary (set_option_2 s o) first_part dest
  = let '(e, s', d) := eanx_primary s first_part dest in (e, set_option_2 s' o, d).
Proof.
  unfold eanx_primary. change (symbology (set_option_2 s o)) with (symbology s).
  destruct (symbology s);
    rewrite ?separator_rows_option_2, ?upca_option_2, ?ean8_option_2, ?ean13_option_2,
            ?upce_option_2, ?isbn_option_2;
    repeat case_if; reflexivity.
Qed.

Lemma eanx_parts_option_2 (s : zint_symbol) (o : Z) (source : list ascii) (src_len : Z) :
  match eanx_parts s source src_len, eanx_parts (set_option_2 s o) source src_len with
  | inl e, inl e' => e = e'
  | inr (first_part, second_part, _), inr (first_part', second_part', _) =>
    first_part = first_part' /\ second_part = second_part'
  | _, _ => False
  end.
Proof.
  unfold eanx_parts.
  change (symbology (set_option_2 s o)) with (symbology s).
  change (ean_leading_zeroes (set_option_2 s o) source [])
    with (ean_leading_zeroes s source []).
  destruct (src_len >? 19); [reflexivity|].
  destruct (negb (symbology_t_beq (symbology s) BARCODE_ISBNX)); cbn [fst].
  - destruct (is_sane (chars "0123456789+") source src_len =? ZINT_ERROR_INVALID_DATA);
      [reflexivity|].
    destruct (ean_leading_zeroes s source []) as [[local_source with_addon]|];
      [|reflexivity].
    destruct (negb (with_addon =? 0)); split; reflexivity.
  - destruct (is_sane (chars "0123456789Xx+") source src_len =? ZINT_ERROR_INVALID_DATA);
      [reflexivity|].
    destruct (ean_leading_zeroes s source []) as [[local_source with_addon]|];
      [|reflexivity].
    destruct (negb (with_addon =? 0)); split; reflexivity.
Qed.

(** The result of the add-on stage depends on the length of the add-on only. *)
Lemma eanx_addon_code (s : zint_symbol) (second_part dest : list ascii) (gap : Z) :
  fst (fst (eanx_addon s second_part dest gap))
  = if (ustrlen second_part =? 0) || (ustrlen second_part =? 2)
       || (ustrlen second_part =? 5)
    then 0 else ZINT_ERROR_TOO_LONG.
Proof.
  unfold eanx_addon. destruct (ustrlen second_part =? 0); [reflexivity|].
  cbn [orb]. destruct ((ustrlen second_part =? 2) || (ustrlen second_part =? 5));
    reflexivity.
Qed.

Lemma eanx_code (s : zint_symbol) (source : list ascii) (src_len : Z) :
  fst (eanx s source src_len) = fst (fst (eanx_linear s source src_len)).
Proof.
  unfold eanx. destruct (eanx_linear s source src_len) as [[e s'] d]. cbn [fst].
  destruct (e >=? ZINT_ERROR); reflexivity.
Qed.

Lemma eanx_linear_code (s : zint_symbol) (source : list ascii) (src_len : Z) :
  fst (fst (eanx_linear s source src_len))
  = match eanx_parts s source src_len with
    | inl (e, _) => e
    | inr (first_part, second_part, gap) =>
      let e := fst (fst (eanx_primary s first_part [])) in
      if e >=? ZINT_ERROR then e
      else if (ustrlen second_part =? 0) || (ustrlen second_part =? 2)
              || (ustrlen second_part =? 5)
           then e else ZINT_ERROR_TOO_LONG
    end.
Proof.
  unfold eanx_linear.
  destruct (eanx_parts s source src_len) as [[e msg]|[[first_part second_part] gap]];
    [reflexivity|].
  destruct (eanx_primary s first_part []) as [[e s1] d1]. cbn [fst].
  destruct (e >=? ZINT_ERROR); [reflexivity|].
  pose proof (eanx_addon_code s1 second_part d1 gap) as H.
  destruct (eanx_addon s1 second_part d1 gap) as [[ae s2] d2]. cbn [fst] in H.
  rewrite H.
  destruct ((ustrlen second_part =? 0) || (ustrlen second_part =? 2)
            || (ustrlen second_part =? 5)); reflexivity.
Qed.

Lemma eanx_code_option_2 (s : zint_symbol) (o : Z) (source : list ascii) (src_len : Z) :
  fst (eanx (set_option_2 s o) source src_len) = fst (eanx s source src_len).
Proof.
  rewrite !eanx_code, !eanx_linear_code.
  pose proof (eanx_parts_option_2 s o source src_len) as H.
  destruct (eanx_parts s source src_len) as [[e msg]|[[first_part second_part] gap]];
    destruct (eanx_parts (set_option_2 s o) source src_len)
      as [[e' msg']|[[first_part' second_part'] gap']];
    try contradiction.
  - congruence.
  - destruct H as [<- <-]. rewrite eanx_primary_option_2.
    destruct (eanx_primary s first_part []) as [[e s1] d1]. reflexivity.
Qed.

Lemma set_char_cons (a : ascii) (s : list ascii) (i : Z) (x : ascii) :
  0 <= i -> set_char (a :: s) (i + 1) x = a :: set_char s i x.
Proof.
  intros Hi. unfold set_char.
  replace (Z.to_nat (i + 1)) with (S (Z.to_nat i)) by lia.
  cbn [List.length]. change (S (Z.to_nat i) <? S (List.length s))%nat
    with (Z.to_nat i <? List.length s)%nat.
  destruct (Z.to_nat i <? List.length s)%nat; reflexivity.
Qed.

Lemma cstring_set_nul (s : list ascii) : cstring (set_char s 0 NUL) = [].
Proof.
  destruct s; reflexivity.
Qed.

(** [i = ustrlen(dest); dest[i] = c; dest[i + 1] = '\0'] appends [c]. *)
Lemma cstring_append_char (dest : list ascii) (c : ascii) :
  Ascii.eqb c NUL = false ->
  cstring (set_char (set_char dest (ustrlen dest) c) (ustrlen dest + 1) NUL)
  = cstring dest ++ [c].
Proof.
  intros Hc. induction dest as [|a s IH].
  - change (cstring [c; NUL] = [c]). cbn [cstring]. rewrite Hc. reflexivity.
  - unfold ustrlen in *. cbn [cstring]. destruct (Ascii.eqb a NUL) eqn:Ha.
    + change (cstring (set_char (c :: s) (0 + 1) NUL) = [c]).
      rewrite set_char_cons by lia. cbn [cstring]. rewrite Hc, cstring_set_nul.
      reflexivity.
    + cbn [List.length app].
      replace (Z.of_nat (S (List.length (cstring s))))
        with (Z.of_nat (List.length (cstring s)) + 1) by lia.
      rewrite !set_char_cons by lia. cbn [cstring]. rewrite Ha, IH. reflexivity.
Qed.

Lemma appended_ustrcat (prefix x e : list ascii) :
  appended prefix x -> appended prefix (ustrcat x e).
Proof.
  intros [[body Hx] Hc]. unfold ustrcat. split.
  - exists (body ++ cstring e). rewrite Hc, Hx, app_assoc. reflexivity.
  - apply cstring_app.
Qed.

Lemma appended_lookup (prefix set_string : list ascii) (table : list (list ascii))
    (data : ascii) (x : list ascii) :
  appended prefix x -> appended prefix (lookup set_string table data x).
Proof.
  intros H. unfold lookup, for_range. apply (for_up_invariant (appended prefix)); [|exact H].
  intros k st Hst. destruct (Ascii.eqb data (char_at set_string k)); [|exact Hst].
  apply appended_ustrcat, Hst.
Qed.

Lemma itoc_gap_not_nul (gap : Z) : 7 <= gap <= 12 -> Ascii.eqb (itoc gap) NUL = false.
Proof.
  intros H.
  assert (E : gap = 7 \/ gap = 8 \/ gap = 9 \/ gap = 10 \/ gap = 11 \/ gap = 12) by lia.
  destruct E as [->|[->|[->|[->|[->| ->]]]]]; reflexivity.
Qed.

Lemma add_on_gap_char (source : list ascii) (length : Z) (dest : list ascii) (gap : Z) :
  7 <= gap <= 12 ->
  exists body,
    add_on source length dest gap = cstring dest ++ itoc gap :: chars "112" ++ body.
Proof.
  intros Hgap. unfold add_on. cbv zeta.
  destruct (Z.eqb_spec gap 0) as [|_]; [lia|]. cbn [negb].
  assert (E : ustrcat (set_char (set_char dest (ustrlen dest) (itoc gap))
                                (ustrlen dest + 1) NUL) (chars "112")
              = (cstring dest ++ [itoc gap]) ++ cstring (chars "112")).
  { unfold ustrcat. rewrite (cstring_append_char dest _ (itoc_gap_not_nul gap Hgap)).
    reflexivity. }
  rewrite E. clear E.
  set (prefix := cstring dest ++ itoc gap :: chars "112").
  assert (H0 : appended prefix ((cstring dest ++ [itoc gap]) ++ cstring (chars "112"))).
  { split.
    - exists []. unfold prefix. rewrite app_nil_r, <- app_assoc. reflexivity.
    - rewrite <- (cstring_append_char dest _ (itoc_gap_not_nul gap Hgap)).
      apply cstring_app. }
  match goal with
  | |- exists body, for_range 0 length ?f ?x = _ =>
    assert (H : appended prefix (for_range 0 length f x))
  end.
  { unfold for_range. apply (for_up_invariant (appended prefix)); [|exact H0].
    intros k st Hst.
    assert (H1 : appended prefix
                   (if Ascii.eqb (char_at (add_on_parity source length) k) "A"
                    then lookup NEON EANsetA (char_at source k) st
                    else if Ascii.eqb (char_at (add_on_parity source length) k) "B"
                         then lookup NEON EANsetB (char_at source k) st
                         else st)).
    { destruct (Ascii.eqb (char_at (add_on_parity source length) k) "A");
        [apply appended_lookup, Hst|].
      destruct (Ascii.eqb (char_at (add_on_parity source length) k) "B");
        [apply appended_lookup, Hst|exact Hst]. }
    destruct (negb (k =? length - 1)); [apply appended_ustrcat, H1|exact H1]. }
  destruct H as [[body Hbody] _]. exists body. rewrite Hbody. unfold prefix.
  rewrite <- app_assoc. reflexivity.
Qed.

Lemma eanx_addon_gap_in_words (symbol : zint_symbol) :
  eanx_addon_gap symbol = gap_in_words (symbology symbol) (option_2 symbol)
  /\ 7 <= eanx_addon_gap symbol <= 12.
Proof.
  unfold eanx_addon_gap, gap_in_words. rewrite !Z.geb_leb.
  destruct (symbology symbol); cbn [symbology_t_beq orb];
    destruct (Z.leb_spec 9 (option_2 symbol)); destruct (Z.leb_spec 7 (option_2 symbol));
    destruct (Z.leb_spec (option_2 symbol) 12); cbn [andb]; split; try reflexivity; lia.
Qed.

Lemma eanx_parts_gap (symbol : zint_symbol) (source : list ascii) (src_len : Z)
    (first_part second_part : list ascii) (gap : Z) :
  eanx_parts symbol source src_len = inr (first_part, second_part, gap) ->
  ustrlen second_part <> 0 ->
  gap = eanx_addon_gap symbol.
Proof.
  unfold eanx_parts. intros H Hlen.
  destruct (src_len >? 19); [discriminate H|].
  destruct (fst _ =? ZINT_ERROR_INVALID_DATA); [discriminate H|].
  destruct (ean_leading_zeroes symbol source []) as [[local_source with_addon]|];
    [|discriminate H].
  destruct (negb (with_addon =? 0)); injection H as <- <- <-; [reflexivity|].
  contradiction Hlen. reflexivity.
Qed.

(** C9.  The value [option_2] has no part in the result of [eanx]: whatever
    it is, the result is the one for the symbol without it.  When an add-on
    is encoded, the gap is [option_2] if that lies in 9..12 for UPC-A,
    UPC-A with check digit and UPC-A composite, or in 7..12 for the other
    symbologies, and 9 or 7 otherwise; and the pattern is the pattern of
    the primary symbol, one character for the gap, the start guard 112 of
    the add-on and the rest of the add-on. *)
Theorem addon_gap_override (symbol : zint_symbol) (source : list ascii) (src_len : Z)
    (override : Z) (first_part second_part : list ascii) (gap : Z)
    (error_number : Z) (primary : zint_symbol) (primary_pattern : list ascii) :
  fst (eanx (set_option_2 symbol override) source src_len) = fst (eanx symbol source src_len)
  /\ (eanx_parts symbol source src_len = inr (first_part, second_part, gap) ->
      ustrlen second_part = 2 \/ ustrlen second_part = 5 ->
      eanx_primary symbol first_part [] = (error_number, primary, primary_pattern) ->
      error_number < ZINT_ERROR ->
      gap = gap_in_words (symbology symbol) (option_2 symbol)
      /\ 7 <= gap <= 12
      /\ exists final body,
           eanx_linear symbol source src_len
           = (error_number, final,
              cstring primary_pattern ++ itoc gap :: chars "112" ++ body)).
Proof.
  split; [apply eanx_code_option_2|].
  intros Hparts Hlen Hprimary Herr.
  pose proof (eanx_parts_gap _ _ _ _ _ _ Hparts ltac:(lia)) as Hgap.
  destruct (eanx_addon_gap_in_words symbol) as [Hwords Hrange].
  rewrite <- Hgap in Hwords, Hrange. split; [exact Hwords|]. split; [exact Hrange|].
  destruct (add_on_gap_char second_part (ustrlen second_part) primary_pattern gap Hrange)
    as [body Hbody].
  unfold eanx_linear. rewrite Hparts, Hprimary.
  destruct (Z.geb_spec error_number ZINT_ERROR); [lia|].
  unfold eanx_addon.
  destruct Hlen as [E|E]; rewrite E in *; cbn [Z.eqb Pos.eqb orb Z.geb Z.compare ZINT_ERROR];
    rewrite Hbody; eauto.
Qed.

Lemma addon_gap_override_witness :
  let symbol := set_option_2 (new_symbol BARCODE_UPCA) 11 in
  fst (eanx (set_option_2 symbol 99) (chars "03600029145+12") 14) = 0
  /\ exists final body,
       eanx_linear symbol (chars "03600029145+12") 14
       = (0, final,
          chars "11132111411111432113211321111111212231122221113212312122111"
          ++ "B"%char :: chars "112" ++ body).
Proof.
  intros symbol.
  pose proof (addon_gap_override symbol (chars "03600029145+12") 14 99
                (chars "03600029145" ++ [NUL]) (chars "12" ++ [NUL]) 11 0
                (set_text symbol (chars "036000291452"))
                (chars "11132111411111432113211321111111212231122221113212312122111"))
    as [H1 H2].
  split; [rewrite H1; reflexivity|].
  destruct (H2 eq_refl (or_introl eq_refl) eq_refl ltac:(unfold ZINT_ERROR; lia))
    as (_ & _ & final & body & H).
  exists final, body. exact H.
Defined.

(** ** The splitting loop stops *)

Lemma split_body_reader (local_source : list ascii) (st : split_state) :
  sp_reader st + 1 <= sp_reader (split_body local_source st).
Proof.
  unfold split_body.
  destruct (Ascii.eqb (char_at local_source (sp_reader st)) "+"); cbn [sp_latch sp_reader].
  - lia.
  - destruct (sp_latch st); cbn [sp_reader]; lia.
Qed.

Lemma do_while_done (local_source : list ascii) (bound : Z) (fuel : nat) :
  forall st, (0 < fuel)%nat -> bound < sp_reader st + Z.of_nat fuel ->
             (sp_reader (do_while fuel (split_body local_source)
                                  (fun st => sp_reader st <=? bound) st) <=? bound)
             = false.
Proof.
  induction fuel as [|fuel IH]; intros st Hpos Hfuel; [lia|].
  cbn [do_while]. pose proof (split_body_reader local_source st) as Hstep.
  destruct (Z.leb_spec (sp_reader (split_body local_source st)) bound) as [Hle|Hgt].
  - apply IH; lia.
  - apply Z.leb_gt. exact Hgt.
Qed.

(** The fuel of [split_parts] is enough: when the loop returns, its
    condition [reader <= local_length] is false. *)
Lemma split_parts_done (local_source : list ascii) :
  (sp_reader (split_parts local_source) <=? ustrlen local_source) = false.
Proof.
  unfold split_parts. apply do_while_done; cbn [sp_reader]; unfold ustrlen; lia.
Qed.

(** ** Normalisation of an input without add-on *)

Lemma set_char_append (s : list ascii) (c : ascii) :
  set_char s (Z.of_nat (List.length s)) c = s ++ [c].
Proof.
  unfold set_char. rewrite Nat2Z.id, Nat.ltb_irrefl, Nat.sub_diag. reflexivity.
Qed.

Lemma copy_loop (s : list ascii) :
  forall pre post,
    for_up (List.length s) (Z.of_nat (List.length pre))
           (fun i part => set_char part i (char_at (pre ++ s ++ post) i)) pre
    = pre ++ s.
Proof.
  induction s as [|c s IH]; intros pre post; [symmetry; apply app_nil_r|].
  cbn [List.length for_up].
  assert (E : char_at (pre ++ (c :: s) ++ post) (Z.of_nat (List.length pre)) = c).
  { unfold char_at. destruct (Z.ltb_spec (Z.of_nat (List.length pre)) 0); [lia|].
    change ((c :: s) ++ post) with (c :: (s ++ post)).
    rewrite Nat2Z.id, nth_middle. reflexivity. }
  rewrite E, set_char_append.
  replace (Z.of_nat (List.length pre) + 1) with (Z.of_nat (List.length (pre ++ [c])))
    by (rewrite length_app; cbn [List.length]; lia).
  replace (pre ++ (c :: s) ++ post) with ((pre ++ [c]) ++ s ++ post)
    by (rewrite <- app_assoc; reflexivity).
  rewrite IH, <- app_assoc. reflexivity.
Qed.

Lemma pad_loop (n : nat) :
  forall i z, cstring (for_up n i (fun _ z => ustrcat z (chars "0")) z)
              = cstring z ++ repeat "0"%char n.
Proof.
  induction n as [|n IH]; intros i z; cbn [for_up repeat].
  - symmetry. apply app_nil_r.
  - rewrite IH. unfold ustrcat. rewrite cstring_app, <- app_assoc. reflexivity.
Qed.

Lemma forallb_digit_repeat (n : nat) : forallb is_digit (repeat "0"%char n) = true.
Proof.
  induction n as [|n IH]; [reflexivity|]. cbn [repeat forallb]. rewrite IH. reflexivity.
Qed.

Lemma for_range_nil {St : Type} (lo : Z) (f : Z -> St -> St) (st : St) :
  for_range lo lo f st = st.
Proof.
  unfold for_range. rewrite Z.sub_diag. reflexivity.
Qed.

Lemma padded_string (source : list ascii) (k : Z) :
  forallb is_digit source = true ->
  ustrcat [] (ustrcat (for_range 0 k (fun _ z => ustrcat z (chars "0")) [NUL])
                      (source ++ [NUL]))
  = repeat "0"%char (Z.to_nat k) ++ source.
Proof.
  intros Hd. unfold ustrcat at 1 2, for_range. rewrite pad_loop, Z.sub_0_r.
  rewrite (cstring_digits_nul source [] Hd).
  change (cstring [NUL]) with (@nil ascii). change (cstring []) with (@nil ascii).
  cbn [app]. apply cstring_digits.
  rewrite forallb_app, forallb_digit_repeat, Hd. reflexivity.
Qed.

(** A string of at most 13 digits is padded with zeroes to the target
    length of its symbology. *)
Lemma ean_leading_zeroes_digits (symbol : zint_symbol) (source : list ascii) :
  forallb is_digit source = true ->
  (List.length source <= 13)%nat ->
  ean_leading_zeroes symbol source []
  = Some (repeat "0"%char
                 (Z.to_nat (fst (target_lengths symbol (Z.of_nat (List.length source)) 0)
                            - Z.of_nat (List.length source)))
          ++ source, 0).
Proof.
  intros Hd Hlen.
  unfold ean_leading_zeroes. rewrite (part_lengths_primary source Hd).
  destruct (Z.gtb_spec (Z.of_nat (List.length source)) 13) as [G|_]; [lia|].
  cbn [orb Z.gtb Z.compare].
  assert (Z2 : snd (target_lengths symbol (Z.of_nat (List.length source)) 0) = 0)
    by reflexivity.
  destruct (target_lengths symbol (Z.of_nat (List.length source)) 0)
    as [zfirst_len zsecond_len].
  cbn [fst snd] in *. subst zsecond_len.
  rewrite (Z.sub_0_r 0), !for_range_nil.
  assert (Hcopy : for_range 0 (Z.of_nat (List.length source))
                            (fun i part => set_char part i (char_at source i)) []
                  = source).
  { unfold for_range. rewrite Z.sub_0_r, Nat2Z.id.
    pose proof (copy_loop source [] []) as Hc. rewrite app_nil_r in Hc. exact Hc. }
  rewrite Hcopy, (set_char_append source NUL).
  change (set_char [] 0 NUL) with [NUL].
  change (ustrcat [NUL] [NUL]) with (@nil ascii).
  change (negb (Ascii.eqb (char_at [] 0) NUL)) with false. cbv iota.
  rewrite (padded_string source _ Hd). reflexivity.
Qed.

(** It passes the checks of [eanx] too. *)
Lemma eanx_parts_digits (symbol : zint_symbol) (source : list ascii) :
  forallb is_digit source = true ->
  (List.length source <= 13)%nat ->
  eanx_parts symbol source (Z.of_nat (List.length source))
  = inr (repeat "0"%char
                (Z.to_nat (fst (target_lengths symbol (Z.of_nat (List.length source)) 0)
                           - Z.of_nat (List.length source)))
         ++ source, [], 0).
Proof.
  intros Hd Hlen.
  rewrite (eanx_parts_sane symbol source (forallb_digit_sodium source Hd)).
  destruct (Z.gtb_spec (Z.of_nat (List.length source)) 19) as [G|_]; [lia|].
  rewrite (ean_leading_zeroes_digits symbol source Hd Hlen).
  cbn [Z.eqb negb]. unfold ustrcpy. rewrite cstring_digits; [reflexivity|].
  rewrite forallb_app, forallb_digit_repeat, Hd. reflexivity.
Qed.

(** ** UPC-E at the entry point (claims C2 and C10) *)

Lemma upce_symbology (symbol : zint_symbol) (source : list ascii) (length : Z)
    (dest : list ascii) :
  symbology (snd (fst (upce symbol source length dest))) = symbology symbol.
Proof.
  unfold upce.
  destruct (upce_number_system symbol source length) as [[[num_system hrt] code] len].
  destruct (upce_equivalent num_system hrt code) as [msg|equivalent]; [reflexivity|].
  destruct (negb (symbology_t_beq (symbology symbol) BARCODE_UPCE_CHK)); [reflexivity|].
  destruct (negb (Ascii.eqb (char_at hrt 7) (upc_check equivalent 11))); reflexivity.
Qed.

(** What [eanx] makes of 6 or 7 digits for [BARCODE_UPCE]: they go to [upce]
    as they are, and the pattern is expanded when [upce] succeeds. *)
Lemma eanx_upce (symbol : zint_symbol) (source : list ascii) :
  symbology symbol = BARCODE_UPCE ->
  forallb is_digit source = true ->
  (List.length source = 6 \/ List.length source = 7)%nat ->
  eanx symbol source (Z.of_nat (List.length source))
  = let '(e, s, d) := upce symbol source (Z.of_nat (List.length source)) [] in
    if e >=? ZINT_ERROR then (e, s) else (e, expand s d).
Proof.
  intros Hsym Hd Hlen.
  assert (Hparts : eanx_parts symbol source (Z.of_nat (List.length source))
                   = inr (source, [], 0)).
  { rewrite (eanx_parts_digits symbol source Hd) by lia.
    unfold target_lengths. rewrite Hsym.
    destruct Hlen as [E|E]; rewrite E; reflexivity. }
  assert (Hprimary : eanx_primary symbol source []
                     = upce symbol source (Z.of_nat (List.length source)) []).
  { unfold eanx_primary. rewrite Hsym, (ustrlen_digits source Hd).
    destruct Hlen as [E|E]; rewrite E; reflexivity. }
  pose proof (upce_symbology symbol source (Z.of_nat (List.length source)) []) as Hs.
  unfold eanx, eanx_linear. rewrite Hparts, Hprimary.
  destruct (upce symbol source (Z.of_nat (List.length source)) []) as [[e s] d].
  cbn [fst snd] in Hs.
  destruct (e >=? ZINT_ERROR) eqn:He; [rewrite He; reflexivity|].
  change (eanx_addon s [] d 0) with (0, s, d). cbv beta iota.
  change (0 >=? ZINT_ERROR) with false. cbv beta iota. rewrite He.
  unfold eanx_shift. destruct (expand_row s d) as (_ & X & _). rewrite X, Hs, Hsym.
  reflexivity.
Qed.

(** C2.  For a 6-digit UPC-E code [upce] returns [ZINT_ERROR_INVALID_DATA]
    exactly in the forbidden cases: mode digit 3 with [digits[2]] among 0, 1,
    2; mode digit 4 with [digits[3]] 0; mode digits 5 to 9 with [digits[4]]
    0.  It then leaves [dest] and the symbol but for its error text as they
    were, so no symbol is produced and none of these inputs succeeds; this
    is the result of [eanx] for [BARCODE_UPCE], which succeeds on every
    other six digits. *)
Theorem upce_invalid_data (symbol : zint_symbol) (source dest : list ascii) :
  (fst (fst (upce symbol source 6 dest)) = ZINT_ERROR_INVALID_DATA
   <-> upce_forbidden source = true)
  /\ (upce_forbidden source = true ->
      exists msg, upce symbol source 6 dest
                  = (ZINT_ERROR_INVALID_DATA, set_errtxt symbol msg, dest))
  /\ (symbology symbol = BARCODE_UPCE ->
      forallb is_digit source = true -> List.length source = 6%nat ->
      if upce_forbidden source
      then exists msg, eanx symbol source 6
                       = (ZINT_ERROR_INVALID_DATA, set_errtxt symbol msg)
      else fst (eanx symbol source 6) = 0).
Proof.
  assert (R : forall dest,
             if upce_forbidden source
             then exists msg, upce symbol source 6 dest
                              = (ZINT_ERROR_INVALID_DATA, set_errtxt symbol msg, dest)
             else fst (fst (upce symbol source 6 dest)) = 0
                  \/ fst (fst (upce symbol source 6 dest)) = ZINT_ERROR_INVALID_CHECK).
  { intros d. pose proof (upce_result symbol source 6 d) as R.
    rewrite upce_number_system_6 in R.
    pose proof (upce_equivalent_forbidden 0 ("0"%char :: firstn 6 (cstring source)) source)
      as F.
    destruct (upce_forbidden source); destruct F as [x F]; rewrite F in R; eauto. }
  split; [|split].
  - specialize (R dest). destruct (upce_forbidden source).
    + destruct R as [msg R]. rewrite R. split; reflexivity.
    + split; [|discriminate]. intros E. rewrite E in R. destruct R; discriminate.
  - intros F. specialize (R dest). rewrite F in R. exact R.
  - intros Hsym Hd Hlen. pose proof (eanx_upce symbol source Hsym Hd ltac:(lia)) as E.
    rewrite Hlen in E. change (Z.of_nat 6) with 6 in E. rewrite E.
    specialize (R []). destruct (upce_forbidden source).
    + destruct R as [msg R]. rewrite R. exists msg. reflexivity.
    + unfold upce in *. rewrite upce_number_system_6 in *.
      destruct (upce_equivalent 0 ("0"%char :: firstn 6 (cstring source)) source);
        [destruct R; discriminate|].
      rewrite Hsym. reflexivity.
Qed.

Lemma upce_invalid_data_witness :
  upce_forbidden (chars "123004") = true
  /\ fst (fst (upce (new_symbol BARCODE_UPCE) (chars "123004") 6 [])) = ZINT_ERROR_INVALID_DATA
  /\ fst (fst (upce (new_symbol BARCODE_UPCE) (chars "123456") 6 [])) <> ZINT_ERROR_INVALID_DATA
  /\ fst (eanx (new_symbol BARCODE_UPCE) (chars "123456") 6) = 0.
Proof.
  split; [reflexivity|]. split; [|split].
  - apply (proj1 (upce_invalid_data (new_symbol BARCODE_UPCE) (chars "123004") [])).
    reflexivity.
  - intros E.
    apply (proj1 (upce_invalid_data (new_symbol BARCODE_UPCE) (chars "123456") [])) in E.
    discriminate E.
  - exact (proj2 (proj2 (upce_invalid_data (new_symbol BARCODE_UPCE) (chars "123456") []))
                 eq_refl eq_refl eq_refl).
Defined.

(** A 7-character input without check digit whose first character is
    neither 0 nor 1, next to the input of its six last digits alone. *)
Lemma upce_seven_characters (symbol : zint_symbol) (c0 : ascii)
    (digits dest : list ascii) :
  symbology symbol <> BARCODE_UPCE_CHK ->
  is_digit c0 = true -> c0 <> "0"%char -> c0 <> "1"%char ->
  List.length digits = 6%nat -> forallb is_digit digits = true ->
  if upce_forbidden digits
  then fst (fst (upce symbol (c0 :: digits) 7 dest)) = ZINT_ERROR_INVALID_DATA
  else exists equivalent pattern,
      fst (fst (fst (upce_number_system symbol (c0 :: digits) 7))) = 0
      /\ upce_equivalent 0 (chars "0") digits = inr equivalent
      /\ char_at equivalent 0 = "0"%char
      /\ upce symbol digits 6 dest
         = (0, set_text symbol ("0"%char :: digits ++ [upc_check equivalent 11]), pattern)
      /\ upce symbol (c0 :: digits) 7 dest
         = (0, set_text symbol (c0 :: digits ++ [upc_check equivalent 11]), pattern).
Proof.
  intros Hsym Hc0 Hn0 Hn1 Hlen Hd.
  do 7 (destruct digits as [|? digits]; try discriminate Hlen). clear Hlen.
  assert (Hns : upce_number_system symbol [c0; a; a0; a1; a2; a3; a4] 7
                = (0, [c0; a; a0; a1; a2; a3; a4], [a; a0; a1; a2; a3; a4; NUL], 6)).
  { unfold upce_number_system. rewrite (not_upce_chk symbol Hsym).
    cbn [negb andb orb Z.eqb Pos.eqb].
    change (char_at [c0; a; a0; a1; a2; a3; a4] 0) with c0.
    rewrite (eqb_neq _ _ Hn0), (eqb_neq _ _ Hn1). unfold ustrcpy.
    rewrite (cstring_digits [c0; a; a0; a1; a2; a3; a4])
      by (cbn [forallb]; rewrite Hc0; exact Hd).
    reflexivity. }
  assert (Hreads : forall k, 0 <= k < 6 ->
            char_at [a; a0; a1; a2; a3; a4; NUL] k = char_at [a; a0; a1; a2; a3; a4] k).
  { intros k Hk.
    assert (E : k = 0 \/ k = 1 \/ k = 2 \/ k = 3 \/ k = 4 \/ k = 5) by lia.
    destruct E as [->|[->|[->|[->|[->| ->]]]]]; reflexivity. }
  pose proof (upce_equivalent_reads [c0; a; a0; a1; a2; a3; a4] (chars "0") _ _ Hreads) as E7.
  pose proof (upce_equivalent_reads ("0"%char :: firstn 6 (cstring [a; a0; a1; a2; a3; a4]))
                (chars "0") [a; a0; a1; a2; a3; a4] _ (fun _ _ => eq_refl)) as E6.
  pose proof (upce_equivalent_forbidden 0 (chars "0") [a; a0; a1; a2; a3; a4]) as F.
  destruct (upce_forbidden [a; a0; a1; a2; a3; a4]).
  - destruct F as [msg F].
    pose proof (upce_result symbol [c0; a; a0; a1; a2; a3; a4] 7 dest) as R.
    rewrite Hns, E7, F in R. rewrite R. reflexivity.
  - destruct F as [equivalent F]. exists equivalent.
    destruct (upce_equivalent_digits (chars "0") _ equivalent
                (digits_upto_all _ 6 Hd ltac:(cbn [List.length]; lia)) F) as [Hdig H0].
    pose proof (upc_check_is_digit equivalent 11 Hdig) as Hchk.
    unfold upce. rewrite Hns, upce_number_system_6, E6, E7, F.
    rewrite (not_upce_chk symbol Hsym). cbn [negb].
    cbn [fst].
    revert Hchk. generalize (upc_check equivalent 11). intros chk Hchk.
    assert (Hall : forallb is_digit ([a; a0; a1; a2; a3; a4] ++ [chk]) = true).
    { rewrite forallb_app, Hd. cbn [forallb]. rewrite Hchk. reflexivity. }
    assert (T6 : ustrcpy (set_char (set_char ("0"%char :: firstn 6 (cstring [a; a0; a1; a2; a3; a4]))
                                             7 chk) 8 NUL)
                 = "0"%char :: [a; a0; a1; a2; a3; a4] ++ [chk]).
    { rewrite (cstring_digits _ Hd).
      change (set_char (set_char ("0"%char :: firstn 6 [a; a0; a1; a2; a3; a4]) 7 chk) 8 NUL)
        with (("0"%char :: [a; a0; a1; a2; a3; a4] ++ [chk]) ++ [NUL]).
      apply cstring_digits_nul. cbn [forallb]. exact Hall. }
    assert (T7 : ustrcpy (set_char (set_char [c0; a; a0; a1; a2; a3; a4] 7 chk) 8 NUL)
                 = c0 :: [a; a0; a1; a2; a3; a4] ++ [chk]).
    { change (set_char (set_char [c0; a; a0; a1; a2; a3; a4] 7 chk) 8 NUL)
        with ((c0 :: [a; a0; a1; a2; a3; a4] ++ [chk]) ++ [NUL]).
      apply cstring_digits_nul. cbn [forallb]. rewrite Hc0. exact Hall. }
    rewrite T6, T7. eexists.
    split; [reflexivity|]. split; [reflexivity|]. split; [exact H0|].
    split; [reflexivity|].
    f_equal.
Qed.

(** C10, amended.  A 7-character input to a UPC-E variant without a supplied
    check digit, whose first character is a digit other than 0 and 1, is
    encoded with number system 0: its first character plays no part in the
    expansion or in the parity, so that the pattern is the one of the six
    remaining digits alone, and the text is that first character, the six
    digits and the computed check digit.  The encoding fails, as invalid
    data, when the six digits are one of the forbidden combinations.  The
    last part of each case is the result of [eanx] for [BARCODE_UPCE]. *)
Theorem upce_first_character_ignored (symbol : zint_symbol) (c0 : ascii)
    (digits dest : list ascii) :
  symbology symbol <> BARCODE_UPCE_CHK ->
  is_digit c0 = true -> c0 <> "0"%char -> c0 <> "1"%char ->
  List.length digits = 6%nat -> forallb is_digit digits = true ->
  if upce_forbidden digits
  then fst (fst (upce symbol (c0 :: digits) 7 dest)) = ZINT_ERROR_INVALID_DATA
       /\ (symbology symbol = BARCODE_UPCE ->
           fst (eanx symbol (c0 :: digits) 7) = ZINT_ERROR_INVALID_DATA)
  else exists equivalent pattern,
      fst (fst (fst (upce_number_system symbol (c0 :: digits) 7))) = 0
      /\ upce_equivalent 0 (chars "0") digits = inr equivalent
      /\ char_at equivalent 0 = "0"%char
      /\ upce symbol digits 6 dest
         = (0, set_text symbol ("0"%char :: digits ++ [upc_check equivalent 11]), pattern)
      /\ upce symbol (c0 :: digits) 7 dest
         = (0, set_text symbol (c0 :: digits ++ [upc_check equivalent 11]), pattern)
      /\ (symbology symbol = BARCODE_UPCE ->
          fst (eanx symbol (c0 :: digits) 7) = 0
          /\ text (snd (eanx symbol (c0 :: digits) 7))
             = c0 :: digits ++ [upc_check equivalent 11]).
Proof.
  intros Hsym Hc0 Hn0 Hn1 Hlen Hd.
  assert (Hentry : symbology symbol = BARCODE_UPCE ->
            eanx symbol (c0 :: digits) 7
            = let '(e, s, d) := upce symbol (c0 :: digits) 7 [] in
              if e >=? ZINT_ERROR then (e, s) else (e, expand s d)).
  { intros Hu.
    pose proof (eanx_upce symbol (c0 :: digits) Hu) as E. cbn [List.length forallb] in E.
    rewrite Hlen, Hc0, Hd in E. exact (E eq_refl ltac:(lia)). }
  pose proof (upce_seven_characters symbol c0 digits dest Hsym Hc0 Hn0 Hn1 Hlen Hd) as M.
  pose proof (upce_seven_characters symbol c0 digits [] Hsym Hc0 Hn0 Hn1 Hlen Hd) as M0.
  destruct (upce_forbidden digits).
  - split; [exact M|]. intros Hu. rewrite (Hentry Hu).
    destruct (upce symbol (c0 :: digits) 7 []) as [[e s] d]. cbn [fst] in M0.
    rewrite M0. reflexivity.
  - destruct M as (equivalent & pattern & M1 & M2 & M3 & M4 & M5).
    destruct M0 as (equivalent' & pattern' & _ & M2' & _ & _ & M5').
    rewrite M2 in M2'. injection M2' as <-.
    exists equivalent, pattern.
    split; [exact M1|]. split; [exact M2|]. split; [exact M3|].
    split; [exact M4|]. split; [exact M5|].
    intros Hu. rewrite (Hentry Hu), M5'. split; [reflexivity|].
    cbn [Z.geb Z.compare ZINT_ERROR snd].
    destruct (expand_row (set_text symbol (c0 :: digits ++ [upc_check equivalent 11]))
                         pattern') as (_ & _ & _ & _ & T).
    rewrite T. reflexivity.
Qed.

Lemma upce_first_character_ignored_witness :
  (exists pattern,
      upce (new_symbol BARCODE_UPCE) (chars "123456") 6 []
      = (0, set_text (new_symbol BARCODE_UPCE) (chars "01234565"), pattern)
      /\ upce (new_symbol BARCODE_UPCE) (chars "2123456") 7 []
         = (0, set_text (new_symbol BARCODE_UPCE) (chars "21234565"), pattern))
  /\ fst (eanx (new_symbol BARCODE_UPCE) (chars "2123456") 7) = 0
  /\ text (snd (eanx (new_symbol BARCODE_UPCE) (chars "2123456") 7)) = chars "21234565".
Proof.
  pose proof (upce_first_character_ignored (new_symbol BARCODE_UPCE) "2" (chars "123456") []
                ltac:(discriminate) eq_refl ltac:(discriminate) ltac:(discriminate)
                eq_refl eq_refl) as H.
  change (upce_forbidden (chars "123456")) with false in H.
  destruct H as (equivalent & pattern & _ & E & _ & H6 & H7 & He).
  vm_compute in E. injection E as <-.
  split; [exists pattern; split; [exact H6 | exact H7]|].
  exact (He eq_refl).
Defined.

(** C10 as it is worded fails: the seven characters 2000003 hold the
    forbidden code 000003 (mode 3, third digit 0) and are refused. *)
Lemma upce_first_character_can_fail :
  fst (eanx (new_symbol BARCODE_UPCE) (chars "2000003") 7) = ZINT_ERROR_INVALID_DATA
  /\ fst (eanx (new_symbol BARCODE_UPCE) (chars "2000003") 7) <> 0.
Proof.
  split; vm_compute; [reflexivity | discriminate].
Qed.

(** ** Check digits at the entry point (claim C4) *)

Lemma upce_mismatch (symbol : zint_symbol) (source dest : list ascii) (length : Z)
    (num_system : Z) (hrt digits : list ascii) (len : Z) (equivalent : list ascii) :
  forallb is_digit source = true ->
  symbology symbol = BARCODE_UPCE_CHK ->
  length = Z.of_nat (List.length source) ->
  length = 7 \/ length = 8 ->
  upce_number_system symbol source length = (num_system, hrt, digits, len) ->
  upce_equivalent num_system hrt digits = inr equivalent ->
  char_at source (length - 1) <> upc_check equivalent 11 ->
  exists pattern,
    upce symbol source length dest
    = (ZINT_ERROR_INVALID_CHECK, set_errtxt symbol "274: Invalid check digit", pattern).
Proof.
  intros Hd Hsym Hlen H78 Hns Heq Hne.
  pose proof (upce_chk_hrt symbol source length Hsym Hd Hlen H78) as Hhrt.
  unfold upce. rewrite Hns in *. rewrite Heq, Hsym, Hhrt.
  cbn [symbology_t_beq negb]. rewrite (eqb_neq _ _ Hne). cbn [negb]. eauto.
Qed.

(** A string of digits that is as long as its symbology wants it goes to the
    [switch] on the symbology as it is; an error there is the result of
    [eanx], with the symbol as the encoder left it. *)
Lemma eanx_primary_error (symbol : zint_symbol) (source : list ascii)
    (e : Z) (s : zint_symbol) (d : list ascii) :
  forallb is_digit source = true ->
  (List.length source <= 13)%nat ->
  fst (target_lengths symbol (Z.of_nat (List.length source)) 0)
  <= Z.of_nat (List.length source) ->
  eanx_primary symbol source [] = (e, s, d) ->
  e >= ZINT_ERROR ->
  eanx symbol source (Z.of_nat (List.length source)) = (e, s).
Proof.
  intros Hd Hlen Htarget Hprimary He.
  unfold eanx, eanx_linear. rewrite (eanx_parts_digits symbol source Hd Hlen).
  replace (Z.to_nat (fst (target_lengths symbol (Z.of_nat (List.length source)) 0)
                     - Z.of_nat (List.length source))) with 0%nat by lia.
  cbn [repeat app]. rewrite Hprimary.
  destruct (Z.geb_spec e ZINT_ERROR) as [_|Hlt]; [|lia].
  destruct (Z.geb_spec e ZINT_ERROR) as [_|Hlt]; [reflexivity|lia].
Qed.

(** C4, amended.  When the input carries its check digit (12 digits to
    [upca], 13 to [ean13], 8 to [ean8], 7 or 8 to [upce] in the variant with
    a check digit) the check digit is computed again, and on a mismatch the
    result is [ZINT_ERROR_INVALID_CHECK]: nothing is written but the error
    text, so the caller's digit is not replaced and no symbol is produced.
    For UPC-E this is what happens when the code expands ([upce_equivalent]
    gives [inr]); a forbidden code has been refused as invalid data before
    its check digit is looked at.  Each case ends with the result of [eanx]
    for the symbologies that hand such an input to the encoder. *)
Theorem check_digit_mismatch (symbol : zint_symbol) (source dest : list ascii) :
  forallb is_digit source = true ->
  (List.length source = 12%nat -> char_at source 11 <> upc_check source 11 ->
   upca symbol source 12 dest
   = (ZINT_ERROR_INVALID_CHECK, set_errtxt symbol "270: Invalid check digit", dest)
   /\ (symbology symbol = BARCODE_UPCA \/ symbology symbol = BARCODE_UPCA_CHK ->
       eanx symbol source 12
       = (ZINT_ERROR_INVALID_CHECK, set_errtxt symbol "270: Invalid check digit")))
  /\ (List.length source = 13%nat -> char_at source 12 <> ean_check source 12 ->
      ean13 symbol source 13 dest
      = (ZINT_ERROR_INVALID_CHECK, set_errtxt symbol "275: Invalid check digit", dest)
      /\ (symbology symbol = BARCODE_EANX \/ symbology symbol = BARCODE_EANX_CHK ->
          eanx symbol source 13
          = (ZINT_ERROR_INVALID_CHECK, set_errtxt symbol "275: Invalid check digit")))
  /\ (List.length source = 8%nat -> char_at source 7 <> upc_check source 7 ->
      ean8 symbol source 8 dest
      = (ZINT_ERROR_INVALID_CHECK, set_errtxt symbol "276: Invalid check digit", dest)
      /\ (symbology symbol = BARCODE_EANX_CHK ->
          eanx symbol source 8
          = (ZINT_ERROR_INVALID_CHECK, set_errtxt symbol "276: Invalid check digit")))
  /\ (forall length num_system hrt digits len equivalent,
         symbology symbol = BARCODE_UPCE_CHK ->
         length = Z.of_nat (List.length source) ->
         length = 7 \/ length = 8 ->
         upce_number_system symbol source length = (num_system, hrt, digits, len) ->
         upce_equivalent num_system hrt digits = inr equivalent ->
         char_at source (length - 1) <> upc_check equivalent 11 ->
         (exists pattern,
             upce symbol source length dest
             = (ZINT_ERROR_INVALID_CHECK, set_errtxt symbol "274: Invalid check digit",
                pattern))
         /\ eanx symbol source length
            = (ZINT_ERROR_INVALID_CHECK, set_errtxt symbol "274: Invalid check digit")).
Proof.
  intros Hd.
  assert (Hge : ZINT_ERROR_INVALID_CHECK >= ZINT_ERROR)
    by (unfold ZINT_ERROR_INVALID_CHECK, ZINT_ERROR; lia).
  split; [|split; [|split]].
  - intros Hlen Hne. split; [apply upca_mismatch; assumption|].
    intros Hsym.
    pose proof (eanx_primary_error symbol source ZINT_ERROR_INVALID_CHECK
                  (set_errtxt symbol "270: Invalid check digit") [] Hd) as E.
    rewrite Hlen in E. apply E; [lia| | |exact Hge].
    + unfold target_lengths. destruct Hsym as [-> | ->]; cbn; lia.
    + rewrite <- (upca_mismatch symbol source [] Hd Hne).
      unfold eanx_primary. rewrite (ustrlen_digits source Hd), Hlen.
      destruct Hsym as [-> | ->]; reflexivity.
  - intros Hlen Hne. split; [apply ean13_mismatch; assumption|].
    intros Hsym.
    pose proof (eanx_primary_error symbol source ZINT_ERROR_INVALID_CHECK
                  (set_errtxt symbol "275: Invalid check digit") [] Hd) as E.
    rewrite Hlen in E. apply E; [lia| | |exact Hge].
    + unfold target_lengths. destruct Hsym as [-> | ->]; cbn; lia.
    + rewrite <- (ean13_mismatch symbol source [] Hd Hne).
      unfold eanx_primary. rewrite (ustrlen_digits source Hd), Hlen.
      destruct Hsym as [-> | ->]; reflexivity.
  - intros Hlen Hne. split; [apply ean8_mismatch; assumption|].
    intros Hsym.
    pose proof (eanx_primary_error symbol source ZINT_ERROR_INVALID_CHECK
                  (set_errtxt symbol "276: Invalid check digit") [] Hd) as E.
    rewrite Hlen in E. apply E; [lia| | |exact Hge].
    + unfold target_lengths. rewrite Hsym. cbn. lia.
    + rewrite <- (ean8_mismatch symbol source [] Hd Hne).
      unfold eanx_primary. rewrite (ustrlen_digits source Hd), Hlen, Hsym. reflexivity.
  - intros length num_system hrt digits len equivalent Hsym Hlen H78 Hns Heq Hne.
    split; [apply (upce_mismatch symbol source dest length num_system hrt digits len
                     equivalent); assumption|].
    destruct (upce_mismatch symbol source [] length num_system hrt digits len
                equivalent Hd Hsym Hlen H78 Hns Heq Hne) as [pattern Hp].
    pose proof (eanx_primary_error symbol source ZINT_ERROR_INVALID_CHECK
                  (set_errtxt symbol "274: Invalid check digit") pattern Hd) as E.
    rewrite <- Hlen in E. apply E; [lia| | |exact Hge].
    + unfold target_lengths. rewrite Hsym. destruct H78 as [-> | ->]; cbn; lia.
    + rewrite <- Hp. unfold eanx_primary.
      rewrite (ustrlen_digits source Hd), <- Hlen, Hsym.
      destruct H78 as [-> | ->]; reflexivity.
Qed.

Lemma check_digit_mismatch_witness :
  eanx (new_symbol BARCODE_UPCA) (chars "036000291453") 12
  = (ZINT_ERROR_INVALID_CHECK,
     set_errtxt (new_symbol BARCODE_UPCA) "270: Invalid check digit")
  /\ eanx (new_symbol BARCODE_UPCE_CHK) (chars "01234564") 8
     = (ZINT_ERROR_INVALID_CHECK,
        set_errtxt (new_symbol BARCODE_UPCE_CHK) "274: Invalid check digit").
Proof.
  split.
  - apply (proj1 (check_digit_mismatch (new_symbol BARCODE_UPCA) (chars "036000291453") []
                    eq_refl)); [reflexivity| |left; reflexivity].
    vm_compute. discriminate.
  - apply (proj2 (proj2 (proj2
             (check_digit_mismatch (new_symbol BARCODE_UPCE_CHK) (chars "01234564") []
                eq_refl)))
             8 0 (chars "01234564") (chars "1234564" ++ [NUL]) 7
             (chars "01234500006" ++ [NUL]));
      try reflexivity; [right; reflexivity|].
    vm_compute. discriminate.
Defined.

(** C4 as it is worded fails for UPC-E: the code 000003 is forbidden, and
    with either of the check digits 0 and 1 behind it, of which one at
    least is wrong, the result is [ZINT_ERROR_INVALID_DATA]. *)
Lemma upce_forbidden_before_check_digit :
  fst (eanx (new_symbol BARCODE_UPCE_CHK) (chars "00000030") 8) = ZINT_ERROR_INVALID_DATA
  /\ fst (eanx (new_symbol BARCODE_UPCE_CHK) (chars "00000031") 8) = ZINT_ERROR_INVALID_DATA
  /\ ZINT_ERROR_INVALID_DATA <> ZINT_ERROR_INVALID_CHECK.
Proof.
  repeat split; vm_compute; discriminate.
Qed.

(** * Further properties *)

(** ** What the check digits are for *)

Lemma sum_from_snoc (f : Z -> Z) (n : nat) :
  forall i, sum_from (S n) i f = sum_from n i f + f (i + Z.of_nat n).
Proof.
  induction n as [|n IH]; intros i.
  - cbn [sum_from]. replace (i + Z.of_nat 0) with i by lia. lia.
  - change (sum_from (S (S n)) i f) with (f i + sum_from (S n) (i + 1) f).
    rewrite IH. cbn [sum_from].
    replace (i + 1 + Z.of_nat n) with (i + Z.of_nat (S n)) by lia. lia.
Qed.

(** Two sums whose terms agree but at [j] differ by the terms at [j]. *)
Lemma sum_from_change (f g : Z -> Z) (j : Z) (n : nat) :
  forall i, i <= j < i + Z.of_nat n ->
            (forall k, i <= k < i + Z.of_nat n -> k <> j -> g k = f k) ->
            sum_from n i g = sum_from n i f + (g j - f j).
Proof.
  induction n as [|n IH]; intros i Hj H; [lia|].
  cbn [sum_from]. destruct (Z.eq_dec i j) as [->|Hij].
  - rewrite (sum_from_ext g f n (j + 1)); [lia|].
    intros k Hk. apply H; lia.
  - rewrite (H i) by lia. rewrite (IH (i + 1)); [lia|lia|].
    intros k Hk Hkj. apply H; lia.
Qed.

Lemma char_at_app_left (s t : list ascii) (k : Z) :
  0 <= k < Z.of_nat (List.length s) -> char_at (s ++ t) k = char_at s k.
Proof.
  intros H. unfold char_at. destruct (Z.ltb_spec k 0); [lia|].
  apply app_nth1. lia.
Qed.

Lemma char_at_app_end (s : list ascii) (c : ascii) (t : list ascii) :
  char_at (s ++ c :: t) (Z.of_nat (List.length s)) = c.
Proof.
  unfold char_at. destruct (Z.ltb_spec (Z.of_nat (List.length s)) 0); [lia|].
  rewrite Nat2Z.id. apply nth_middle.
Qed.

Lemma char_at_set_char (s : list ascii) (i k : Z) (c : ascii) :
  0 <= i < Z.of_nat (List.length s) -> 0 <= k ->
  char_at (set_char s i c) k = if k =? i then c else char_at s k.
Proof.
  intros Hi Hk. unfold char_at, set_char.
  destruct (Z.ltb_spec k 0); [lia|].
  destruct (Nat.ltb_spec (Z.to_nat i) (List.length s)); [|lia].
  destruct (Z.eqb_spec k i) as [->|Hne].
  - rewrite app_nth2; rewrite length_firstn; [|lia].
    replace (Z.to_nat i - Nat.min (Z.to_nat i) (List.length s))%nat with 0%nat by lia.
    reflexivity.
  - destruct (Z.ltb_spec k i).
    + rewrite app_nth1 by (rewrite length_firstn; lia).
      rewrite nth_firstn. destruct (Nat.ltb_spec (Z.to_nat k) (Z.to_nat i)); [reflexivity|lia].
    + rewrite app_nth2; rewrite length_firstn; [|lia].
      replace (Nat.min (Z.to_nat i) (List.length s)) with (Z.to_nat i) by lia.
      replace (Z.to_nat k - Z.to_nat i)%nat with (S (Z.to_nat k - Z.to_nat i - 1)) by lia.
      cbn [nth]. rewrite nth_skipn. f_equal. lia.
Qed.

Lemma digit_value_char (n : Z) : 0 <= n <= 9 -> digit_value (digit_char n) = n.
Proof.
  intros H. unfold digit_value, digit_char. rewrite code_of_char; lia.
Qed.

Lemma digit_value_inj (a b : ascii) : digit_value a = digit_value b -> a = b.
Proof.
  unfold digit_value. intros H. apply code_of_inj. lia.
Qed.

Lemma weighted_sum_snoc (weight : Z -> Z) (s : list ascii) (c : ascii) :
  weighted_sum weight (s ++ [c]) (Z.of_nat (List.length s) + 1)
  = weighted_sum weight s (Z.of_nat (List.length s))
    + digit_value c * weight (Z.of_nat (List.length s)).
Proof.
  unfold weighted_sum.
  replace (Z.to_nat (Z.of_nat (List.length s) + 1)) with (S (List.length s)) by lia.
  rewrite sum_from_snoc, Nat2Z.id, Z.add_0_l, char_at_app_end. f_equal.
  apply sum_from_ext. intros k Hk. rewrite char_at_app_left by lia. reflexivity.
Qed.

Lemma mod10_check_closes (sum : Z) : (sum + mod10_check sum) mod 10 = 0.
Proof.
  unfold mod10_check.
  pose proof (Z.mod_pos_bound sum 10 ltac:(lia)) as Hr.
  pose proof (Z.div_mod sum 10 ltac:(lia)) as Hq.
  destruct (Z.eq_dec (sum mod 10) 0) as [E|E].
  - rewrite E. change ((10 - 0) mod 10) with 0. rewrite Z.add_0_r. exact E.
  - rewrite (Z.mod_small (10 - sum mod 10)) by lia.
    replace (sum + (10 - sum mod 10)) with ((sum / 10 + 1) * 10) by lia.
    apply Z.mod_mul. lia.
Qed.

(** X1.  The check digit closes the sum: a string of digits followed by its
    check digit has a weighted sum that is a multiple of 10, the check digit
    having weight 1 (odd length for [upc_check], even length for
    [ean_check]). *)
Theorem check_digit_closes_sum (s : list ascii) :
  forallb is_digit s = true ->
  let n := Z.of_nat (List.length s) in
  (Z.odd n = true ->
   weighted_sum upc_weight (s ++ [upc_check s n]) (n + 1) mod 10 = 0)
  /\ (Z.even n = true ->
      weighted_sum ean_weight (s ++ [ean_check s n]) (n + 1) mod 10 = 0).
Proof.
  intros Hd n.
  pose proof (digits_upto_all s n Hd ltac:(lia)) as Hu.
  split; intros Hpar; unfold n; rewrite weighted_sum_snoc; fold n.
  - rewrite (upc_check_spec s n Hu), digit_value_char by apply mod10_check_range.
    assert (W : upc_weight n = 1)
      by (unfold upc_weight; rewrite <- Z.negb_odd, Hpar; reflexivity).
    rewrite W, Z.mul_1_r. apply mod10_check_closes.
  - rewrite (ean_check_spec s n Hu), digit_value_char by apply mod10_check_range.
    assert (W : ean_weight n = 1) by (unfold ean_weight; rewrite Hpar; reflexivity).
    rewrite W, Z.mul_1_r. apply mod10_check_closes.
Qed.

Lemma check_digit_closes_sum_witness :
  weighted_sum upc_weight (chars "036000291452") 12 mod 10 = 0
  /\ weighted_sum ean_weight (chars "9780195011098") 13 mod 10 = 0.
Proof.
  split.
  - exact (proj1 (check_digit_closes_sum (chars "03600029145") eq_refl) eq_refl).
  - exact (proj2 (check_digit_closes_sum (chars "978019501109") eq_refl) eq_refl).
Defined.

Lemma weighted_sum_set_char (weight : Z -> Z) (s : list ascii) (i : Z) (c : ascii) (n : Z) :
  0 <= i < n -> n <= Z.of_nat (List.length s) ->
  weighted_sum weight (set_char s i c) n
  = weighted_sum weight s n
    + (digit_value c - digit_value (char_at s i)) * weight i.
Proof.
  intros Hi Hn. unfold weighted_sum.
  rewrite (sum_from_change (fun k => digit_value (char_at s k) * weight k)
                           (fun k => digit_value (char_at (set_char s i c) k) * weight k)
                           i).
  - cbv beta. rewrite char_at_set_char, Z.eqb_refl by lia. lia.
  - lia.
  - intros k Hk Hne. cbv beta. rewrite char_at_set_char by lia.
    destruct (Z.eqb_spec k i); [contradiction|reflexivity].
Qed.

Lemma digits_upto_set_char (s : list ascii) (i : Z) (c : ascii) (n : Z) :
  digits_upto s n -> is_digit c = true -> 0 <= i < Z.of_nat (List.length s) ->
  digits_upto (set_char s i c) n.
Proof.
  intros Hs Hc Hi k Hk. rewrite char_at_set_char by lia.
  destruct (k =? i); [exact Hc | apply Hs, Hk].
Qed.

Lemma mod10_check_inj (a b : Z) : mod10_check a = mod10_check b -> a mod 10 = b mod 10.
Proof.
  unfold mod10_check.
  pose proof (Z.mod_pos_bound a 10 ltac:(lia)) as Ha.
  pose proof (Z.mod_pos_bound b 10 ltac:(lia)) as Hb.
  destruct (Z.eq_dec (a mod 10) 0) as [Ea|Ea]; destruct (Z.eq_dec (b mod 10) 0) as [Eb|Eb].
  - lia.
  - rewrite Ea, (Z.mod_small (10 - b mod 10)) by lia. change ((10 - 0) mod 10) with 0. lia.
  - rewrite Eb, (Z.mod_small (10 - a mod 10)) by lia. change ((10 - 0) mod 10) with 0. lia.
  - rewrite (Z.mod_small (10 - a mod 10)), (Z.mod_small (10 - b mod 10)) by lia. lia.
Qed.

Lemma digit_char_inj (a b : Z) :
  0 <= a <= 9 -> 0 <= b <= 9 -> digit_char a = digit_char b -> a = b.
Proof.
  intros Ha Hb H. apply (f_equal digit_value) in H.
  rewrite !digit_value_char in H by assumption. exact H.
Qed.

(** A change of one digit by [d], with a weight of 1 or 3, moves the sum
    off its residue modulo 10. *)
Lemma residue_moves (sum d w : Z) :
  -9 <= d <= 9 -> d <> 0 -> w = 1 \/ w = 3 -> (sum + d * w) mod 10 <> sum mod 10.
Proof.
  intros Hd Hnz Hw E.
  pose proof (Z.div_mod sum 10 ltac:(lia)) as Q1.
  pose proof (Z.div_mod (sum + d * w) 10 ltac:(lia)) as Q2.
  destruct Hw as [-> | ->]; lia.
Qed.

Lemma single_error_moves_check (s : list ascii) (i : Z) (c : ascii) (n : Z) :
  forallb is_digit s = true ->
  0 <= i < n -> n <= Z.of_nat (List.length s) ->
  is_digit c = true -> c <> char_at s i ->
  upc_check (set_char s i c) n <> upc_check s n
  /\ ean_check (set_char s i c) n <> ean_check s n.
Proof.
  intros Hd Hi Hn Hc Hne.
  pose proof (digits_upto_all s n Hd Hn) as Hs.
  pose proof (digits_upto_set_char s i c n Hs Hc ltac:(lia)) as Hs'.
  assert (Hdiff : -9 <= digit_value c - digit_value (char_at s i) <= 9
                  /\ digit_value c - digit_value (char_at s i) <> 0).
  { pose proof (digit_value_range c Hc).
    pose proof (digit_value_range (char_at s i) (Hs i ltac:(lia))).
    split; [lia|]. intros E. apply Hne, digit_value_inj. lia. }
  destruct Hdiff as [Hrange Hnz].
  split; intros E.
  - rewrite (upc_check_spec _ n Hs'), (upc_check_spec _ n Hs) in E.
    apply digit_char_inj in E; try apply mod10_check_range.
    apply mod10_check_inj in E.
    rewrite weighted_sum_set_char in E by lia.
    revert E. apply residue_moves; [exact Hrange|exact Hnz|].
    unfold upc_weight. destruct (Z.even i); auto.
  - rewrite (ean_check_spec _ n Hs'), (ean_check_spec _ n Hs) in E.
    apply digit_char_inj in E; try apply mod10_check_range.
    apply mod10_check_inj in E.
    rewrite weighted_sum_set_char in E by lia.
    revert E. apply residue_moves; [exact Hrange|exact Hnz|].
    unfold ean_weight. destruct (Z.even i); auto.
Qed.

(** X2.  [upc_check] and [ean_check] detect every error in one digit: two
    strings of digits that differ in one of the places that are summed have
    different check digits. *)
Theorem check_digit_detects_single_error (s : list ascii) (i : Z) (c : ascii) (n : Z) :
  forallb is_digit s = true ->
  0 <= i < n -> n <= Z.of_nat (List.length s) ->
  is_digit c = true -> c <> char_at s i ->
  upc_check (set_char s i c) n <> upc_check s n
  /\ ean_check (set_char s i c) n <> ean_check s n.
Proof.
  apply single_error_moves_check.
Qed.

Lemma check_digit_detects_single_error_witness :
  upc_check (chars "03600029175") 11 <> upc_check (chars "03600029145") 11
  /\ ean_check (chars "03600029175") 11 <> ean_check (chars "03600029145") 11.
Proof.
  exact (check_digit_detects_single_error (chars "03600029145") 9 "7" 11 eq_refl
           ltac:(lia) ltac:(simpl; lia) eq_refl ltac:(discriminate)).
Defined.

Lemma forallb_set_char (s : list ascii) (i : Z) (c : ascii) :
  forallb is_digit s = true -> is_digit c = true ->
  0 <= i < Z.of_nat (List.length s) ->
  forallb is_digit (set_char s i c) = true.
Proof.
  intros Hs Hc Hi. unfold set_char.
  destruct (Nat.ltb_spec (Z.to_nat i) (List.length s)); [|lia].
  clear Hi H. revert s Hs. generalize (Z.to_nat i) as n.
  induction n as [|n IH]; intros [|a t] Hs; cbn [firstn skipn app forallb] in *;
    rewrite ?Hc; try reflexivity.
  - apply andb_true_iff in Hs. destruct Hs as [_ Ht]. exact Ht.
  - apply andb_true_iff in Hs. destruct Hs as [Ha Ht]. rewrite Ha. apply IH, Ht.
Qed.

Lemma upc_check_reads (s s' : list ascii) (n : Z) :
  (forall k, 0 <= k < n -> char_at s k = char_at s' k) ->
  upc_check s n = upc_check s' n.
Proof.
  intros H. unfold upc_check, for_range. rewrite !for_up_add.
  rewrite (sum_from_ext _ (fun i => if negb (Z.land i 1 =? 0)
                                    then ctoi (char_at s' i)
                                    else 3 * ctoi (char_at s' i))); [reflexivity|].
  intros k Hk. rewrite H by lia. reflexivity.
Qed.

Lemma ean_check_reads (s s' : list ascii) (n : Z) :
  (forall k, 0 <= k < n -> char_at s k = char_at s' k) ->
  ean_check s n = ean_check s' n.
Proof.
  intros H. unfold ean_check, for_range. rewrite !for_up_add.
  rewrite (sum_from_ext _ (fun i => if negb (Z.land i 1 =? 0)
                                    then 3 * ctoi (char_at s' i)
                                    else ctoi (char_at s' i))); [reflexivity|].
  intros k Hk. rewrite H by lia. reflexivity.
Qed.

(** A number with its check digit, one digit changed: the digit in the
    last place no longer is the check digit of the others. *)
Lemma corrupted_check_digit (check : list ascii -> Z -> ascii) (g : list ascii)
    (i : Z) (c : ascii) (n : Z) :
  (forall s s', (forall k, 0 <= k < n -> char_at s k = char_at s' k) ->
                check s n = check s' n) ->
  (0 <= i < n -> check (set_char g i c) n <> check g n) ->
  Z.of_nat (List.length g) = n + 1 -> 0 <= n ->
  0 <= i <= n -> c <> char_at g i ->
  char_at g n = check g n ->
  char_at (set_char g i c) n <> check (set_char g i c) n.
Proof.
  intros Hreads Hmoves Hlen Hn Hi Hne Hvalid.
  rewrite char_at_set_char by lia.
  destruct (Z.eqb_spec n i) as [<-|Hin].
  - rewrite (Hreads (set_char g n c) g).
    + congruence.
    + intros k Hk. rewrite char_at_set_char by lia.
      destruct (Z.eqb_spec k n); [lia|reflexivity].
  - rewrite Hvalid. intros E. apply Hmoves; [lia|]. symmetry. exact E.
Qed.

(** X3.  Once a number carries its right check digit, [upca], [ean13] and
    [ean8] refuse every number that differs from it in one digit, the check
    digit included. *)
Theorem encoders_reject_single_error (symbol : zint_symbol) (g dest : list ascii)
    (i : Z) (c : ascii) :
  forallb is_digit g = true -> is_digit c = true ->
  0 <= i < Z.of_nat (List.length g) -> c <> char_at g i ->
  (List.length g = 12%nat -> char_at g 11 = upc_check g 11 ->
   upca symbol (set_char g i c) 12 dest
   = (ZINT_ERROR_INVALID_CHECK, set_errtxt symbol "270: Invalid check digit", dest))
  /\ (List.length g = 13%nat -> char_at g 12 = ean_check g 12 ->
      ean13 symbol (set_char g i c) 13 dest
      = (ZINT_ERROR_INVALID_CHECK, set_errtxt symbol "275: Invalid check digit", dest))
  /\ (List.length g = 8%nat -> char_at g 7 = upc_check g 7 ->
      ean8 symbol (set_char g i c) 8 dest
      = (ZINT_ERROR_INVALID_CHECK, set_errtxt symbol "276: Invalid check digit", dest)).
Proof.
  intros Hd Hc Hi Hne.
  pose proof (forallb_set_char g i c Hd Hc Hi) as Hd'.
  split; [|split]; intros Hlen Hvalid.
  - apply upca_mismatch; [exact Hd'|].
    apply (corrupted_check_digit upc_check g i c 11 (fun s s' => upc_check_reads s s' 11));
      try lia; try assumption.
    intros Hi'. apply single_error_moves_check; try assumption; lia.
  - apply ean13_mismatch; [exact Hd'|].
    apply (corrupted_check_digit ean_check g i c 12 (fun s s' => ean_check_reads s s' 12));
      try lia; try assumption.
    intros Hi'. apply single_error_moves_check; try assumption; lia.
  - apply ean8_mismatch; [exact Hd'|].
    apply (corrupted_check_digit upc_check g i c 7 (fun s s' => upc_check_reads s s' 7));
      try lia; try assumption.
    intros Hi'. apply single_error_moves_check; try assumption; lia.
Qed.

Lemma encoders_reject_single_error_witness :
  upca (new_symbol BARCODE_UPCA) (chars "036000291752") 12 []
  = (ZINT_ERROR_INVALID_CHECK,
     set_errtxt (new_symbol BARCODE_UPCA) "270: Invalid check digit", []).
Proof.
  exact (proj1 (encoders_reject_single_error (new_symbol BARCODE_UPCA)
                  (chars "036000291452") [] 9 "7" eq_refl eq_refl ltac:(simpl; lia)
                  ltac:(discriminate))
               eq_refl eq_refl).
Defined.

(** ** The check character of ISBN-10 *)

Lemma isbn_check_mod11 (source : list ascii) :
  digits_upto source 9 ->
  isbn_check source 9
  = (if isbn_sum source mod 11 =? 10 then "X"%char
     else digit_char (isbn_sum source mod 11))
  /\ 0 <= isbn_sum source mod 11 <= 10.
Proof.
  intros Hd.
  assert (Hsum : sum_from 9 0 (fun k => ctoi (char_at source k) * (1 + (k - 0)))
                 = isbn_sum source).
  { apply sum_from_ext. intros k Hk. rewrite ctoi_digit by (apply Hd; lia).
    f_equal. lia. }
  assert (Hpos : 0 <= isbn_sum source).
  { apply sum_from_nonneg. intros k Hk.
    assert (0 <= digit_value (char_at source k) <= 9) by (apply digit_value_range, Hd; lia).
    nia. }
  pose proof (Z.mod_pos_bound (isbn_sum source) 11 ltac:(lia)) as Hr.
  split; [|lia].
  unfold isbn_check, for_range. change (Z.to_nat (9 - 0)) with 9%nat.
  rewrite (for_up_weighted (fun i => ctoi (char_at source i))).
  rewrite Hsum, Z.add_0_l, Z.rem_mod_nonneg by lia.
  destruct (Z.eqb_spec (isbn_sum source mod 11) 10) as [E|E]; [reflexivity|].
  apply itoc_digit. lia.
Qed.

Lemma isbn_sum_weighted (s : list ascii) :
  isbn_sum s = weighted_sum (fun i => i + 1) s 9.
Proof.
  reflexivity.
Qed.

Lemma isbn_check_inj (s s' : list ascii) :
  digits_upto s 9 -> digits_upto s' 9 ->
  isbn_check s 9 = isbn_check s' 9 -> isbn_sum s mod 11 = isbn_sum s' mod 11.
Proof.
  intros Hs Hs' E.
  destruct (isbn_check_mod11 s Hs) as [E1 R1].
  destruct (isbn_check_mod11 s' Hs') as [E2 R2].
  rewrite E1, E2 in E. clear E1 E2.
  destruct (Z.eqb_spec (isbn_sum s mod 11) 10) as [A|A];
    destruct (Z.eqb_spec (isbn_sum s' mod 11) 10) as [B|B].
  - congruence.
  - exfalso. assert (D : is_digit "X" = true)
      by (rewrite E; apply is_digit_digit_char; lia).
    discriminate D.
  - exfalso. assert (D : is_digit "X" = true)
      by (rewrite <- E; apply is_digit_digit_char; lia).
    discriminate D.
  - apply digit_char_inj in E; lia.
Qed.

Lemma residue_moves_11 (sum d w : Z) :
  -9 <= d <= 9 -> d <> 0 -> 1 <= w <= 9 -> (sum + d * w) mod 11 <> sum mod 11.
Proof.
  intros Hd Hnz Hw E.
  pose proof (Z.div_mod sum 11 ltac:(lia)) as Q1.
  pose proof (Z.div_mod (sum + d * w) 11 ltac:(lia)) as Q2.
  assert (W : w = 1 \/ w = 2 \/ w = 3 \/ w = 4 \/ w = 5 \/ w = 6 \/ w = 7 \/ w = 8 \/ w = 9)
    by lia.
  destruct W as [->|[->|[->|[->|[->|[->|[->|[->| ->]]]]]]]]; lia.
Qed.

(** X4.  The check character of ISBN-10 and SBN detects every error in one
    digit and every exchange of two neighbouring digits that differ. *)
Theorem isbn_check_detects_errors (s : list ascii) (i : Z) :
  forallb is_digit s = true -> (9 <= List.length s)%nat ->
  (forall c, 0 <= i < 9 -> is_digit c = true -> c <> char_at s i ->
             isbn_check (set_char s i c) 9 <> isbn_check s 9)
  /\ (0 <= i < 8 -> char_at s i <> char_at s (i + 1) ->
      isbn_check (set_char (set_char s i (char_at s (i + 1))) (i + 1) (char_at s i)) 9
      <> isbn_check s 9).
Proof.
  intros Hd Hlen.
  pose proof (digits_upto_all s 9 Hd ltac:(lia)) as Hs.
  assert (Hvalue : forall k, 0 <= k < 9 -> 0 <= digit_value (char_at s k) <= 9)
    by (intros k Hk; apply digit_value_range, Hs, Hk).
  split.
  - intros c Hi Hc Hne E.
    pose proof (digits_upto_set_char s i c 9 Hs Hc ltac:(lia)) as Hs'.
    apply isbn_check_inj in E; try assumption.
    rewrite !isbn_sum_weighted, weighted_sum_set_char in E by lia.
    revert E. pose proof (digit_value_range c Hc). pose proof (Hvalue i Hi).
    apply residue_moves_11; [lia| |lia].
    intros E. apply Hne, digit_value_inj. lia.
  - intros Hi Hne E.
    set (a := char_at s i) in *. set (b := char_at s (i + 1)) in *.
    assert (Ha : is_digit a = true) by (apply Hs; lia).
    assert (Hb : is_digit b = true) by (apply Hs; lia).
    pose proof (digits_upto_set_char s i b 9 Hs Hb ltac:(lia)) as Hs1.
    assert (Hlen1 : List.length (set_char s i b) = List.length s).
    { unfold set_char. destruct (Nat.ltb_spec (Z.to_nat i) (List.length s)); [|lia].
      rewrite length_app, length_firstn. cbn [List.length]. rewrite length_skipn. lia. }
    pose proof (digits_upto_set_char _ (i + 1) a 9 Hs1 Ha ltac:(lia)) as Hs2.
    apply isbn_check_inj in E; try assumption.
    rewrite !isbn_sum_weighted in E.
    rewrite weighted_sum_set_char in E by lia.
    rewrite weighted_sum_set_char in E by lia.
    rewrite char_at_set_char in E by lia.
    destruct (Z.eqb_spec (i + 1) i); [lia|]. fold a b in E.
    pose proof (digit_value_range a Ha). pose proof (digit_value_range b Hb).
    replace (weighted_sum (fun i0 => i0 + 1) s 9
             + (digit_value b - digit_value a) * (i + 1)
             + (digit_value a - digit_value b) * (i + 1 + 1))
      with (weighted_sum (fun i0 => i0 + 1) s 9 + (digit_value a - digit_value b) * 1)
      in E by lia.
    revert E. apply residue_moves_11; [lia| |lia].
    intros E. apply Hne, digit_value_inj. lia.
Qed.

Lemma isbn_check_detects_errors_witness :
  isbn_check (chars "019591109") 9 <> isbn_check (chars "019501109") 9
  /\ isbn_check (chars "091501109") 9 <> isbn_check (chars "019501109") 9.
Proof.
  split.
  - exact (proj1 (isbn_check_detects_errors (chars "019501109") 4 eq_refl
                    ltac:(simpl; lia))
                 "9"%char ltac:(lia) eq_refl ltac:(discriminate)).
  - exact (proj2 (isbn_check_detects_errors (chars "019501109") 1 eq_refl
                    ltac:(simpl; lia))
                 ltac:(lia) ltac:(discriminate)).
Defined.

(** ** UPC-A inside EAN-13 *)

Lemma sum_from_shift (f : Z -> Z) (n : nat) :
  forall i, sum_from n (i + 1) f = sum_from n i (fun k => f (k + 1)).
Proof.
  induction n as [|n IH]; intros i; [reflexivity|].
  cbn [sum_from]. rewrite IH. reflexivity.
Qed.

Lemma ean_weight_succ (k : Z) : ean_weight (k + 1) = upc_weight k.
Proof.
  unfold ean_weight, upc_weight. rewrite Z.even_add. cbn [Z.even].
  destruct (Z.even k); reflexivity.
Qed.

Lemma ean_check_zero (s : list ascii) (n : Z) :
  forallb is_digit s = true -> 0 <= n <= Z.of_nat (List.length s) ->
  ean_check ("0"%char :: s) (n + 1) = upc_check s n.
Proof.
  intros Hd Hn.
  assert (Hs : digits_upto s n) by (apply digits_upto_all; [exact Hd|lia]).
  assert (H0 : digits_upto ("0"%char :: s) (n + 1)).
  { apply digits_upto_all; [cbn [forallb]; rewrite Hd; reflexivity|].
    cbn [List.length]. lia. }
  rewrite (ean_check_spec _ _ H0), (upc_check_spec _ _ Hs). f_equal. f_equal.
  unfold weighted_sum.
  replace (Z.to_nat (n + 1)) with (S (Z.to_nat n)) by lia.
  cbn [sum_from]. change (digit_value (char_at ("0"%char :: s) 0)) with 0.
  rewrite Z.mul_0_l, Z.add_0_l, (sum_from_shift _ _ 0).
  apply sum_from_ext. intros k Hk. rewrite ean_weight_succ. f_equal. f_equal.
  unfold char_at. destruct (Z.ltb_spec (k + 1) 0); [lia|].
  destruct (Z.ltb_spec k 0); [lia|].
  replace (Z.to_nat (k + 1)) with (S (Z.to_nat k)) by lia. reflexivity.
Qed.

(** X5.  A number of the UPC kind with a zero put in front is a number of
    the EAN kind with the same check digit. *)
Theorem ean_check_of_upc (s : list ascii) (n : Z) :
  forallb is_digit s = true -> 0 <= n <= Z.of_nat (List.length s) ->
  ean_check ("0"%char :: s) (n + 1) = upc_check s n.
Proof.
  apply ean_check_zero.
Qed.

Lemma ean_check_of_upc_witness :
  ean_check (chars "003600029145") 12 = upc_check (chars "03600029145") 11.
Proof.
  exact (ean_check_of_upc (chars "03600029145") 11 eq_refl ltac:(simpl; lia)).
Defined.

(** ** The patterns in closed form *)

Lemma lookup_digit (table : list (list ascii)) (c : ascii) (dest : list ascii) :
  is_digit c = true ->
  lookup NEON table c dest = cstring dest ++ digit_bars table c.
Proof.
  intros H. apply digit_cases in H. unfold digit_bars.
  cbn [chars list_ascii_of_string In] in H.
  repeat (destruct H as [<-|H];
          [unfold lookup, for_range;
           change (Z.to_nat (ustrlen NEON - 0)) with 10%nat;
           cbn [for_up char_at NEON chars list_ascii_of_string Z.add Z.ltb Z.compare
                Z.to_nat Pos.to_nat Pos.iter_op Nat.add nth Pos.add Pos.succ
                Ascii.eqb Bool.eqb andb];
           reflexivity|]).
  contradiction.
Qed.

Lemma cstring_digit_bars (table : list (list ascii)) (c : ascii) :
  cstring (digit_bars table c) = digit_bars table c.
Proof.
  apply cstring_idem.
Qed.

Lemma cstring_app_bars (x : list ascii) (table : list (list ascii)) (c : ascii) :
  cstring (cstring x ++ digit_bars table c) = cstring x ++ digit_bars table c.
Proof.
  unfold digit_bars. apply cstring_app.
Qed.

Lemma cstring_append (x y : list ascii) :
  cstring x = x -> cstring y = y -> cstring (x ++ y) = x ++ y.
Proof.
  intros Hx Hy. rewrite <- Hx, <- Hy. apply cstring_app.
Qed.

Lemma cstring_bars_from (glyph : Z -> ascii -> list ascii) (s : list ascii) :
  (forall i c, cstring (glyph i c) = glyph i c) ->
  forall i, cstring (bars_from glyph i s) = bars_from glyph i s.
Proof.
  intros Hg. induction s as [|c r IH]; intros i; [reflexivity|].
  cbn [bars_from]. apply cstring_append; [apply Hg|apply IH].
Qed.

(** A loop that appends to [dest] what [glyph] gives for each character *)
Lemma bars_loop (glyph : Z -> ascii -> list ascii) (body : Z -> list ascii -> list ascii)
    (s : list ascii) :
  (forall i c, cstring (glyph i c) = glyph i c) ->
  forall pre post dest,
    cstring dest = dest ->
    (forall k dest,
        Z.of_nat (List.length pre) <= k < Z.of_nat (List.length pre + List.length s) ->
        cstring dest = dest ->
        body k dest = dest ++ glyph k (char_at (pre ++ s ++ post) k)) ->
    for_up (List.length s) (Z.of_nat (List.length pre)) body dest
    = dest ++ bars_from glyph (Z.of_nat (List.length pre)) s.
Proof.
  intros Hg. induction s as [|c r IH]; intros pre post dest Hd Hb.
  - cbn [List.length for_up bars_from]. rewrite app_nil_r. reflexivity.
  - cbn [List.length for_up bars_from].
    rewrite Hb by (try exact Hd; cbn [List.length]; lia).
    change ((c :: r) ++ post) with (c :: r ++ post). rewrite char_at_app_end.
    replace (Z.of_nat (List.length pre) + 1) with (Z.of_nat (List.length (pre ++ [c])))
      by (rewrite length_app; cbn [List.length]; lia).
    rewrite (IH (pre ++ [c]) post).
    + rewrite <- app_assoc. reflexivity.
    + apply cstring_append; [exact Hd|apply Hg].
    + intros k dest' Hk Hd'. rewrite <- app_assoc. apply Hb; [|exact Hd'].
      rewrite length_app in Hk. cbn [List.length] in *. lia.
Qed.

Lemma bars_range (glyph : Z -> ascii -> list ascii) (body : Z -> list ascii -> list ascii)
    (s post dest : list ascii) :
  (forall i c, cstring (glyph i c) = glyph i c) ->
  cstring dest = dest ->
  (forall k dest, 0 <= k < Z.of_nat (List.length s) -> cstring dest = dest ->
                  body k dest = dest ++ glyph k (char_at (s ++ post) k)) ->
  for_range 0 (Z.of_nat (List.length s)) body dest = dest ++ bars_from glyph 0 s.
Proof.
  intros Hg Hd Hb. unfold for_range. rewrite Z.sub_0_r, Nat2Z.id.
  apply (bars_loop glyph body s Hg [] post dest Hd). exact Hb.
Qed.

Lemma cstring_centre_guard (half_way i : Z) :
  cstring (centre_guard half_way i) = centre_guard half_way i.
Proof.
  unfold centre_guard. destruct (i =? half_way); reflexivity.
Qed.

Lemma cstring_upca_glyph (half_way i : Z) (c : ascii) :
  cstring (upca_glyph half_way i c) = upca_glyph half_way i c.
Proof.
  apply cstring_append; [apply cstring_centre_guard|apply cstring_digit_bars].
Qed.

Lemma cstring_ean13_glyph (parity : list ascii) (i : Z) (c : ascii) :
  cstring (ean13_glyph parity i c) = ean13_glyph parity i c.
Proof.
  apply cstring_append; [apply cstring_centre_guard|].
  destruct (((i >? 1) && (i <? 7)) && Ascii.eqb (char_at parity (i - 2)) "B");
    apply cstring_digit_bars.
Qed.

Lemma cstring_parity_glyph (parity : list ascii) (i : Z) (c : ascii) :
  cstring (parity_glyph parity i c) = parity_glyph parity i c.
Proof.
  unfold parity_glyph. destruct (Ascii.eqb (char_at parity i) "A");
    [apply cstring_digit_bars|].
  destruct (Ascii.eqb (char_at parity i) "B"); [apply cstring_digit_bars|reflexivity].
Qed.

Lemma cstring_add_on_glyph (parity : list ascii) (length i : Z) (c : ascii) :
  cstring (add_on_glyph parity length i c) = add_on_glyph parity length i c.
Proof.
  apply cstring_append; [apply cstring_parity_glyph|].
  destruct (negb (i =? length - 1)); reflexivity.
Qed.

Lemma ustrcat_guard (dest : list ascii) (half_way i : Z) :
  cstring (if i =? half_way then ustrcat dest (chars "11111") else dest)
  = cstring dest ++ centre_guard half_way i.
Proof.
  unfold centre_guard. destruct (i =? half_way).
  - unfold ustrcat. apply cstring_app.
  - rewrite app_nil_r. reflexivity.
Qed.

Lemma digit_at (s post : list ascii) (k : Z) :
  forallb is_digit s = true -> 0 <= k < Z.of_nat (List.length s) ->
  is_digit (char_at (s ++ post) k) = true.
Proof.
  intros Hs Hk. rewrite char_at_app_left by exact Hk.
  apply (digits_upto_all s (Z.of_nat (List.length s)) Hs); lia.
Qed.

(** The pattern of [upca_draw]: start, the digits with the centre guard
    before the one half way, stop. *)
Lemma upca_draw_bars (s post dest : list ascii) :
  forallb is_digit s = true ->
  upca_draw (s ++ post) (Z.of_nat (List.length s)) dest
  = cstring dest ++ chars "111"
    ++ bars_from (upca_glyph (Z.quot (Z.of_nat (List.length s)) 2)) 0 s ++ chars "111".
Proof.
  intros Hs. unfold upca_draw.
  rewrite (bars_range (upca_glyph (Z.quot (Z.of_nat (List.length s)) 2)) _ s post).
  - unfold ustrcat. rewrite cstring_append.
    + change (cstring (chars "111")) with (chars "111").
      rewrite <- !app_assoc. reflexivity.
    + apply cstring_app.
    + apply cstring_bars_from, cstring_upca_glyph.
  - apply cstring_upca_glyph.
  - apply cstring_app.
  - intros k d Hk Hd. cbv beta zeta.
    rewrite lookup_digit by (apply digit_at; assumption).
    rewrite ustrcat_guard, Hd. unfold upca_glyph. rewrite <- app_assoc. reflexivity.
Qed.

Lemma cstring_prefix (s : list ascii) : exists post, s = cstring s ++ post.
Proof.
  induction s as [|c r [post IH]]; [exists []; reflexivity|].
  cbn [cstring]. destruct (Ascii.eqb c NUL).
  - exists (c :: r). reflexivity.
  - exists post. cbn [app]. rewrite <- IH. reflexivity.
Qed.

Lemma char_at_cstring (source : list ascii) (k : Z) :
  0 <= k < Z.of_nat (List.length (cstring source)) ->
  char_at source k = char_at (cstring source) k.
Proof.
  intros Hk. destruct (cstring_prefix source) as [post E].
  rewrite E at 1. apply char_at_app_left, Hk.
Qed.

Lemma lookup_sodium_digit (table : list (list ascii)) (c : ascii) (dest : list ascii) :
  is_digit c = true ->
  lookup SODIUM table c dest = cstring dest ++ digit_bars table c.
Proof.
  intros H. apply digit_cases in H. unfold digit_bars.
  cbn [chars list_ascii_of_string In] in H.
  repeat (destruct H as [<-|H];
          [unfold lookup, for_range;
           change (Z.to_nat (ustrlen SODIUM - 0)) with 11%nat;
           cbn [for_up char_at SODIUM chars list_ascii_of_string Z.add Z.ltb Z.compare
                Z.to_nat Pos.to_nat Pos.iter_op Nat.add nth Pos.add Pos.succ
                Ascii.eqb Bool.eqb andb];
           reflexivity|]).
  contradiction.
Qed.

(** [s[n] = c; s[n + 1] = '\0'] on a string of [n] digits *)
Lemma append_check (s : list ascii) (n : Z) (c : ascii) :
  n = Z.of_nat (List.length s) ->
  set_char (set_char s n c) (n + 1) NUL = (s ++ [c]) ++ [NUL].
Proof.
  intros ->. rewrite set_char_append.
  replace (Z.of_nat (List.length s) + 1) with (Z.of_nat (List.length (s ++ [c])))
    by (rewrite length_app; cbn [List.length]; lia).
  apply set_char_append.
Qed.

Lemma forallb_digit_app (s t : list ascii) :
  forallb is_digit s = true -> forallb is_digit t = true ->
  forallb is_digit (s ++ t) = true.
Proof.
  intros Hs Ht. rewrite forallb_app, Hs, Ht. reflexivity.
Qed.

Lemma forallb_digit_snoc (s : list ascii) (c : ascii) :
  forallb is_digit s = true -> is_digit c = true -> forallb is_digit (s ++ [c]) = true.
Proof.
  intros Hs Hc. apply forallb_digit_app; [exact Hs|]. cbn [forallb]. rewrite Hc. reflexivity.
Qed.

Lemma upc_check_digit (s : list ascii) (n : Z) :
  forallb is_digit s = true -> n <= Z.of_nat (List.length s) ->
  is_digit (upc_check s n) = true.
Proof.
  intros Hs Hn. apply upc_check_is_digit, digits_upto_all; assumption.
Qed.

Lemma ean_check_digit (s : list ascii) (n : Z) :
  forallb is_digit s = true -> n <= Z.of_nat (List.length s) ->
  is_digit (ean_check s n) = true.
Proof.
  intros Hs Hn. apply ean_check_is_digit, digits_upto_all; assumption.
Qed.

(** [upca] and [ean8] on a number without its check digit *)
Lemma upca_bars (symbol : zint_symbol) (source s dest : list ascii) :
  cstring source = s -> forallb is_digit s = true -> List.length s = 11%nat ->
  upca symbol source 11 dest
  = (0, set_text symbol (s ++ [upc_check s 11]),
     upca_pattern dest (s ++ [upc_check s 11])).
Proof.
  intros E Hs Hl. unfold upca, ustrcpy. rewrite E. cbn [Z.eqb Pos.eqb].
  rewrite (append_check s 11) by lia.
  assert (Hc : forallb is_digit (s ++ [upc_check s 11]) = true)
    by (apply forallb_digit_snoc, upc_check_digit; [exact Hs|exact Hs|lia]).
  rewrite (cstring_digits_nul _ [] Hc).
  replace 12 with (Z.of_nat (List.length (s ++ [upc_check s 11])))
    by (rewrite length_app, Hl; reflexivity).
  rewrite (upca_draw_bars _ _ _ Hc). reflexivity.
Qed.

Lemma ean8_bars (symbol : zint_symbol) (source s dest : list ascii) :
  cstring source = s -> forallb is_digit s = true -> List.length s = 7%nat ->
  ean8 symbol source 7 dest
  = (0, set_text symbol (s ++ [upc_check s 7]),
     upca_pattern dest (s ++ [upc_check s 7])).
Proof.
  intros E Hs Hl. unfold ean8, ustrcpy. rewrite E. cbn [Z.eqb Pos.eqb].
  rewrite (append_check s 7) by lia.
  assert (Hc : forallb is_digit (s ++ [upc_check s 7]) = true)
    by (apply forallb_digit_snoc, upc_check_digit; [exact Hs|exact Hs|lia]).
  rewrite (cstring_digits_nul _ [] Hc).
  replace 8 with (Z.of_nat (List.length (s ++ [upc_check s 7])))
    by (rewrite length_app, Hl; reflexivity).
  rewrite (upca_draw_bars _ _ _ Hc). reflexivity.
Qed.

Lemma check_reads_snoc (check : list ascii -> Z -> ascii) (s : list ascii) (c : ascii)
    (n : Z) :
  (forall s s', (forall k, 0 <= k < n -> char_at s k = char_at s' k) ->
                check s n = check s' n) ->
  n <= Z.of_nat (List.length s) ->
  check (s ++ [c]) n = check s n.
Proof.
  intros Hr Hn. apply Hr. intros k Hk. apply char_at_app_left. lia.
Qed.

(** [upca] and [ean8] on a number with its check digit *)
Lemma upca_bars_chk (symbol : zint_symbol) (source s dest : list ascii) :
  cstring source = s ++ [upc_check s 11] ->
  forallb is_digit s = true -> List.length s = 11%nat ->
  upca symbol source 12 dest
  = (0, set_text symbol (s ++ [upc_check s 11]),
     upca_pattern dest (s ++ [upc_check s 11])).
Proof.
  intros E Hs Hl. unfold upca, ustrcpy. rewrite E. cbn [Z.eqb Pos.eqb].
  assert (Hc : forallb is_digit (s ++ [upc_check s 11]) = true)
    by (apply forallb_digit_snoc, upc_check_digit; [exact Hs|exact Hs|lia]).
  rewrite char_at_cstring by (rewrite E, length_app, Hl; cbn; lia).
  rewrite E, (check_reads_snoc upc_check s _ 11 (fun a b => upc_check_reads a b 11))
    by lia.
  change (12 - 1) with (Z.of_nat 11). rewrite <- Hl, char_at_app_end, Ascii.eqb_refl.
  cbn [negb]. rewrite (cstring_digits _ Hc).
  replace 12 with (Z.of_nat (List.length (s ++ [upc_check s 11])))
    by (rewrite length_app, Hl; reflexivity).
  pose proof (upca_draw_bars _ [] dest Hc) as H. rewrite app_nil_r in H.
  rewrite H. reflexivity.
Qed.

Lemma ean8_bars_chk (symbol : zint_symbol) (source s dest : list ascii) :
  cstring source = s ++ [upc_check s 7] ->
  forallb is_digit s = true -> List.length s = 7%nat ->
  ean8 symbol source 8 dest
  = (0, set_text symbol (s ++ [upc_check s 7]),
     upca_pattern dest (s ++ [upc_check s 7])).
Proof.
  intros E Hs Hl. unfold ean8, ustrcpy. rewrite E. cbn [Z.eqb Pos.eqb].
  assert (Hc : forallb is_digit (s ++ [upc_check s 7]) = true)
    by (apply forallb_digit_snoc, upc_check_digit; [exact Hs|exact Hs|lia]).
  rewrite char_at_cstring by (rewrite E, length_app, Hl; cbn; lia).
  rewrite E, (check_reads_snoc upc_check s _ 7 (fun a b => upc_check_reads a b 7))
    by lia.
  change (8 - 1) with (Z.of_nat 7). rewrite <- Hl, char_at_app_end, Ascii.eqb_refl.
  cbn [negb]. rewrite (cstring_digits _ Hc).
  replace 8 with (Z.of_nat (List.length (s ++ [upc_check s 7])))
    by (rewrite length_app, Hl; reflexivity).
  pose proof (upca_draw_bars _ [] dest Hc) as H. rewrite app_nil_r in H.
  rewrite H. reflexivity.
Qed.

Lemma ean13_loop (c0 : ascii) (r post parity dest : list ascii) (n : Z) :
  forallb is_digit r = true -> cstring dest = dest ->
  n = Z.of_nat (List.length (c0 :: r)) ->
  for_range 1 n
    (fun i dest =>
       let dest := if i =? 7 then ustrcat dest (chars "11111") else dest in
       if ((i >? 1) && (i <? 7)) && Ascii.eqb (char_at parity (i - 2)) "B"
       then lookup NEON EANsetB (char_at ((c0 :: r) ++ post) i) dest
       else lookup NEON EANsetA (char_at ((c0 :: r) ++ post) i) dest)
    dest
  = dest ++ bars_from (ean13_glyph parity) 1 r.
Proof.
  intros Hr Hd ->. unfold for_range.
  replace (Z.to_nat (Z.of_nat (List.length (c0 :: r)) - 1)) with (List.length r)
    by (cbn [List.length]; lia).
  apply (bars_loop (ean13_glyph parity) _ r (cstring_ean13_glyph parity) [c0] post dest Hd).
  intros k d Hk Hd'. cbn [List.length] in Hk. cbv beta zeta.
  assert (Hc : is_digit (char_at ([c0] ++ r ++ post) k) = true).
  { change ([c0] ++ r ++ post) with (c0 :: (r ++ post)).
    replace k with ((k - 1) + 1) by lia. unfold char_at.
    destruct (Z.ltb_spec (k - 1 + 1) 0); [lia|].
    replace (Z.to_nat (k - 1 + 1)) with (S (Z.to_nat (k - 1))) by lia. cbn [nth].
    pose proof (digit_at r post (k - 1) Hr ltac:(lia)) as H1. unfold char_at in H1.
    destruct (Z.ltb_spec (k - 1) 0); [lia|]. exact H1. }
  change ((c0 :: r) ++ post) with ([c0] ++ r ++ post).
  unfold ean13_glyph.
  destruct (((k >? 1) && (k <? 7)) && Ascii.eqb (char_at parity (k - 2)) "B");
    rewrite lookup_digit by exact Hc; rewrite ustrcat_guard, Hd', <- app_assoc;
    reflexivity.
Qed.

Lemma ean13_finish (symbol : zint_symbol) (c0 : ascii) (r post dest : list ascii) (n : Z) :
  forallb is_digit (c0 :: r) = true -> n = Z.of_nat (List.length (c0 :: r)) ->
  cstring ((c0 :: r) ++ post) = c0 :: r ->
  (let parity := lookup SODIUM EAN13Parity (char_at ((c0 :: r) ++ post) 0)
                        (set_char [] 0 NUL) in
   let dest := ustrcat dest (chars "111") in
   let dest :=
     for_range 1 n
       (fun i dest =>
          let dest := if i =? 7 then ustrcat dest (chars "11111") else dest in
          if ((i >? 1) && (i <? 7)) && Ascii.eqb (char_at parity (i - 2)) "B"
          then lookup NEON EANsetB (char_at ((c0 :: r) ++ post) i) dest
          else lookup NEON EANsetA (char_at ((c0 :: r) ++ post) i) dest)
       dest in
   let dest := ustrcat dest (chars "111") in
   (0, set_text symbol (ustrcpy ((c0 :: r) ++ post)), dest))
  = (0, set_text symbol (c0 :: r), ean13_pattern dest (c0 :: r)).
Proof.
  intros Hs Hn Hc. cbv zeta. unfold ustrcpy. rewrite Hc.
  cbn [forallb] in Hs. apply andb_true_iff in Hs. destruct Hs as [H0 Hr].
  change (char_at ((c0 :: r) ++ post) 0) with c0.
  rewrite (lookup_sodium_digit EAN13Parity c0 _ H0).
  change (cstring (set_char [] 0 NUL)) with (@nil ascii). cbn [app].
  pose proof (ean13_loop c0 r post (digit_bars EAN13Parity c0)
                        (ustrcat dest (chars "111")) n Hr (cstring_app _ _) Hn) as HL.
  cbv zeta in HL. change ((c0 :: r) ++ post) with (c0 :: r ++ post) in HL. rewrite HL.
  unfold ean13_pattern, ustrcat. rewrite cstring_append.
  - change (cstring (chars "111")) with (chars "111").
    change (char_at (c0 :: r) 0) with c0. cbn [tl].
    rewrite <- !app_assoc. reflexivity.
  - apply cstring_app.
  - apply cstring_bars_from, cstring_ean13_glyph.
Qed.

(** [ean13] on a number without its check digit, and with it *)
Lemma ean13_bars (symbol : zint_symbol) (source s dest : list ascii) :
  cstring source = s -> forallb is_digit s = true -> List.length s = 12%nat ->
  ean13 symbol source 12 dest
  = (0, set_text symbol (s ++ [ean_check s 12]),
     ean13_pattern dest (s ++ [ean_check s 12])).
Proof.
  intros E Hs Hl. assert (E' : ustrcpy source = s) by exact E.
  unfold ean13. rewrite E'. cbn [Z.eqb Pos.eqb].
  rewrite (append_check s 12) by lia.
  assert (Hc : forallb is_digit (s ++ [ean_check s 12]) = true)
    by (apply forallb_digit_snoc, ean_check_digit; [exact Hs|exact Hs|lia]).
  destruct s as [|c0 r]; [discriminate Hl|].
  assert (Hn : 13 = Z.of_nat (List.length (c0 :: r ++ [ean_check (c0 :: r) 12]))).
  { cbn [List.length] in *. rewrite length_app. cbn [List.length]. lia. }
  exact (ean13_finish symbol c0 (r ++ [ean_check (c0 :: r) 12]) [NUL] dest 13 Hc Hn
                      (cstring_digits_nul _ [] Hc)).
Qed.

Lemma ean13_bars_chk (symbol : zint_symbol) (source s dest : list ascii) :
  cstring source = s ++ [ean_check s 12] ->
  forallb is_digit s = true -> List.length s = 12%nat ->
  ean13 symbol source 13 dest
  = (0, set_text symbol (s ++ [ean_check s 12]),
     ean13_pattern dest (s ++ [ean_check s 12])).
Proof.
  intros E Hs Hl. assert (E' : ustrcpy source = s ++ [ean_check s 12]) by exact E.
  unfold ean13. rewrite E'. cbn [Z.eqb Pos.eqb].
  assert (Hc : forallb is_digit (s ++ [ean_check s 12]) = true)
    by (apply forallb_digit_snoc, ean_check_digit; [exact Hs|exact Hs|lia]).
  rewrite char_at_cstring by (rewrite E, length_app, Hl; cbn; lia).
  rewrite E, (check_reads_snoc ean_check s _ 12 (fun a b => ean_check_reads a b 12))
    by lia.
  change (13 - 1) with (Z.of_nat 12). rewrite <- Hl at 1.
  rewrite char_at_app_end, Ascii.eqb_refl.
  cbn [negb].
  destruct s as [|c0 r]; [discriminate Hl|].
  assert (Hn : 13 = Z.of_nat (List.length (c0 :: r ++ [ean_check (c0 :: r) 12]))).
  { cbn [List.length] in *. rewrite length_app. cbn [List.length]. lia. }
  pose proof (ean13_finish symbol c0 (r ++ [ean_check (c0 :: r) 12]) [] dest 13 Hc Hn) as H.
  rewrite app_nil_r in H. exact (H (cstring_digits _ Hc)).
Qed.

Lemma no_set_B (i : Z) :
  ((i >? 1) && (i <? 7)) && Ascii.eqb (char_at (chars "AAAAA") (i - 2)) "B" = false.
Proof.
  destruct (Z.gtb_spec i 1); [|reflexivity].
  destruct (Z.ltb_spec i 7); [|reflexivity].
  assert (Hi : i = 2 \/ i = 3 \/ i = 4 \/ i = 5 \/ i = 6) by lia.
  destruct Hi as [-> | [-> | [-> | [-> | ->]]]]; reflexivity.
Qed.

Lemma ean13_bars_A (s : list ascii) :
  forall i, bars_from (ean13_glyph (chars "AAAAA")) (i + 1) s
            = bars_from (upca_glyph 6) i s.
Proof.
  induction s as [|c r IH]; intros i; [reflexivity|].
  cbn [bars_from]. rewrite IH. f_equal.
  unfold ean13_glyph, upca_glyph. rewrite no_set_B. f_equal.
  unfold centre_guard. destruct (Z.eqb_spec (i + 1) 7); destruct (Z.eqb_spec i 6);
    try reflexivity; lia.
Qed.

(** X6.  An EAN-13 symbol of a number that starts with 0 is the UPC-A symbol
    of the other digits: the same check digit, the same bars, and the text
    of the UPC-A symbol after the 0. *)
Theorem ean13_of_upca (symbol : zint_symbol) (s dest : list ascii) :
  forallb is_digit s = true -> List.length s = 11%nat ->
  upca symbol s 11 dest
  = (0, set_text symbol (s ++ [upc_check s 11]), snd (upca symbol s 11 dest))
  /\ ean13 symbol ("0"%char :: s) 12 dest
     = (0, set_text symbol ("0"%char :: s ++ [upc_check s 11]),
        snd (upca symbol s 11 dest)).
Proof.
  intros Hs Hl.
  rewrite (upca_bars symbol s s dest (cstring_digits s Hs) Hs Hl). cbn [snd].
  split; [reflexivity|].
  assert (H0 : forallb is_digit ("0"%char :: s) = true) by (cbn [forallb]; exact Hs).
  rewrite (ean13_bars symbol _ _ dest (cstring_digits _ H0) H0)
    by (cbn [List.length]; lia).
  change 12 with (11 + 1). rewrite (ean_check_zero s 11 Hs) by lia.
  change (("0"%char :: s) ++ [upc_check s 11]) with ("0"%char :: (s ++ [upc_check s 11])).
  f_equal. unfold ean13_pattern, upca_pattern. cbn [tl].
  change (digit_bars EAN13Parity (char_at ("0"%char :: s ++ [upc_check s 11]) 0))
    with (chars "AAAAA").
  rewrite (ean13_bars_A _ 0), length_app, Hl. reflexivity.
Qed.

Lemma ean13_of_upca_witness :
  ean13 (new_symbol BARCODE_EANX) (chars "003600029145") 12 []
  = (0, set_text (new_symbol BARCODE_EANX) (chars "0036000291452"),
     snd (upca (new_symbol BARCODE_EANX) (chars "03600029145") 11 [])).
Proof.
  exact (proj2 (ean13_of_upca (new_symbol BARCODE_EANX) (chars "03600029145") []
                              eq_refl eq_refl)).
Defined.

(** ** Reading a symbol's text back in *)

(** X7.  The text of a UPC-A, EAN-13 or EAN-8 symbol made from a number
    without its check digit is that number with the check digit after it;
    given back as input with its check digit, it makes the same symbol. *)
Theorem text_round_trip (symbol : zint_symbol) (s dest : list ascii) :
  forallb is_digit s = true ->
  (List.length s = 11%nat ->
   text (snd (fst (upca symbol s 11 dest))) = s ++ [upc_check s 11]
   /\ upca symbol (s ++ [upc_check s 11]) 12 dest = upca symbol s 11 dest)
  /\ (List.length s = 12%nat ->
      text (snd (fst (ean13 symbol s 12 dest))) = s ++ [ean_check s 12]
      /\ ean13 symbol (s ++ [ean_check s 12]) 13 dest = ean13 symbol s 12 dest)
  /\ (List.length s = 7%nat ->
      text (snd (fst (ean8 symbol s 7 dest))) = s ++ [upc_check s 7]
      /\ ean8 symbol (s ++ [upc_check s 7]) 8 dest = ean8 symbol s 7 dest).
Proof.
  intros Hs. split; [|split]; intros Hl; split.
  - rewrite (upca_bars symbol s s dest (cstring_digits s Hs) Hs Hl). reflexivity.
  - rewrite (upca_bars symbol s s dest (cstring_digits s Hs) Hs Hl).
    apply upca_bars_chk; [|exact Hs|exact Hl].
    apply cstring_digits, forallb_digit_snoc, upc_check_digit; [exact Hs|exact Hs|lia].
  - rewrite (ean13_bars symbol s s dest (cstring_digits s Hs) Hs Hl). reflexivity.
  - rewrite (ean13_bars symbol s s dest (cstring_digits s Hs) Hs Hl).
    apply ean13_bars_chk; [|exact Hs|exact Hl].
    apply cstring_digits, forallb_digit_snoc, ean_check_digit; [exact Hs|exact Hs|lia].
  - rewrite (ean8_bars symbol s s dest (cstring_digits s Hs) Hs Hl). reflexivity.
  - rewrite (ean8_bars symbol s s dest (cstring_digits s Hs) Hs Hl).
    apply ean8_bars_chk; [|exact Hs|exact Hl].
    apply cstring_digits, forallb_digit_snoc, upc_check_digit; [exact Hs|exact Hs|lia].
Qed.

Lemma text_round_trip_witness :
  text (snd (fst (upca (new_symbol BARCODE_UPCA) (chars "03600029145") 11 [])))
  = chars "036000291452"
  /\ upca (new_symbol BARCODE_UPCA) (chars "036000291452") 12 []
     = upca (new_symbol BARCODE_UPCA) (chars "03600029145") 11 [].
Proof.
  exact (proj1 (text_round_trip (new_symbol BARCODE_UPCA) (chars "03600029145") [] eq_refl)
               eq_refl).
Defined.

(** ** The width of a symbol *)

Lemma modules_app (a b : list ascii) : modules (a ++ b) = modules a + modules b.
Proof.
  induction a as [|c a IH]; [reflexivity|].
  cbn [app]. unfold modules in *. cbn [fold_right]. rewrite IH. lia.
Qed.

(** Each digit takes seven modules, in set A and in set B. *)
Lemma modules_digit_bars (c : ascii) :
  is_digit c = true ->
  modules (digit_bars EANsetA c) = 7 /\ modules (digit_bars EANsetB c) = 7.
Proof.
  intros H. apply digit_cases in H. cbn [chars list_ascii_of_string In] in H.
  repeat (destruct H as [<-|H]; [split; reflexivity|]). contradiction.
Qed.

Lemma modules_centre_guard (half_way i : Z) :
  modules (centre_guard half_way i) = if i =? half_way then 5 else 0.
Proof.
  unfold centre_guard. destruct (i =? half_way); reflexivity.
Qed.

Lemma modules_bars_from (glyph : Z -> ascii -> list ascii) (half_way : Z)
    (s : list ascii) :
  (forall i c, is_digit c = true ->
               modules (glyph i c) = 7 + if i =? half_way then 5 else 0) ->
  forallb is_digit s = true ->
  forall i, modules (bars_from glyph i s)
            = 7 * Z.of_nat (List.length s)
              + if (i <=? half_way) && (half_way <? i + Z.of_nat (List.length s))
                then 5 else 0.
Proof.
  intros Hg. induction s as [|c r IH]; intros Hs i.
  - cbn [List.length bars_from]. rewrite Z.add_0_r.
    destruct (Z.leb_spec i half_way); destruct (Z.ltb_spec half_way i);
      cbn [andb]; try reflexivity; lia.
  - cbn [forallb] in Hs. apply andb_true_iff in Hs. destruct Hs as [Hc Hr].
    cbn [bars_from]. rewrite modules_app, (Hg i c Hc), (IH Hr (i + 1)).
    cbn [List.length]. rewrite Nat2Z.inj_succ.
    destruct (Z.eqb_spec i half_way); destruct (Z.leb_spec i half_way);
      destruct (Z.ltb_spec half_way (i + Z.succ (Z.of_nat (List.length r))));
      destruct (Z.leb_spec (i + 1) half_way);
      destruct (Z.ltb_spec half_way (i + 1 + Z.of_nat (List.length r)));
      cbn [andb]; lia.
Qed.

Lemma modules_upca_glyph (half_way i : Z) (c : ascii) :
  is_digit c = true ->
  modules (upca_glyph half_way i c) = 7 + if i =? half_way then 5 else 0.
Proof.
  intros Hc. unfold upca_glyph.
  rewrite modules_app, modules_centre_guard, (proj1 (modules_digit_bars c Hc)). lia.
Qed.

Lemma modules_ean13_glyph (parity : list ascii) (i : Z) (c : ascii) :
  is_digit c = true ->
  modules (ean13_glyph parity i c) = 7 + if i =? 7 then 5 else 0.
Proof.
  intros Hc. unfold ean13_glyph. rewrite modules_app, modules_centre_guard.
  destruct (((i >? 1) && (i <? 7)) && Ascii.eqb (char_at parity (i - 2)) "B");
    [rewrite (proj2 (modules_digit_bars c Hc))|rewrite (proj1 (modules_digit_bars c Hc))];
    lia.
Qed.

Lemma modules_upca_pattern (dest gtin : list ascii) :
  forallb is_digit gtin = true -> (2 <= List.length gtin)%nat ->
  modules (upca_pattern dest gtin)
  = modules (cstring dest) + 7 * Z.of_nat (List.length gtin) + 11.
Proof.
  intros Hg Hl. unfold upca_pattern. rewrite !modules_app.
  rewrite (modules_bars_from _ _ gtin (modules_upca_glyph _) Hg).
  change (modules (chars "111")) with 3.
  pose proof (Z.quot_pos (Z.of_nat (List.length gtin)) 2 ltac:(lia) ltac:(lia)).
  pose proof (Z.quot_lt (Z.of_nat (List.length gtin)) 2 ltac:(lia) ltac:(lia)).
  destruct (Z.leb_spec 0 (Z.of_nat (List.length gtin) ÷ 2)); [|lia].
  destruct (Z.ltb_spec (Z.of_nat (List.length gtin) ÷ 2) (0 + Z.of_nat (List.length gtin)));
    [|lia].
  cbn [andb]. lia.
Qed.

Lemma modules_ean13_pattern (dest gtin : list ascii) :
  forallb is_digit gtin = true -> List.length gtin = 13%nat ->
  modules (ean13_pattern dest gtin) = modules (cstring dest) + 95.
Proof.
  intros Hg Hl. unfold ean13_pattern. rewrite !modules_app.
  destruct gtin as [|c0 r]; [discriminate Hl|].
  cbn [forallb] in Hg. apply andb_true_iff in Hg. destruct Hg as [_ Hr].
  cbn [tl]. rewrite (modules_bars_from _ 7 r (modules_ean13_glyph _) Hr).
  change (modules (chars "111")) with 3.
  cbn [List.length] in Hl. assert (E : List.length r = 12%nat) by lia. rewrite E.
  reflexivity.
Qed.

(** The inner loop of [expand]: [n] modules further, the width untouched *)
Lemma expand_run (latch : bool) (n : nat) :
  forall (i : Z) (symbol : zint_symbol) (writer : Z),
    let '(symbol', writer') :=
      for_up n i
        (fun (_ : Z) '(symbol, writer) =>
           ((if latch then set_module symbol (rows symbol) writer else symbol),
            writer + 1))
        (symbol, writer) in
    width symbol' = width symbol /\ writer' = writer + Z.of_nat n.
Proof.
  induction n as [|n IH]; intros i symbol writer.
  - cbn [for_up]. split; [reflexivity|cbn; lia].
  - cbn [for_up].
    specialize (IH (i + 1) (if latch then set_module symbol (rows symbol) writer else symbol)
                   (writer + 1)).
    destruct (for_up n (i + 1) _ _) as [symbol' writer'].
    destruct IH as [Hw ->]. split; [|lia].
    rewrite Hw. destruct latch; reflexivity.
Qed.

Lemma expand_fold (s : list ascii) :
  forall (symbol : zint_symbol) (writer : Z) (latch : bool),
    let '(symbol', writer', _) :=
      fold_left (fun st c => expand_step c st) s (symbol, writer, latch) in
    width symbol' = width symbol /\ writer' = writer + modules s.
Proof.
  induction s as [|c r IH]; intros symbol writer latch.
  - cbn [fold_left]. split; [reflexivity|cbn; lia].
  - cbn [fold_left]. unfold expand_step at 2. unfold for_range.
    pose proof (expand_run latch (Z.to_nat (ctoi c - 0)) 0 symbol writer) as H.
    destruct (for_up (Z.to_nat (ctoi c - 0)) 0 _ _) as [symbol1 writer1].
    destruct H as [Hw ->].
    specialize (IH symbol1 (writer + Z.of_nat (Z.to_nat (ctoi c - 0))) (negb latch)).
    destruct (fold_left _ r _) as [[symbol' writer'] latch'].
    destruct IH as [Hw' ->]. split; [congruence|].
    unfold modules. cbn [fold_right]. lia.
Qed.

(** [expand] makes the symbol as wide as the pattern, if it was not wider. *)
Lemma expand_width (symbol : zint_symbol) (data : list ascii) :
  width (expand symbol data) = Z.max (width symbol) (modules (cstring data)).
Proof.
  unfold expand.
  destruct (cstring_prefix data) as [post E].
  assert (L : for_range 0 (ustrlen data)
                (fun reader '(symbol, writer, latch) =>
                   let '(symbol, writer) :=
                     for_range 0 (ctoi (char_at data reader))
                       (fun _ '(symbol, writer) =>
                          ((if latch : bool then set_module symbol (rows symbol) writer
                            else symbol), writer + 1))
                       (symbol, writer) in
                   (symbol, writer, negb latch))
                (symbol, 0, true)
              = fold_left (fun st c => expand_step c st) (cstring data) (symbol, 0, true)).
  { unfold for_range at 1, ustrlen. rewrite Z.sub_0_r, Nat2Z.id.
    set (s := cstring data) in *. rewrite E.
    exact (for_up_chars expand_step s [] post (symbol, 0, true)). }
  rewrite L. pose proof (expand_fold (cstring data) symbol 0 true) as H.
  destruct (fold_left _ (cstring data) _) as [[symbol' writer'] latch'].
  destruct H as [Hw ->]. rewrite Z.add_0_l.
  destruct (Z.gtb_spec (modules (cstring data)) (width symbol'));
    cbn [set_rows set_width width]; lia.
Qed.

Lemma cstring_upca_pattern (dest gtin : list ascii) :
  cstring (upca_pattern dest gtin) = upca_pattern dest gtin.
Proof.
  unfold upca_pattern. apply cstring_append; [apply cstring_idem|].
  apply cstring_append; [reflexivity|].
  apply cstring_append; [|reflexivity].
  apply cstring_bars_from, cstring_upca_glyph.
Qed.

Lemma cstring_ean13_pattern (dest gtin : list ascii) :
  cstring (ean13_pattern dest gtin) = ean13_pattern dest gtin.
Proof.
  unfold ean13_pattern. apply cstring_append; [apply cstring_idem|].
  apply cstring_append; [reflexivity|].
  apply cstring_append; [|reflexivity].
  apply cstring_bars_from, cstring_ean13_glyph.
Qed.

Lemma zero_padded_digits (n : nat) (s : list ascii) :
  forallb is_digit s = true -> forallb is_digit (zero_padded n s) = true.
Proof.
  intros Hs. apply forallb_digit_app; [apply forallb_digit_repeat|exact Hs].
Qed.

Lemma zero_padded_length (n : nat) (s : list ascii) :
  (List.length s <= n)%nat -> List.length (zero_padded n s) = n.
Proof.
  intros H. unfold zero_padded. rewrite length_app, repeat_length. lia.
Qed.

(** [eanx] on an input of digits alone: the primary symbol of the input
    with zeroes in front, to the target length *)
Lemma eanx_digits (symbol : zint_symbol) (source : list ascii) (n : nat) :
  forallb is_digit source = true -> (List.length source <= 13)%nat ->
  fst (target_lengths symbol (Z.of_nat (List.length source)) 0) = Z.of_nat n ->
  eanx symbol source (Z.of_nat (List.length source))
  = let '(e, s, d) := eanx_primary symbol (zero_padded n source) [] in
    if e >=? ZINT_ERROR then (e, s) else (e, eanx_shift (expand s d)).
Proof.
  intros Hs Hl Ht. unfold eanx, eanx_linear.
  rewrite (eanx_parts_digits symbol source Hs Hl), Ht.
  replace (Z.to_nat (Z.of_nat n - Z.of_nat (List.length source)))
    with (n - List.length source)%nat by lia.
  fold (zero_padded n source).
  destruct (eanx_primary symbol (zero_padded n source) []) as [[e s] d].
  destruct (e >=? ZINT_ERROR) eqn:He; [rewrite He; reflexivity|].
  unfold eanx_addon. change (ustrlen [] =? 0) with true. cbv iota.
  change (0 >=? ZINT_ERROR) with false. cbv iota. rewrite He. reflexivity.
Qed.

Lemma eanx_shift_linear (s : zint_symbol) :
  is_composite (symbology s) = false -> eanx_shift s = s.
Proof.
  unfold eanx_shift. destruct (symbology s); try reflexivity; discriminate.
Qed.

(** What [eanx] makes of a pattern with no error *)
Lemma linear_symbol (symbol : zint_symbol) (t pattern : list ascii) :
  is_composite (symbology symbol) = false ->
  cstring pattern = pattern ->
  let s' := eanx_shift (expand (set_text symbol t) pattern) in
  text s' = t /\ width s' = Z.max (width symbol) (modules pattern)
  /\ rows s' = rows symbol + 1.
Proof.
  intros Hc Hp.
  destruct (expand_row (set_text symbol t) pattern) as (Hr & Hy & _ & _ & Ht).
  cbv zeta. rewrite eanx_shift_linear by (rewrite Hy; exact Hc).
  rewrite Ht, Hr, expand_width, Hp. repeat split.
Qed.

(** X8.  [eanx] on a UPC-A request of up to 11 digits: the digits get
    zeroes in front to make 11, the text is that number with its check digit,
    and the one row added is 95 modules wide. *)
Theorem eanx_upca_symbol (symbol : zint_symbol) (source : list ascii) :
  symbology symbol = BARCODE_UPCA ->
  forallb is_digit source = true -> (List.length source <= 11)%nat ->
  let gtin := zero_padded 11 source in
  exists s',
    eanx symbol source (Z.of_nat (List.length source)) = (0, s')
    /\ text s' = gtin ++ [upc_check gtin 11]
    /\ width s' = Z.max (width symbol) 95
    /\ rows s' = rows symbol + 1.
Proof.
  intros Hy Hs Hl gtin.
  assert (Hg : forallb is_digit gtin = true) by (apply zero_padded_digits, Hs).
  assert (Hn : List.length gtin = 11%nat) by (apply zero_padded_length, Hl).
  rewrite (eanx_digits symbol source 11 Hs) by
    (try lia; unfold target_lengths; rewrite Hy; reflexivity).
  fold gtin. unfold eanx_primary. rewrite Hy, (ustrlen_digits gtin Hg), Hn.
  cbn [Z.of_nat Pos.of_succ_nat Pos.succ Z.eqb Pos.eqb orb].
  rewrite (upca_bars symbol gtin gtin [] (cstring_digits gtin Hg) Hg Hn).
  change (0 >=? ZINT_ERROR) with false. cbv iota. eexists. split; [reflexivity|].
  destruct (linear_symbol symbol (gtin ++ [upc_check gtin 11])
              (upca_pattern [] (gtin ++ [upc_check gtin 11])))
    as (Ht & Hw & Hr).
  - rewrite Hy. reflexivity.
  - apply cstring_upca_pattern.
  - rewrite Ht, Hw, Hr. repeat split.
    rewrite modules_upca_pattern.
    + rewrite length_app, Hn. reflexivity.
    + apply forallb_digit_snoc, upc_check_digit; [exact Hg|exact Hg|lia].
    + rewrite length_app, Hn. cbn. lia.
Qed.

Lemma eanx_upca_symbol_witness :
  exists s',
    eanx (new_symbol BARCODE_UPCA) (chars "3600029145") 10 = (0, s')
    /\ text s' = chars "036000291452"
    /\ width s' = 95
    /\ rows s' = 1.
Proof.
  exact (eanx_upca_symbol (new_symbol BARCODE_UPCA) (chars "3600029145") eq_refl eq_refl
                          ltac:(simpl; lia)).
Defined.

Lemma target_length_ean (symbol : zint_symbol) (len : Z) :
  symbology symbol = BARCODE_EANX ->
  (8 <= len <= 12 -> fst (target_lengths symbol len 0) = 12)
  /\ (6 <= len <= 7 -> fst (target_lengths symbol len 0) = 7).
Proof.
  intros Hy. unfold target_lengths. rewrite Hy. cbn [fst Z.eqb symbology_t_beq andb].
  split; intros H;
    destruct (Z.leb_spec len 5); try lia;
    destruct (Z.leb_spec len 12); try lia;
    destruct (Z.leb_spec len 7); try lia; reflexivity.
Qed.

(** X9.  [eanx] on an EAN request of digits alone: 8 to 12 digits make an
    EAN-13 symbol of 95 modules, 6 or 7 digits an EAN-8 symbol of 67
    modules, of the digits with zeroes in front and their check digit. *)
Theorem eanx_ean_symbol (symbol : zint_symbol) (source : list ascii) :
  symbology symbol = BARCODE_EANX ->
  forallb is_digit source = true ->
  ((8 <= List.length source <= 12)%nat ->
   let gtin := zero_padded 12 source in
   exists s',
     eanx symbol source (Z.of_nat (List.length source)) = (0, s')
     /\ text s' = gtin ++ [ean_check gtin 12]
     /\ width s' = Z.max (width symbol) 95
     /\ rows s' = rows symbol + 1)
  /\ ((6 <= List.length source <= 7)%nat ->
      let gtin := zero_padded 7 source in
      exists s',
        eanx symbol source (Z.of_nat (List.length source)) = (0, s')
        /\ text s' = gtin ++ [upc_check gtin 7]
        /\ width s' = Z.max (width symbol) 67
        /\ rows s' = rows symbol + 1).
Proof.
  intros Hy Hs. split; intros Hl gtin.
  - assert (Hg : forallb is_digit gtin = true) by (apply zero_padded_digits, Hs).
    assert (Hn : List.length gtin = 12%nat) by (apply zero_padded_length; lia).
    rewrite (eanx_digits symbol source 12 Hs) by
      (try lia; apply (target_length_ean symbol _ Hy); lia).
    fold gtin. unfold eanx_primary. rewrite Hy, (ustrlen_digits gtin Hg), Hn.
    cbn [Z.of_nat Pos.of_succ_nat Pos.succ Z.eqb Pos.eqb orb].
    rewrite (ean13_bars symbol gtin gtin [] (cstring_digits gtin Hg) Hg Hn).
    change (0 >=? ZINT_ERROR) with false. cbv iota. eexists. split; [reflexivity|].
    destruct (linear_symbol symbol (gtin ++ [ean_check gtin 12])
                (ean13_pattern [] (gtin ++ [ean_check gtin 12])))
      as (Ht & Hw & Hr).
    + rewrite Hy. reflexivity.
    + apply cstring_ean13_pattern.
    + rewrite Ht, Hw, Hr. repeat split.
      rewrite modules_ean13_pattern.
      * reflexivity.
      * apply forallb_digit_snoc, ean_check_digit; [exact Hg|exact Hg|lia].
      * rewrite length_app, Hn. reflexivity.
  - assert (Hg : forallb is_digit gtin = true) by (apply zero_padded_digits, Hs).
    assert (Hn : List.length gtin = 7%nat) by (apply zero_padded_length; lia).
    rewrite (eanx_digits symbol source 7 Hs) by
      (try lia; apply (target_length_ean symbol _ Hy); lia).
    fold gtin. unfold eanx_primary. rewrite Hy, (ustrlen_digits gtin Hg), Hn.
    cbn [Z.of_nat Pos.of_succ_nat Pos.succ Z.eqb Pos.eqb orb].
    rewrite (ean8_bars symbol gtin gtin [] (cstring_digits gtin Hg) Hg Hn).
    change (0 >=? ZINT_ERROR) with false. cbv iota. eexists. split; [reflexivity|].
    destruct (linear_symbol symbol (gtin ++ [upc_check gtin 7])
                (upca_pattern [] (gtin ++ [upc_check gtin 7])))
      as (Ht & Hw & Hr).
    + rewrite Hy. reflexivity.
    + apply cstring_upca_pattern.
    + rewrite Ht, Hw, Hr. repeat split.
      rewrite modules_upca_pattern.
      * rewrite length_app, Hn. reflexivity.
      * apply forallb_digit_snoc, upc_check_digit; [exact Hg|exact Hg|lia].
      * rewrite length_app, Hn. cbn. lia.
Qed.

Lemma eanx_ean_symbol_witness :
  (exists s',
      eanx (new_symbol BARCODE_EANX) (chars "400638133393") 12 = (0, s')
      /\ text s' = chars "4006381333931"
      /\ width s' = 95
      /\ rows s' = 1)
  /\ (exists s',
         eanx (new_symbol BARCODE_EANX) (chars "123456") 6 = (0, s')
         /\ text s' = chars "01234565"
         /\ width s' = 67
         /\ rows s' = 1).
Proof.
  split.
  - exact (proj1 (eanx_ean_symbol (new_symbol BARCODE_EANX) (chars "400638133393")
                                  eq_refl eq_refl) ltac:(simpl; lia)).
  - exact (proj2 (eanx_ean_symbol (new_symbol BARCODE_EANX) (chars "123456")
                                  eq_refl eq_refl) ltac:(simpl; lia)).
Defined.

(** ** UPC-E in closed form *)

Lemma parity_loop (parity s post dest : list ascii) (n : Z) :
  forallb is_digit s = true -> cstring dest = dest ->
  n = Z.of_nat (List.length s) ->
  for_range 0 n
    (fun i dest =>
       if Ascii.eqb (char_at parity i) "A"
       then lookup NEON EANsetA (char_at (s ++ post) i) dest
       else if Ascii.eqb (char_at parity i) "B"
       then lookup NEON EANsetB (char_at (s ++ post) i) dest
       else dest)
    dest
  = dest ++ bars_from (parity_glyph parity) 0 s.
Proof.
  intros Hs Hd ->.
  apply (bars_range (parity_glyph parity) _ s post dest (cstring_parity_glyph parity) Hd).
  intros k d Hk Hd'. unfold parity_glyph.
  destruct (Ascii.eqb (char_at parity k) "A").
  - rewrite lookup_digit by (apply digit_at; assumption). rewrite Hd'. reflexivity.
  - destruct (Ascii.eqb (char_at parity k) "B").
    + rewrite lookup_digit by (apply digit_at; assumption). rewrite Hd'. reflexivity.
    + rewrite app_nil_r. reflexivity.
Qed.

(** [upce] on six digits, for a symbology that computes the check digit *)
Lemma upce_bars (symbol : zint_symbol) (source dest equivalent : list ascii) :
  symbology symbol <> BARCODE_UPCE_CHK ->
  forallb is_digit source = true -> List.length source = 6%nat ->
  upce_equivalent 0 (chars "0") source = inr equivalent ->
  upce symbol source 6 dest
  = (0, set_text symbol ("0"%char :: source ++ [upc_check equivalent 11]),
     upce_pattern dest (upce_parity 0 (upc_check equivalent 11)) source).
Proof.
  intros Hy Hs Hl F.
  destruct (upce_equivalent_digits (chars "0") _ equivalent
              (digits_upto_all _ 6 Hs ltac:(lia)) F) as [Hdig _].
  pose proof (upc_check_is_digit equivalent 11 Hdig) as Hchk.
  unfold upce. rewrite upce_number_system_6.
  rewrite (upce_equivalent_reads _ (chars "0") source source (fun _ _ => eq_refl)), F.
  rewrite (not_upce_chk symbol Hy). cbn [negb].
  revert Hchk. generalize (upc_check equivalent 11). intros chk Hchk.
  pose proof (parity_loop (upce_parity 0 chk) source [] (ustrcat dest (chars "111")) 6
                          Hs (cstring_app _ _) ltac:(lia)) as HL.
  rewrite app_nil_r in HL. rewrite HL. clear HL.
  f_equal; [f_equal; f_equal|].
  - rewrite (cstring_digits _ Hs).
    replace (firstn 6 source) with source by (symmetry; apply firstn_all2; lia).
    change ("0"%char :: source) with ([ "0"%char ] ++ source).
    assert (H7 : forallb is_digit ([ "0"%char ] ++ source) = true)
      by (apply forallb_digit_app; [reflexivity|exact Hs]).
    change 8 with (7 + 1). rewrite (append_check ([ "0"%char ] ++ source) 7 chk)
      by (rewrite length_app, Hl; reflexivity).
    unfold ustrcpy. rewrite cstring_digits_nul by (apply forallb_digit_snoc; assumption).
    rewrite <- app_assoc. reflexivity.
  - unfold upce_pattern, ustrcat. rewrite cstring_append.
    + change (cstring (chars "111")) with (chars "111").
      change (cstring (chars "111111")) with (chars "111111").
      rewrite <- !app_assoc. reflexivity.
    + apply cstring_app.
    + apply cstring_bars_from, cstring_parity_glyph.
Qed.

Lemma modules_bars_plain (glyph : Z -> ascii -> list ascii) (s : list ascii) :
  forallb is_digit s = true ->
  forall i,
    (forall k c, i <= k < i + Z.of_nat (List.length s) -> is_digit c = true ->
                 modules (glyph k c) = 7) ->
    modules (bars_from glyph i s) = 7 * Z.of_nat (List.length s).
Proof.
  induction s as [|c r IH]; intros Hs i Hg; [reflexivity|].
  cbn [forallb] in Hs. apply andb_true_iff in Hs. destruct Hs as [Hc Hr].
  cbn [bars_from]. rewrite modules_app, (Hg i c) by (cbn [List.length]; try exact Hc; lia).
  rewrite (IH Hr (i + 1)); [cbn [List.length]; lia|].
  intros k c' Hk Hc'. apply Hg; [cbn [List.length]; lia|exact Hc'].
Qed.

(** The parity of a UPC-E symbol has six letters, each A or B. *)
Lemma upce_parity_letters (num_system : Z) (c : ascii) (k : Z) :
  is_digit c = true -> 0 <= k < 6 ->
  Ascii.eqb (char_at (upce_parity num_system c) k) "A" = true
  \/ (Ascii.eqb (char_at (upce_parity num_system c) k) "A" = false
      /\ Ascii.eqb (char_at (upce_parity num_system c) k) "B" = true).
Proof.
  intros Hc Hk. apply digit_cases in Hc. cbn [chars list_ascii_of_string In] in Hc.
  assert (E : k = 0 \/ k = 1 \/ k = 2 \/ k = 3 \/ k = 4 \/ k = 5) by lia.
  unfold upce_parity. destruct (num_system =? 1);
    repeat (destruct Hc as [<-|Hc];
            [destruct E as [->|[->|[->|[->|[->| ->]]]]];
             ((left; reflexivity) || (right; split; reflexivity))|]);
    contradiction.
Qed.

Lemma modules_upce_pattern (dest digits : list ascii) (num_system : Z) (c : ascii) :
  forallb is_digit digits = true -> List.length digits = 6%nat -> is_digit c = true ->
  modules (upce_pattern dest (upce_parity num_system c) digits)
  = modules (cstring dest) + 51.
Proof.
  intros Hd Hl Hc. unfold upce_pattern. rewrite !modules_app.
  rewrite (modules_bars_plain _ digits Hd 0).
  - rewrite Hl. reflexivity.
  - intros k c' Hk Hc'. rewrite Hl in Hk. unfold parity_glyph.
    destruct (upce_parity_letters num_system c k Hc ltac:(lia)) as [-> | [-> ->]].
    + apply (modules_digit_bars c' Hc').
    + apply (modules_digit_bars c' Hc').
Qed.

Lemma cstring_upce_pattern (dest parity digits : list ascii) :
  cstring (upce_pattern dest parity digits) = upce_pattern dest parity digits.
Proof.
  unfold upce_pattern. apply cstring_append; [apply cstring_idem|].
  apply cstring_append; [reflexivity|].
  apply cstring_append; [|reflexivity].
  apply cstring_bars_from, cstring_parity_glyph.
Qed.

(** X10.  [eanx] on a UPC-E request of up to six digits that, with zeroes
    in front to make six, are none of the forbidden combinations: the text
    is [0], the six digits and the check digit of their UPC-A equivalent,
    and the one row added is 51 modules wide. *)
Theorem eanx_upce_symbol (symbol : zint_symbol) (source : list ascii) :
  symbology symbol = BARCODE_UPCE ->
  forallb is_digit source = true -> (List.length source <= 6)%nat ->
  let digits := zero_padded 6 source in
  upce_forbidden digits = false ->
  exists equivalent s',
    upce_equivalent 0 (chars "0") digits = inr equivalent
    /\ eanx symbol source (Z.of_nat (List.length source)) = (0, s')
    /\ text s' = "0"%char :: digits ++ [upc_check equivalent 11]
    /\ width s' = Z.max (width symbol) 51
    /\ rows s' = rows symbol + 1.
Proof.
  intros Hy Hs Hl digits Hf.
  assert (Hg : forallb is_digit digits = true) by (apply zero_padded_digits, Hs).
  assert (Hn : List.length digits = 6%nat) by (apply zero_padded_length, Hl).
  pose proof (upce_equivalent_forbidden 0 (chars "0") digits) as F. rewrite Hf in F.
  destruct F as [equivalent F]. exists equivalent.
  destruct (upce_equivalent_digits (chars "0") _ equivalent
              (digits_upto_all _ 6 Hg ltac:(lia)) F) as [Hdig _].
  pose proof (upc_check_is_digit equivalent 11 Hdig) as Hchk.
  rewrite (eanx_digits symbol source 6 Hs).
  - fold digits. unfold eanx_primary. rewrite Hy, (ustrlen_digits digits Hg), Hn.
    cbn [Z.of_nat Pos.of_succ_nat Pos.succ Z.geb Z.leb Z.compare Pos.compare
         Pos.compare_cont symbology_t_beq andb].
    rewrite (upce_bars symbol digits [] equivalent) by (congruence || assumption).
    change (0 >=? ZINT_ERROR) with false. cbv iota. eexists.
    split; [exact F|]. split; [reflexivity|].
    destruct (linear_symbol symbol ("0"%char :: digits ++ [upc_check equivalent 11])
                (upce_pattern [] (upce_parity 0 (upc_check equivalent 11)) digits))
      as (Ht & Hw & Hr).
    + rewrite Hy. reflexivity.
    + apply cstring_upce_pattern.
    + rewrite Ht, Hw, Hr, (modules_upce_pattern [] digits 0 _ Hg Hn Hchk).
      repeat split.
  - lia.
  - unfold target_lengths. rewrite Hy. cbn [fst].
    destruct (Z.eqb_spec (Z.of_nat (List.length source)) 7); [lia|].
    destruct (Z.leb_spec (Z.of_nat (List.length source)) 6); [reflexivity|lia].
Qed.

Lemma eanx_upce_symbol_witness :
  exists equivalent s',
    upce_equivalent 0 (chars "0") (chars "123456") = inr equivalent
    /\ eanx (new_symbol BARCODE_UPCE) (chars "123456") 6 = (0, s')
    /\ text s' = "0"%char :: chars "123456" ++ [upc_check equivalent 11]
    /\ width s' = 51
    /\ rows s' = 1.
Proof.
  exact (eanx_upce_symbol (new_symbol BARCODE_UPCE) (chars "123456") eq_refl eq_refl
                          ltac:(simpl; lia) eq_refl).
Defined.

(** ** The UPC-A equivalent of a UPC-E code *)

Lemma upce_equivalent_expansion (num_system : Z) (hrt source equivalent : list ascii) :
  is_digit (char_at source 5) = true ->
  upce_equivalent num_system hrt source = inr equivalent ->
  equivalent
  = upce_expansion (if num_system =? 1 then char_at hrt 0 else "0"%char) source ++ [NUL].
Proof.
  intros H5. apply digit_cases in H5. cbn [chars list_ascii_of_string In] in H5.
  unfold upce_equivalent, upce_expansion. cbv zeta. revert H5.
  generalize (char_at source 0) (char_at source 1) (char_at source 2)
             (char_at source 3) (char_at source 4) (char_at source 5) (char_at hrt 0).
  intros c0 c1 c2 c3 c4 emode h0 H5.
  destruct (num_system =? 1);
    repeat (destruct H5 as [<-|H5];
            [cbn [Ascii.eqb Bool.eqb andb orb]; case_chars; intros E; cbv in E;
             try discriminate E; injection E as <-; reflexivity|]);
    contradiction.
Qed.

Lemma six_digits (s : list ascii) :
  List.length s = 6%nat ->
  s = [char_at s 0; char_at s 1; char_at s 2; char_at s 3; char_at s 4; char_at s 5].
Proof.
  intros H. do 7 (destruct s as [|? s]; try discriminate H). reflexivity.
Qed.

Lemma upce_equivalent_inj (num_system : Z) (hrt a b equivalent : list ascii) :
  forallb is_digit a = true -> List.length a = 6%nat ->
  forallb is_digit b = true -> List.length b = 6%nat ->
  upce_equivalent num_system hrt a = inr equivalent ->
  upce_equivalent num_system hrt b = inr equivalent ->
  a = b.
Proof.
  intros Ha La Hb Lb Ea Eb.
  pose proof (upce_equivalent_forbidden num_system hrt a) as Fa.
  pose proof (upce_equivalent_forbidden num_system hrt b) as Fb.
  destruct (upce_forbidden a) eqn:Na;
    [destruct Fa as [msg Fa]; rewrite Fa in Ea; discriminate Ea|clear Fa].
  destruct (upce_forbidden b) eqn:Nb;
    [destruct Fb as [msg Fb]; rewrite Fb in Eb; discriminate Eb|clear Fb].
  pose proof (digits_upto_all a 6 Ha ltac:(lia) 5 ltac:(lia)) as Da.
  pose proof (digits_upto_all b 6 Hb ltac:(lia) 5 ltac:(lia)) as Db.
  apply (upce_equivalent_expansion _ _ _ _ Da) in Ea.
  apply (upce_equivalent_expansion _ _ _ _ Db) in Eb.
  rewrite Ea in Eb. clear Ea equivalent. apply app_inv_tail in Eb.
  rewrite (six_digits a La), (six_digits b Lb).
  unfold upce_forbidden in Na, Nb. unfold upce_expansion in Eb. cbv zeta in *.
  apply digit_cases in Da, Db. cbn [chars list_ascii_of_string In] in Da, Db.
  revert Na Nb Eb Da Db.
  generalize (char_at a 0) (char_at a 1) (char_at a 2) (char_at a 3) (char_at a 4)
             (char_at a 5) (char_at b 0) (char_at b 1) (char_at b 2) (char_at b 3)
             (char_at b 4) (char_at b 5)
             (if num_system =? 1 then char_at hrt 0 else "0"%char).
  intros a0 a1 a2 a3 a4 a5 b0 b1 b2 b3 b4 b5 h Na Nb Eb Da Db.
  repeat (destruct Da as [<-|Da]; [|]); try contradiction;
    repeat (destruct Db as [<-|Db]; [|]); try contradiction;
    cbn [Ascii.eqb Bool.eqb andb orb] in Eb;
    try discriminate Eb;
    injection Eb; intros; subst;
    try reflexivity;
    cbn [Ascii.eqb Bool.eqb andb orb] in Na, Nb;
    discriminate.
Qed.

(** X11.  The expansion of UPC-E codes to UPC-A numbers loses nothing: the
    equivalent of six digits that [upce_equivalent] accepts is the number of
    EN Table 5, and two different codes, in the same number system, have
    different equivalents. *)
Theorem upce_equivalent_lossless (num_system : Z) (hrt a b ea eb : list ascii) :
  forallb is_digit a = true -> List.length a = 6%nat ->
  forallb is_digit b = true -> List.length b = 6%nat ->
  upce_equivalent num_system hrt a = inr ea ->
  upce_equivalent num_system hrt b = inr eb ->
  let h := if num_system =? 1 then char_at hrt 0 else "0"%char in
  ea = upce_expansion h a ++ [NUL] /\ eb = upce_expansion h b ++ [NUL]
  /\ (a <> b -> ea <> eb).
Proof.
  intros Ha La Hb Lb Ea Eb h.
  pose proof (digits_upto_all a 6 Ha ltac:(lia) 5 ltac:(lia)) as Da.
  pose proof (digits_upto_all b 6 Hb ltac:(lia) 5 ltac:(lia)) as Db.
  split; [exact (upce_equivalent_expansion _ _ _ _ Da Ea)|].
  split; [exact (upce_equivalent_expansion _ _ _ _ Db Eb)|].
  intros Hne E. apply Hne. subst eb.
  apply (upce_equivalent_inj num_system hrt a b ea); assumption.
Qed.

Lemma upce_equivalent_lossless_witness :
  chars "01230000045" ++ [NUL] <> chars "01230000046" ++ [NUL].
Proof.
  exact (proj2 (proj2 (upce_equivalent_lossless 0 (chars "0") (chars "123453")
                         (chars "123463") (chars "01230000045" ++ [NUL])
                         (chars "01230000046" ++ [NUL])
                         eq_refl eq_refl eq_refl eq_refl eq_refl eq_refl))
               ltac:(discriminate)).
Defined.

(** ** Add-ons in closed form *)

Lemma add_on_bars (s post dest : list ascii) (gap : Z) :
  forallb is_digit s = true -> gap = 0 \/ 7 <= gap <= 12 ->
  add_on (s ++ post) (Z.of_nat (List.length s)) dest gap
  = add_on_pattern dest gap (add_on_parity (s ++ post) (Z.of_nat (List.length s))) s.
Proof.
  intros Hs Hgap. unfold add_on, add_on_pattern. cbv zeta.
  set (parity := add_on_parity (s ++ post) (Z.of_nat (List.length s))).
  set (n := Z.of_nat (List.length s)).
  assert (E : ustrcat (if negb (gap =? 0)
                       then set_char (set_char dest (ustrlen dest) (itoc gap))
                                     (ustrlen dest + 1) NUL
                       else dest) (chars "112")
              = cstring dest ++ (if gap =? 0 then [] else [itoc gap]) ++ chars "112").
  { unfold ustrcat. destruct Hgap as [-> | Hgap].
    - reflexivity.
    - destruct (Z.eqb_spec gap 0) as [|_]; [lia|]. cbn [negb].
      rewrite (cstring_append_char dest _ (itoc_gap_not_nul gap Hgap)).
      rewrite <- app_assoc. reflexivity. }
  rewrite E.
  rewrite (bars_range (add_on_glyph parity n) _ s post).
  - rewrite <- !app_assoc. reflexivity.
  - apply cstring_add_on_glyph.
  - rewrite <- E. apply cstring_app.
  - intros k d Hk Hd. unfold add_on_glyph, parity_glyph.
    assert (G : forall x, cstring x = x ->
                          (if negb (k =? n - 1) then ustrcat x (chars "11") else x)
                          = x ++ (if negb (k =? n - 1) then chars "11" else [])).
    { intros x Hx. destruct (negb (k =? n - 1)).
      - unfold ustrcat. rewrite Hx. reflexivity.
      - rewrite app_nil_r. reflexivity. }
    destruct (Ascii.eqb (char_at parity k) "A").
    + rewrite lookup_digit by (apply digit_at; assumption).
      rewrite G by apply cstring_app_bars. rewrite Hd, <- app_assoc. reflexivity.
    + destruct (Ascii.eqb (char_at parity k) "B").
      * rewrite lookup_digit by (apply digit_at; assumption).
        rewrite G by apply cstring_app_bars. rewrite Hd, <- app_assoc. reflexivity.
      * rewrite G by exact Hd. reflexivity.
Qed.

Lemma ctoi_digit_range (c : ascii) : is_digit c = true -> 0 <= ctoi c <= 9.
Proof.
  intros H. rewrite (ctoi_digit c H). apply is_digit_range in H. unfold digit_value. lia.
Qed.

(** The parity of an add-on has a letter, A or B, for each of its digits. *)
Lemma add_on_parity_letters (source : list ascii) (n k : Z) :
  n = 2 \/ n = 5 -> digits_upto source n -> 0 <= k < n ->
  Ascii.eqb (char_at (add_on_parity source n) k) "A" = true
  \/ (Ascii.eqb (char_at (add_on_parity source n) k) "A" = false
      /\ Ascii.eqb (char_at (add_on_parity source n) k) "B" = true).
Proof.
  intros Hn Hd Hk. unfold add_on_parity. cbv zeta. destruct Hn as [-> | ->].
  - change (2 =? 2) with true. cbv iota. change (EAN2 =? EAN2) with true.
    change (EAN2 =? EAN5) with false. cbv iota.
    pose proof (ctoi_digit_range _ (Hd 0 ltac:(lia))) as R0.
    pose proof (ctoi_digit_range _ (Hd 1 ltac:(lia))) as R1.
    revert R0 R1. generalize (ctoi (char_at source 0)) (ctoi (char_at source 1)).
    intros v0 v1 R0 R1.
    pose proof (Z.rem_bound_pos (10 * v0 + v1) 4 ltac:(lia) ltac:(lia)) as R.
    revert R. generalize (Z.rem (10 * v0 + v1) 4). intros r R.
    assert (E : r = 0 \/ r = 1 \/ r = 2 \/ r = 3) by lia.
    assert (K : k = 0 \/ k = 1) by lia.
    destruct E as [->|[->|[->| ->]]]; destruct K as [-> | ->];
      ((left; reflexivity) || (right; split; reflexivity)).
  - change (5 =? 2) with false. cbv iota. change (EAN5 =? EAN2) with false.
    change (EAN5 =? EAN5) with true. cbv iota. cbn [map nth].
    pose proof (ctoi_digit_range _ (Hd 0 ltac:(lia))) as R0.
    pose proof (ctoi_digit_range _ (Hd 1 ltac:(lia))) as R1.
    pose proof (ctoi_digit_range _ (Hd 2 ltac:(lia))) as R2.
    pose proof (ctoi_digit_range _ (Hd 3 ltac:(lia))) as R3.
    pose proof (ctoi_digit_range _ (Hd 4 ltac:(lia))) as R4.
    revert R0 R1 R2 R3 R4.
    generalize (ctoi (char_at source 0)) (ctoi (char_at source 1))
               (ctoi (char_at source 2)) (ctoi (char_at source 3))
               (ctoi (char_at source 4)).
    intros v0 v1 v2 v3 v4 R0 R1 R2 R3 R4.
    pose proof (Z.rem_bound_pos (3 * (v0 + v2 + v4) + 9 * (v1 + v3)) 10
                                ltac:(lia) ltac:(lia)) as R.
    revert R. generalize (Z.rem (3 * (v0 + v2 + v4) + 9 * (v1 + v3)) 10). intros r R.
    assert (E : r = 0 \/ r = 1 \/ r = 2 \/ r = 3 \/ r = 4 \/ r = 5 \/ r = 6 \/ r = 7
                \/ r = 8 \/ r = 9) by lia.
    assert (K : k = 0 \/ k = 1 \/ k = 2 \/ k = 3 \/ k = 4) by lia.
    repeat (destruct E as [->|E];
            [destruct K as [->|[->|[->|[->| ->]]]];
             ((left; reflexivity) || (right; split; reflexivity))|]).
    subst r. destruct K as [->|[->|[->|[->| ->]]]];
      ((left; reflexivity) || (right; split; reflexivity)).
Qed.

Lemma modules_glyphs (glyph : Z -> ascii -> list ascii) (each : Z -> Z) (s : list ascii) :
  forallb is_digit s = true ->
  forall i,
    (forall k c, i <= k < i + Z.of_nat (List.length s) -> is_digit c = true ->
                 modules (glyph k c) = each k) ->
    modules (bars_from glyph i s) = sum_from (List.length s) i each.
Proof.
  induction s as [|c r IH]; intros Hs i Hg; [reflexivity|].
  cbn [forallb] in Hs. apply andb_true_iff in Hs. destruct Hs as [Hc Hr].
  cbn [bars_from List.length sum_from].
  rewrite modules_app, (Hg i c) by (cbn [List.length]; try exact Hc; lia).
  rewrite (IH Hr (i + 1)); [reflexivity|].
  intros k c' Hk Hc'. apply Hg; [cbn [List.length]; lia|exact Hc'].
Qed.

Lemma itoc_gap_modules (gap : Z) : 7 <= gap <= 12 -> modules [itoc gap] = gap.
Proof.
  intros H.
  assert (E : gap = 7 \/ gap = 8 \/ gap = 9 \/ gap = 10 \/ gap = 11 \/ gap = 12) by lia.
  destruct E as [->|[->|[->|[->|[->| ->]]]]]; reflexivity.
Qed.

Lemma modules_gap (gap : Z) :
  gap = 0 \/ 7 <= gap <= 12 -> modules (if gap =? 0 then [] else [itoc gap]) = gap.
Proof.
  intros [-> | H]; [reflexivity|].
  destruct (Z.eqb_spec gap 0); [lia|]. apply itoc_gap_modules, H.
Qed.

(** An add-on of 2 digits takes 20 modules and one of 5 digits 47, after
    the gap. *)
Lemma modules_add_on_pattern (dest s post : list ascii) (gap : Z) :
  forallb is_digit s = true -> List.length s = 2%nat \/ List.length s = 5%nat ->
  gap = 0 \/ 7 <= gap <= 12 ->
  modules (add_on_pattern dest gap (add_on_parity (s ++ post) (Z.of_nat (List.length s))) s)
  = modules (cstring dest) + gap + 9 * Z.of_nat (List.length s) + 2.
Proof.
  intros Hs Hl Hgap. unfold add_on_pattern. rewrite !modules_app.
  rewrite (modules_gap gap Hgap). change (modules (chars "112")) with 4.
  set (n := Z.of_nat (List.length s)).
  rewrite (modules_glyphs _ (fun k => 7 + if negb (k =? n - 1) then 2 else 0) s Hs 0).
  - destruct Hl as [E | E]; subst n; rewrite E; cbn; lia.
  - intros k c Hk Hc. unfold add_on_glyph, parity_glyph. rewrite modules_app.
    assert (Hd : digits_upto (s ++ post) n).
    { intros j Hj. apply digit_at; [exact Hs|]. subst n. lia. }
    assert (Hn : n = 2 \/ n = 5) by (subst n; lia).
    destruct (add_on_parity_letters (s ++ post) n k Hn Hd ltac:(subst n; lia))
      as [-> | [-> ->]];
      [rewrite (proj1 (modules_digit_bars c Hc))|rewrite (proj2 (modules_digit_bars c Hc))];
      destruct (negb (k =? n - 1)); reflexivity.
Qed.

(** ** An input with an add-on *)

Lemma char_at_end (s : list ascii) : char_at s (Z.of_nat (List.length s)) = NUL.
Proof.
  unfold char_at. destruct (Z.ltb_spec (Z.of_nat (List.length s)) 0); [reflexivity|].
  rewrite Nat2Z.id. apply nth_overflow. lia.
Qed.

Lemma do_while_S {St : Type} (fuel : nat) (body : St -> St) (cond : St -> bool) (st : St) :
  do_while (S fuel) body cond st
  = if cond (body st) then do_while fuel body cond (body st) else body st.
Proof.
  reflexivity.
Qed.

(** One turn of the splitting loop, on a character other than [+] and on
    the [+] *)
Lemma split_body_copy (ls first second : list ascii) (latch : bool) (reader writer : Z) :
  Ascii.eqb (char_at ls reader) "+" = false ->
  split_body ls (mk_split first second latch reader writer)
  = if latch
    then mk_split first (set_char second writer (char_at ls reader)) true
                  (reader + 1) (writer + 1)
    else mk_split (set_char first writer (char_at ls reader)) second false
                  (reader + 1) (writer + 1).
Proof.
  intros H. unfold split_body.
  cbn [sp_reader sp_writer sp_latch sp_first_part sp_second_part]. rewrite H.
  destruct latch; reflexivity.
Qed.

Lemma split_body_plus (ls first second : list ascii) (latch : bool) (reader writer : Z) :
  char_at ls reader = "+"%char ->
  split_body ls (mk_split first second latch reader writer)
  = mk_split (set_char first writer NUL) (set_char second 0 (char_at ls (reader + 1)))
             true (reader + 1 + 1) (0 + 1).
Proof.
  intros H. unfold split_body.
  cbn [sp_reader sp_writer sp_latch sp_first_part sp_second_part]. rewrite H.
  reflexivity.
Qed.

(** The turns of the splitting loop that copy the add-on, up to and with
    the NUL after it *)
Lemma split_second (ls first front : list ascii) (bound : Z) :
  bound = Z.of_nat (List.length ls) ->
  forall rest sec fuel,
    ls = front ++ sec ++ rest -> forallb is_digit rest = true ->
    (List.length rest < fuel)%nat ->
    do_while fuel (split_body ls) (fun st => sp_reader st <=? bound)
             (mk_split first sec true (Z.of_nat (List.length (front ++ sec)))
                       (Z.of_nat (List.length sec)))
    = mk_split first (sec ++ rest ++ [NUL]) true (bound + 1)
               (Z.of_nat (List.length (sec ++ rest)) + 1).
Proof.
  intros Hb. induction rest as [|c r IH]; intros sec fuel E Hr Hf;
    (destruct fuel as [|fuel]; [cbn [List.length] in Hf; lia|]).
  - rewrite app_nil_r in E. rewrite do_while_S, <- E, split_body_copy
      by (rewrite char_at_end; reflexivity).
    rewrite char_at_end. cbn [sp_reader]. rewrite set_char_append, <- Hb.
    destruct (Z.leb_spec (bound + 1) bound); [lia|].
    rewrite !app_nil_r. reflexivity.
  - cbn [forallb] in Hr. apply andb_true_iff in Hr. destruct Hr as [Hc Hr].
    assert (Ec : char_at ls (Z.of_nat (List.length (front ++ sec))) = c).
    { rewrite E, app_assoc. apply char_at_app_end. }
    rewrite do_while_S, split_body_copy by (rewrite Ec; apply is_digit_not_plus, Hc).
    rewrite Ec. cbn [sp_reader]. rewrite set_char_append.
    assert (Hlen : Z.of_nat (List.length (front ++ sec)) + 1 <= bound).
    { rewrite Hb, E, !length_app. cbn [List.length]. lia. }
    destruct (Z.leb_spec (Z.of_nat (List.length (front ++ sec)) + 1) bound); [|lia].
    replace (Z.of_nat (List.length (front ++ sec)) + 1)
      with (Z.of_nat (List.length (front ++ sec ++ [c])))
      by (rewrite !length_app; cbn [List.length]; lia).
    replace (Z.of_nat (List.length sec) + 1) with (Z.of_nat (List.length (sec ++ [c])))
      by (rewrite length_app; cbn [List.length]; lia).
    rewrite (IH (sec ++ [c]) fuel).
    + rewrite <- !app_assoc. reflexivity.
    + rewrite E, <- !app_assoc. reflexivity.
    + exact Hr.
    + cbn [List.length] in Hf. lia.
Qed.

(** The turns that copy the primary part, and the turn that meets the [+] *)
Lemma split_first (ls a : list ascii) (bound : Z) :
  bound = Z.of_nat (List.length ls) -> forallb is_digit a = true ->
  forall rest pre fuel,
    ls = pre ++ rest ++ "+"%char :: a -> forallb is_digit rest = true ->
    (List.length rest + List.length a < fuel)%nat ->
    do_while fuel (split_body ls) (fun st => sp_reader st <=? bound)
             (mk_split pre [] false (Z.of_nat (List.length pre))
                       (Z.of_nat (List.length pre)))
    = mk_split (pre ++ rest ++ [NUL]) (a ++ [NUL]) true (bound + 1)
               (Z.of_nat (List.length a) + 1).
Proof.
  intros Hb Ha. induction rest as [|c r IH]; intros pre fuel E Hr Hf;
    (destruct fuel as [|fuel]; [lia|]).
  - cbn [app] in E.
    assert (Ep : char_at ls (Z.of_nat (List.length pre)) = "+"%char)
      by (rewrite E; apply char_at_app_end).
    rewrite do_while_S, split_body_plus by exact Ep.
    cbn [sp_reader]. rewrite set_char_append.
    destruct a as [|a0 a'].
    + assert (En : char_at ls (Z.of_nat (List.length pre) + 1) = NUL).
      { replace (Z.of_nat (List.length pre) + 1) with (Z.of_nat (List.length ls))
          by (rewrite E, length_app; cbn [List.length]; lia).
        apply char_at_end. }
      rewrite En.
      assert (Hlen : bound = Z.of_nat (List.length pre) + 1)
        by (rewrite Hb, E, length_app; cbn [List.length]; lia).
      destruct (Z.leb_spec (Z.of_nat (List.length pre) + 1 + 1) bound); [lia|].
      rewrite Hlen. reflexivity.
    + assert (En : char_at ls (Z.of_nat (List.length pre) + 1) = a0).
      { replace (Z.of_nat (List.length pre) + 1)
          with (Z.of_nat (List.length (pre ++ [ "+"%char ])))
          by (rewrite length_app; cbn [List.length]; lia).
        rewrite E. change (pre ++ "+"%char :: a0 :: a')
          with (pre ++ [ "+"%char ] ++ a0 :: a').
        rewrite app_assoc. apply char_at_app_end. }
      rewrite En. change (set_char [] 0 a0) with [a0].
      assert (Hlen : Z.of_nat (List.length pre) + 1 + 1 <= bound)
        by (rewrite Hb, E, length_app; cbn [List.length]; lia).
      destruct (Z.leb_spec (Z.of_nat (List.length pre) + 1 + 1) bound); [|lia].
      cbn [forallb] in Ha. apply andb_true_iff in Ha. destruct Ha as [_ Ha'].
      pose proof (split_second ls (pre ++ [NUL]) (pre ++ [ "+"%char ]) bound Hb
                               a' [a0] fuel) as H2.
      replace (Z.of_nat (List.length ((pre ++ [ "+"%char ]) ++ [a0])))
        with (Z.of_nat (List.length pre) + 1 + 1) in H2
        by (rewrite !length_app; cbn [List.length]; lia).
      change (Z.of_nat (List.length [a0])) with (0 + 1) in H2.
      rewrite H2.
      * cbn [app List.length]. f_equal; lia.
      * rewrite E, <- app_assoc. reflexivity.
      * exact Ha'.
      * cbn [List.length] in Hf. lia.
  - cbn [forallb] in Hr. apply andb_true_iff in Hr. destruct Hr as [Hc Hr].
    assert (Ec : char_at ls (Z.of_nat (List.length pre)) = c)
      by (rewrite E; apply char_at_app_end).
    rewrite do_while_S, split_body_copy by (rewrite Ec; apply is_digit_not_plus, Hc).
    rewrite Ec. cbn [sp_reader]. rewrite set_char_append.
    assert (Hlen : Z.of_nat (List.length pre) + 1 <= bound).
    { rewrite Hb, E, !length_app. cbn [List.length]. lia. }
    destruct (Z.leb_spec (Z.of_nat (List.length pre) + 1) bound); [|lia].
    replace (Z.of_nat (List.length pre) + 1) with (Z.of_nat (List.length (pre ++ [c])))
      by (rewrite length_app; cbn [List.length]; lia).
    rewrite (IH (pre ++ [c]) fuel).
    + rewrite <- !app_assoc. reflexivity.
    + rewrite E, <- !app_assoc. reflexivity.
    + exact Hr.
    + cbn [List.length] in Hf. lia.
Qed.

(** The loop of [eanx] splits the input at its [+]. *)
Lemma split_parts_addon (p a : list ascii) :
  forallb is_digit p = true -> forallb is_digit a = true ->
  sp_first_part (split_parts (p ++ "+"%char :: a)) = p ++ [NUL]
  /\ sp_second_part (split_parts (p ++ "+"%char :: a)) = a ++ [NUL].
Proof.
  intros Hp Ha. unfold split_parts.
  assert (Hl : ustrlen (p ++ "+"%char :: a) = Z.of_nat (List.length (p ++ "+"%char :: a))).
  { unfold ustrlen. rewrite (cstring_sodium _ (sodium_with_addon p a Hp Ha)). reflexivity. }
  rewrite Hl.
  pose proof (split_first (p ++ "+"%char :: a) a _ eq_refl Ha p []
                (Z.to_nat (Z.of_nat (List.length (p ++ "+"%char :: a)) + 1))
                eq_refl Hp) as H.
  cbn [List.length app] in H. change (Z.of_nat 0) with 0 in H.
  rewrite H; [split; reflexivity|].
  rewrite length_app. cbn [List.length]. lia.
Qed.

Lemma for_up_ext {St : Type} (body body' : Z -> St -> St) (n : nat) :
  (forall k st, body k st = body' k st) ->
  forall i st, for_up n i body st = for_up n i body' st.
Proof.
  intros H. induction n as [|n IH]; intros i st; [reflexivity|].
  cbn [for_up]. rewrite H. apply IH.
Qed.

Lemma copy_loop_shift (front s : list ascii) (off : Z) :
  off = Z.of_nat (List.length front) ->
  forall pre post,
    for_up (List.length s) (Z.of_nat (List.length pre))
           (fun i part => set_char part i (char_at (front ++ pre ++ s ++ post) (i + off)))
           pre
    = pre ++ s.
Proof.
  intros ->. induction s as [|c s IH]; intros pre post; [symmetry; apply app_nil_r|].
  cbn [List.length for_up].
  assert (E : char_at (front ++ pre ++ (c :: s) ++ post)
                      (Z.of_nat (List.length pre) + Z.of_nat (List.length front)) = c).
  { replace (Z.of_nat (List.length pre) + Z.of_nat (List.length front))
      with (Z.of_nat (List.length (front ++ pre))) by (rewrite length_app; lia).
    rewrite app_assoc. apply char_at_app_end. }
  rewrite E, set_char_append.
  replace (Z.of_nat (List.length pre) + 1) with (Z.of_nat (List.length (pre ++ [c])))
    by (rewrite length_app; cbn [List.length]; lia).
  replace (front ++ pre ++ (c :: s) ++ post) with (front ++ (pre ++ [c]) ++ s ++ post)
    by (rewrite <- !app_assoc; reflexivity).
  rewrite IH, <- app_assoc. reflexivity.
Qed.

Lemma padded_part (source : list ascii) (k : Z) :
  forallb is_digit source = true ->
  ustrcat (for_range 0 k (fun _ z => ustrcat z (chars "0")) [NUL]) (source ++ [NUL])
  = repeat "0"%char (Z.to_nat k) ++ source.
Proof.
  intros Hd. rewrite <- (padded_string source k Hd). unfold ustrcat at 3.
  change (cstring []) with (@nil ascii). cbn [app]. unfold ustrcat.
  symmetry. apply cstring_app.
Qed.

(** The two parts of an input with an add-on get their leading zeroes. *)
Lemma ean_leading_zeroes_addon (symbol : zint_symbol) (p a : list ascii) :
  forallb is_digit p = true -> forallb is_digit a = true ->
  (List.length p <= 13)%nat -> (1 <= List.length a <= 5)%nat ->
  ean_leading_zeroes symbol (p ++ "+"%char :: a) []
  = let '(zfirst_len, zsecond_len) :=
      target_lengths symbol (Z.of_nat (List.length p)) (Z.of_nat (List.length a)) in
    Some ((repeat "0"%char (Z.to_nat (zfirst_len - Z.of_nat (List.length p))) ++ p)
          ++ "+"%char
          :: (repeat "0"%char (Z.to_nat (zsecond_len - Z.of_nat (List.length a))) ++ a),
          1).
Proof.
  intros Hp Ha Lp La. unfold ean_leading_zeroes.
  rewrite (part_lengths_addon p a Hp Ha).
  destruct (Z.gtb_spec (Z.of_nat (List.length p)) 13) as [G|_]; [lia|].
  destruct (Z.gtb_spec (Z.of_nat (List.length a)) 5) as [G|_]; [lia|].
  cbn [orb].
  assert (C1 : for_range 0 (Z.of_nat (List.length p))
                 (fun i part => set_char part i (char_at (p ++ "+"%char :: a) i)) []
               = p).
  { unfold for_range. rewrite Z.sub_0_r, Nat2Z.id.
    exact (copy_loop p [] ("+"%char :: a)). }
  assert (C2 : for_range 0 (Z.of_nat (List.length a))
                 (fun i part =>
                    set_char part i
                      (char_at (p ++ "+"%char :: a) (i + Z.of_nat (List.length p) + 1)))
                 []
               = a).
  { unfold for_range. rewrite Z.sub_0_r, Nat2Z.id.
    pose proof (copy_loop_shift (p ++ [ "+"%char ]) a (Z.of_nat (List.length p) + 1)
                  ltac:(rewrite length_app; cbn [List.length]; lia) [] []) as H.
    cbn [app List.length] in H. rewrite app_nil_r, <- app_assoc in H.
    cbn [app] in H. rewrite <- H at 2.
    apply for_up_ext. intros k st. rewrite <- Z.add_assoc. reflexivity. }
  rewrite C1, C2, !set_char_append.
  destruct (target_lengths symbol (Z.of_nat (List.length p)) (Z.of_nat (List.length a)))
    as [zfirst_len zsecond_len].
  change (set_char [] 0 NUL) with [NUL].
  rewrite (padded_string p _ Hp), (padded_part a _ Ha).
  assert (N : negb (Ascii.eqb (char_at (repeat "0"%char
                                          (Z.to_nat (zsecond_len - Z.of_nat (List.length a)))
                                        ++ a) 0) NUL) = true).
  { destruct (Z.to_nat (zsecond_len - Z.of_nat (List.length a))); [|reflexivity].
    destruct a as [|a0 a']; [cbn [List.length] in La; lia|].
    cbn [forallb] in Ha. apply andb_true_iff in Ha. destruct Ha as [Ha0 _].
    cbn [repeat app]. change (char_at (a0 :: a') 0) with a0.
    rewrite (is_digit_not_nul a0 Ha0). reflexivity. }
  rewrite N. unfold ustrcat.
  assert (D1 : forall k, cstring (repeat "0"%char k ++ p) = repeat "0"%char k ++ p).
  { intros k. apply cstring_digits, forallb_digit_app;
      [apply forallb_digit_repeat|exact Hp]. }
  assert (D2 : forall k, cstring (repeat "0"%char k ++ a) = repeat "0"%char k ++ a).
  { intros k. apply cstring_digits, forallb_digit_app;
      [apply forallb_digit_repeat|exact Ha]. }
  rewrite D1, D2. change (cstring (chars "+")) with [ "+"%char ].
  rewrite <- (D1 (Z.to_nat (zfirst_len - Z.of_nat (List.length p)))) at 1.
  rewrite (cstring_append _ [ "+"%char ]) by (try apply cstring_idem; reflexivity).
  rewrite D1, <- app_assoc. reflexivity.
Qed.

Lemma eanx_parts_addon (symbol : zint_symbol) (p a : list ascii) :
  forallb is_digit p = true -> forallb is_digit a = true ->
  (List.length p <= 13)%nat -> (1 <= List.length a <= 5)%nat ->
  eanx_parts symbol (p ++ "+"%char :: a) (Z.of_nat (List.length (p ++ "+"%char :: a)))
  = let '(zfirst_len, zsecond_len) :=
      target_lengths symbol (Z.of_nat (List.length p)) (Z.of_nat (List.length a)) in
    inr ((repeat "0"%char (Z.to_nat (zfirst_len - Z.of_nat (List.length p))) ++ p) ++ [NUL],
         (repeat "0"%char (Z.to_nat (zsecond_len - Z.of_nat (List.length a))) ++ a)
         ++ [NUL],
         eanx_addon_gap symbol).
Proof.
  intros Hp Ha Lp La.
  rewrite (eanx_parts_sane symbol _ (sodium_with_addon p a Hp Ha)).
  destruct (Z.gtb_spec (Z.of_nat (List.length (p ++ "+"%char :: a))) 19) as [G|_].
  { rewrite length_app in G. cbn [List.length] in G. lia. }
  rewrite (ean_leading_zeroes_addon symbol p a Hp Ha Lp La).
  destruct (target_lengths symbol (Z.of_nat (List.length p)) (Z.of_nat (List.length a)))
    as [zfirst_len zsecond_len].
  change (negb (1 =? 0)) with true. cbv iota zeta.
  destruct (split_parts_addon
              (repeat "0"%char (Z.to_nat (zfirst_len - Z.of_nat (List.length p))) ++ p)
              (repeat "0"%char (Z.to_nat (zsecond_len - Z.of_nat (List.length a))) ++ a))
    as [-> ->]; try reflexivity;
    apply forallb_digit_app; try apply forallb_digit_repeat; assumption.
Qed.

Lemma set_text_twice (s : zint_symbol) (t u : list ascii) :
  set_text (set_text s t) u = set_text s u.
Proof.
  reflexivity.
Qed.

(** [eanx_addon] on an add-on of 2 or 5 digits *)
Lemma eanx_addon_bars (symbol : zint_symbol) (t addon dest : list ascii) (gap : Z) :
  forallb is_digit t = true -> forallb is_digit addon = true ->
  List.length addon = 2%nat \/ List.length addon = 5%nat -> 7 <= gap <= 12 ->
  eanx_addon (set_text symbol t) (addon ++ [NUL]) dest gap
  = (0, set_text symbol (t ++ "+"%char :: addon),
     add_on_pattern dest gap
       (add_on_parity (addon ++ [NUL]) (Z.of_nat (List.length addon))) addon).
Proof.
  intros Ht Ha Hl Hgap. unfold eanx_addon.
  assert (Hn : ustrlen (addon ++ [NUL]) = Z.of_nat (List.length addon)).
  { unfold ustrlen. rewrite (cstring_digits_nul addon [] Ha). reflexivity. }
  rewrite Hn.
  assert (C : ((Z.of_nat (List.length addon) =? 0) = false)
              /\ ((Z.of_nat (List.length addon) =? 2)
                  || (Z.of_nat (List.length addon) =? 5)) = true).
  { destruct Hl as [-> | ->]; split; reflexivity. }
  destruct C as [-> ->].
  rewrite (add_on_bars addon [NUL] dest gap Ha (or_intror Hgap)).
  cbn [text set_text]. rewrite !set_text_twice. f_equal. f_equal. f_equal.
  unfold ustrcat. rewrite (cstring_digits t Ht), (cstring_digits_nul addon [] Ha).
  change (cstring (chars "+")) with [ "+"%char ].
  rewrite <- (cstring_digits t Ht) at 1.
  rewrite (cstring_append _ [ "+"%char ]) by (try apply cstring_idem; reflexivity).
  rewrite (cstring_digits t Ht), <- app_assoc. reflexivity.
Qed.

Lemma cstring_add_on_pattern (dest parity addon : list ascii) (gap : Z) :
  gap = 0 \/ 7 <= gap <= 12 ->
  cstring (add_on_pattern dest gap parity addon) = add_on_pattern dest gap parity addon.
Proof.
  intros Hgap. unfold add_on_pattern. apply cstring_append; [apply cstring_idem|].
  apply cstring_append.
  - destruct Hgap as [-> | Hgap]; [reflexivity|].
    destruct (gap =? 0); [reflexivity|]. cbn [cstring].
    rewrite (itoc_gap_not_nul gap Hgap). reflexivity.
  - apply cstring_append; [reflexivity|].
    apply cstring_bars_from, cstring_add_on_glyph.
Qed.

(** X12.  [eanx] on a UPC-A request with an add-on: up to 11 digits, [+]
    and 1 to 5 digits.  Both parts get zeroes in front, to 11 digits and to
    2 or 5; the text is the UPC-A number with its check digit, [+] and the
    add-on; the row holds the UPC-A symbol, the gap and the add-on, 20
    modules for 2 digits and 47 for 5. *)
Theorem eanx_upca_addon (symbol : zint_symbol) (p a : list ascii) :
  symbology symbol = BARCODE_UPCA ->
  forallb is_digit p = true -> forallb is_digit a = true ->
  (List.length p <= 11)%nat -> (1 <= List.length a <= 5)%nat ->
  let gtin := zero_padded 11 p in
  let addon := zero_padded (if (List.length a <=? 2)%nat then 2 else 5) a in
  exists s',
    eanx symbol (p ++ "+"%char :: a) (Z.of_nat (List.length (p ++ "+"%char :: a)))
    = (0, s')
    /\ text s' = gtin ++ [upc_check gtin 11] ++ "+"%char :: addon
    /\ width s'
       = Z.max (width symbol)
               (95 + eanx_addon_gap symbol + 9 * Z.of_nat (List.length addon) + 2)
    /\ rows s' = rows symbol + 1.
Proof.
  intros Hy Hp Ha Lp La gtin addon.
  assert (Hg : forallb is_digit gtin = true) by (apply zero_padded_digits, Hp).
  assert (Hn : List.length gtin = 11%nat) by (apply zero_padded_length, Lp).
  assert (Hd : forallb is_digit addon = true) by (apply zero_padded_digits, Ha).
  assert (Hm : List.length addon = 2%nat \/ List.length addon = 5%nat).
  { subst addon. destruct (Nat.leb_spec (List.length a) 2);
      [left|right]; apply zero_padded_length; lia. }
  assert (T : target_lengths symbol (Z.of_nat (List.length p)) (Z.of_nat (List.length a))
              = (11, Z.of_nat (if (List.length a <=? 2)%nat then 2 else 5)%nat)).
  { unfold target_lengths. rewrite Hy.
    destruct (Z.eqb_spec (Z.of_nat (List.length a)) 0); [lia|].
    destruct (Z.leb_spec (Z.of_nat (List.length a)) 5); [|lia].
    destruct (Z.leb_spec (Z.of_nat (List.length a)) 2);
      destruct (Nat.leb_spec (List.length a) 2); try lia; reflexivity. }
  pose proof (eanx_addon_gap_in_words symbol) as [_ Hgap].
  unfold eanx, eanx_linear.
  rewrite (eanx_parts_addon symbol p a Hp Ha) by lia. rewrite T.
  replace (Z.to_nat (11 - Z.of_nat (List.length p))) with (11 - List.length p)%nat by lia.
  replace (Z.to_nat (Z.of_nat (if (List.length a <=? 2)%nat then 2 else 5)%nat
                     - Z.of_nat (List.length a)))
    with ((if (List.length a <=? 2)%nat then 2 else 5) - List.length a)%nat by lia.
  fold (zero_padded 11 p). fold gtin.
  fold (zero_padded (if (List.length a <=? 2)%nat then 2 else 5) a). fold addon.
  unfold eanx_primary. rewrite Hy.
  assert (Hu : ustrlen (gtin ++ [NUL]) = 11).
  { unfold ustrlen. rewrite (cstring_digits_nul gtin [] Hg), Hn. reflexivity. }
  rewrite Hu. cbn [Z.eqb Pos.eqb orb].
  rewrite (upca_bars symbol (gtin ++ [NUL]) gtin [] (cstring_digits_nul gtin [] Hg) Hg Hn).
  change (0 >=? ZINT_ERROR) with false. cbv iota.
  assert (Hc : forallb is_digit (gtin ++ [upc_check gtin 11]) = true)
    by (apply forallb_digit_snoc, upc_check_digit; [exact Hg|exact Hg|lia]).
  rewrite (eanx_addon_bars symbol _ addon _ _ Hc Hd Hm Hgap).
  change (0 >=? ZINT_ERROR) with false. cbv iota. eexists. split; [reflexivity|].
  destruct (linear_symbol symbol ((gtin ++ [upc_check gtin 11]) ++ "+"%char :: addon)
              (add_on_pattern (upca_pattern [] (gtin ++ [upc_check gtin 11]))
                 (eanx_addon_gap symbol)
                 (add_on_parity (addon ++ [NUL]) (Z.of_nat (List.length addon))) addon))
    as (Ht & Hw & Hr).
  - rewrite Hy. reflexivity.
  - apply cstring_add_on_pattern. right. exact Hgap.
  - rewrite Ht, Hw, Hr. split; [rewrite <- app_assoc; reflexivity|]. split; [|reflexivity].
    rewrite (modules_add_on_pattern _ addon [NUL] _ Hd Hm (or_intror Hgap)).
    rewrite cstring_upca_pattern, modules_upca_pattern.
    + rewrite length_app, Hn. cbn [List.length]. f_equal.
    + exact Hc.
    + rewrite length_app, Hn. cbn. lia.
Qed.

Lemma eanx_upca_addon_witness :
  exists s',
    eanx (new_symbol BARCODE_UPCA) (chars "3600029145+12") 13 = (0, s')
    /\ text s' = chars "036000291452+12"
    /\ width s' = 124
    /\ rows s' = 1.
Proof.
  exact (eanx_upca_addon (new_symbol BARCODE_UPCA) (chars "3600029145") (chars "12")
                         eq_refl eq_refl eq_refl ltac:(simpl; lia) ltac:(simpl; lia)).
Defined.

(** ** Characters that are refused *)

Lemma is_sane_forallb (test source : list ascii) :
  is_sane test source (Z.of_nat (List.length source))
  = if forallb (fun c => existsb (Ascii.eqb c) (cstring test)) source
    then 0 else ZINT_ERROR_INVALID_DATA.
Proof.
  unfold is_sane.
  rewrite (for_range_chars
             (fun c r => if r =? 0
                         then if existsb (Ascii.eqb c) (cstring test)
                              then 0 else ZINT_ERROR_INVALID_DATA
                         else r)).
  assert (Sticky : forall s,
             fold_left (fun (st : Z) (c : ascii) =>
                          if st =? 0
                          then if existsb (Ascii.eqb c) (cstring test)
                               then 0 else ZINT_ERROR_INVALID_DATA
                          else st) s ZINT_ERROR_INVALID_DATA
             = ZINT_ERROR_INVALID_DATA).
  { induction s as [|c s IH]; [reflexivity|]. cbn [fold_left]. exact IH. }
  induction source as [|c s IH]; [reflexivity|].
  cbn [fold_left forallb Z.eqb].
  destruct (existsb (Ascii.eqb c) (cstring test)); cbn [andb]; [exact IH|apply Sticky].
Qed.

Lemma forallb_pointwise (f g : ascii -> bool) (s : list ascii) :
  (forall c, f c = g c) -> forallb f s = forallb g s.
Proof.
  intros H. induction s as [|c s IH]; [reflexivity|]. cbn [forallb]. rewrite H, IH.
  reflexivity.
Qed.

Lemma existsb_sodium (c : ascii) :
  existsb (Ascii.eqb c) (chars "0123456789+") = is_sodium c.
Proof.
  destruct (is_sodium c) eqn:H.
  - apply sodium_in; [intros d Hd; exact Hd|exact H].
  - destruct (existsb (Ascii.eqb c) (chars "0123456789+")) eqn:E; [|reflexivity].
    apply existsb_exists in E. destruct E as [d [Hd E]]. apply Ascii.eqb_eq in E.
    subst d. cbn [chars list_ascii_of_string In] in Hd.
    repeat (destruct Hd as [<-|Hd]; [discriminate H|]). contradiction.
Qed.

Lemma existsb_sodium_x (c : ascii) :
  existsb (Ascii.eqb c) (chars "0123456789Xx+")
  = is_sodium c || Ascii.eqb c "X" || Ascii.eqb c "x".
Proof.
  destruct (is_sodium c) eqn:H.
  - apply sodium_in; [|exact H]. intros d Hd. cbn in Hd |- *. tauto.
  - cbn [orb].
    destruct (Ascii.eqb_spec c "X") as [->|HX]; [reflexivity|].
    destruct (Ascii.eqb_spec c "x") as [->|Hx]; [reflexivity|].
    cbn [orb].
    destruct (existsb (Ascii.eqb c) (chars "0123456789Xx+")) eqn:E; [|reflexivity].
    apply existsb_exists in E. destruct E as [d [Hd E]]. apply Ascii.eqb_eq in E.
    subst d. cbn [chars list_ascii_of_string In] in Hd.
    repeat (destruct Hd as [<-|Hd]; [try discriminate H; congruence|]). contradiction.
Qed.

(** X13.  [eanx] refuses an input of at most 19 characters that holds a
    character other than a digit and [+], and for ISBN other than a digit,
    [+], [X] and [x]: the result is [ZINT_ERROR_INVALID_DATA], with the
    error text 284, and 285 for ISBN, and nothing else of the symbol
    changes. *)
Theorem eanx_invalid_characters (symbol : zint_symbol) (source : list ascii) :
  (List.length source <= 19)%nat ->
  (symbology symbol <> BARCODE_ISBNX -> forallb is_sodium source = false ->
   eanx symbol source (Z.of_nat (List.length source))
   = (ZINT_ERROR_INVALID_DATA, set_errtxt symbol "284: Invalid characters in data"))
  /\ (symbology symbol = BARCODE_ISBNX ->
      forallb (fun c => is_sodium c || Ascii.eqb c "X" || Ascii.eqb c "x") source = false ->
      eanx symbol source (Z.of_nat (List.length source))
      = (ZINT_ERROR_INVALID_DATA, set_errtxt symbol "285: Invalid characters in input")).
Proof.
  intros Hl.
  destruct (Z.gtb_spec (Z.of_nat (List.length source)) 19) as [G|_]; [lia|].
  split; intros Hy Hbad; apply eanx_result_of_parts; try (cbv; discriminate);
    unfold eanx_parts;
    destruct (Z.gtb_spec (Z.of_nat (List.length source)) 19) as [G|_]; try lia.
  - assert (B : symbology_t_beq (symbology symbol) BARCODE_ISBNX = false)
      by (destruct (symbology symbol); try reflexivity; contradiction).
    rewrite B. cbn [negb fst]. rewrite is_sane_forallb.
    change (cstring (chars "0123456789+")) with (chars "0123456789+").
    rewrite (forallb_pointwise _ is_sodium source existsb_sodium), Hbad. reflexivity.
  - rewrite Hy. cbn [symbology_t_beq negb fst]. rewrite is_sane_forallb.
    change (cstring (chars "0123456789Xx+")) with (chars "0123456789Xx+").
    rewrite (forallb_pointwise _ _ source existsb_sodium_x), Hbad. reflexivity.
Qed.

Lemma eanx_invalid_characters_witness :
  eanx (new_symbol BARCODE_EANX) (chars "12345X7") 7
  = (ZINT_ERROR_INVALID_DATA,
     set_errtxt (new_symbol BARCODE_EANX) "284: Invalid characters in data").
Proof.
  exact (proj1 (eanx_invalid_characters (new_symbol BARCODE_EANX) (chars "12345X7")
                                        ltac:(simpl; lia))
               ltac:(discriminate) eq_refl).
Defined.

(** ** ISBN *)

Lemma to_upper_fixed (s : list ascii) :
  forallb (fun c => is_digit c || Ascii.eqb c "X") s = true -> to_upper s = s.
Proof.
  intros H. unfold to_upper. induction s as [|c s IH]; [reflexivity|].
  cbn [forallb] in H. apply andb_true_iff in H. destruct H as [Hc Hs].
  cbn [map]. rewrite (IH Hs). f_equal.
  apply orb_true_iff in Hc. destruct Hc as [Hc|Hc].
  - apply is_digit_range in Hc.
    destruct (Z.leb_spec 97 (code_of c)); [lia|]. reflexivity.
  - apply Ascii.eqb_eq in Hc. subst c. reflexivity.
Qed.

Lemma isbn_sane (source : list ascii) (n : Z) :
  n = Z.of_nat (List.length source) ->
  forallb (fun c => is_digit c || Ascii.eqb c "X") source = true ->
  is_sane (chars "0123456789X") source n = 0.
Proof.
  intros -> H. rewrite is_sane_forallb.
  change (cstring (chars "0123456789X")) with (chars "0123456789X").
  rewrite (forallb_pointwise _ (fun c => is_digit c || Ascii.eqb c "X") source), H;
    [reflexivity|].
  intros c. destruct (is_digit c) eqn:Hd.
  - apply existsb_exists. exists c. split; [|apply Ascii.eqb_refl].
    apply digit_cases in Hd. cbn in Hd |- *. tauto.
  - cbn [orb]. destruct (Ascii.eqb_spec c "X") as [->|HX]; [reflexivity|].
    destruct (existsb (Ascii.eqb c) (chars "0123456789X")) eqn:E; [|reflexivity].
    apply existsb_exists in E. destruct E as [d [Hin E]]. apply Ascii.eqb_eq in E.
    subst d. cbn [chars list_ascii_of_string In] in Hin.
    repeat (destruct Hin as [<-|Hin]; [try discriminate Hd; congruence|]). contradiction.
Qed.

Lemma isbn_check_reads (s s' : list ascii) (n : Z) :
  (forall k, 0 <= k < n -> char_at s k = char_at s' k) ->
  isbn_check s n = isbn_check s' n.
Proof.
  intros H. unfold isbn_check, for_range.
  rewrite (for_up_weighted (fun i => ctoi (char_at s i))).
  rewrite (for_up_weighted (fun i => ctoi (char_at s' i))).
  rewrite (sum_from_ext _ (fun i => ctoi (char_at s' i) * (1 + (i - 0)))); [reflexivity|].
  intros k Hk. rewrite H by lia. reflexivity.
Qed.

(** The check character of nine digits is a digit or [X]. *)
Lemma isbn_check_char (s : list ascii) :
  digits_upto s 9 ->
  is_digit (isbn_check s 9) || Ascii.eqb (isbn_check s 9) "X" = true.
Proof.
  intros Hs. destruct (isbn_check_mod11 s Hs) as [-> R].
  destruct (Z.eqb_spec (isbn_sum s mod 11) 10); [reflexivity|].
  rewrite is_digit_digit_char by lia. reflexivity.
Qed.

(** [ean13] on 12 characters reads the string in [source] alone. *)
Lemma ean13_of_string (symbol : zint_symbol) (source source' dest : list ascii) :
  cstring source = cstring source' ->
  ean13 symbol source 12 dest = ean13 symbol source' 12 dest.
Proof.
  intros E. unfold ean13, ustrcpy. rewrite E. reflexivity.
Qed.

Lemma isbn10_shift (s0 s1 s2 s3 s4 s5 s6 s7 s8 c : ascii) :
  set_char
    (set_char
       (set_char
          (set_char
             (for_down 9 11 (fun i source => set_char source i (char_at source (i - 3)))
                       [s0; s1; s2; s3; s4; s5; s6; s7; s8; c])
             0 "9") 1 "7") 2 "8") 12 NUL
  = chars "978" ++ [s0; s1; s2; s3; s4; s5; s6; s7; s8] ++ [NUL].
Proof.
  reflexivity.
Qed.

Lemma sbn_shift (s0 s1 s2 s3 s4 s5 s6 s7 c : ascii) :
  set_char
    (for_down 10 10 (fun i source => set_char source i (char_at source (i - 1)))
              [s0; s1; s2; s3; s4; s5; s6; s7; c])
    0 "0"
  = "0"%char :: [s0; s1; s2; s3; s4; s5; s6; s7; c] ++ [NUL].
Proof.
  reflexivity.
Qed.

(** [isbn] on ten characters: nine digits and their check character *)
Lemma isbn10_bars (symbol : zint_symbol) (s dest : list ascii) :
  forallb is_digit s = true -> List.length s = 9%nat ->
  isbn symbol (s ++ [isbn_check s 9]) 10 dest = ean13 symbol (chars "978" ++ s) 12 dest.
Proof.
  intros Hs Hl.
  pose proof (isbn_check_char s (digits_upto_all s 9 Hs ltac:(lia))) as Hc.
  assert (Hr : isbn_check (s ++ [isbn_check s 9]) 9 = isbn_check s 9).
  { apply isbn_check_reads. intros k Hk. apply char_at_app_left. lia. }
  assert (H9 : char_at (s ++ [isbn_check s 9]) 9 = isbn_check s 9).
  { change 9 with (Z.of_nat 9). rewrite <- Hl. apply char_at_app_end. }
  revert Hc Hr H9. generalize (isbn_check s 9). intros c Hc Hr H9.
  assert (Hall : forallb (fun c => is_digit c || Ascii.eqb c "X") (s ++ [c]) = true).
  { rewrite forallb_app. apply andb_true_iff. split.
    - apply forallb_forall. intros x Hx. rewrite forallb_forall in Hs.
      rewrite (Hs x Hx). reflexivity.
    - cbn [forallb]. rewrite Hc. reflexivity. }
  unfold isbn. cbv zeta. rewrite (to_upper_fixed _ Hall).
  rewrite (isbn_sane (s ++ [c]) 10) by
    (try exact Hall; rewrite length_app, Hl; reflexivity).
  change (0 =? ZINT_ERROR_INVALID_DATA) with false.
  cbn [Z.eqb Pos.eqb negb andb orb]. cbv iota.
  rewrite Hr, H9, Ascii.eqb_refl. cbn [negb].
  do 10 (destruct s as [|? s]; try discriminate Hl).
  cbn [app]. rewrite isbn10_shift. apply ean13_of_string.
  rewrite app_assoc. rewrite !cstring_digits_nul, cstring_digits; try reflexivity;
    cbn [app forallb]; exact Hs.
Qed.

(** [isbn] on nine characters, an SBN: eight digits and the check character
    of the SBN with a zero in front *)
Lemma sbn_bars (symbol : zint_symbol) (s dest : list ascii) :
  forallb is_digit s = true -> List.length s = 8%nat ->
  isbn symbol (s ++ [isbn_check ("0"%char :: s) 9]) 9 dest
  = ean13 symbol (chars "9780" ++ s) 12 dest.
Proof.
  intros Hs Hl.
  assert (H0 : forallb is_digit ("0"%char :: s) = true) by exact Hs.
  pose proof (isbn_check_char _ (digits_upto_all _ 9 H0 ltac:(cbn [List.length]; lia)))
    as Hc.
  assert (Hr : forall t, isbn_check (("0"%char :: s) ++ t) 9 = isbn_check ("0"%char :: s) 9).
  { intros t. apply isbn_check_reads. intros k Hk. apply char_at_app_left.
    cbn [List.length]. lia. }
  revert Hc Hr. generalize (isbn_check ("0"%char :: s) 9). intros c Hc Hr.
  assert (Hall : forallb (fun c => is_digit c || Ascii.eqb c "X") (s ++ [c]) = true).
  { rewrite forallb_app. apply andb_true_iff. split.
    - apply forallb_forall. intros x Hx. rewrite forallb_forall in Hs.
      rewrite (Hs x Hx). reflexivity.
    - cbn [forallb]. rewrite Hc. reflexivity. }
  unfold isbn. cbv zeta. rewrite (to_upper_fixed _ Hall).
  rewrite (isbn_sane (s ++ [c]) 9) by
    (try exact Hall; rewrite length_app, Hl; reflexivity).
  change (0 =? ZINT_ERROR_INVALID_DATA) with false.
  cbn [Z.eqb Pos.eqb negb andb orb]. cbv iota.
  do 9 (destruct s as [|? s]; try discriminate Hl).
  cbn [app]. rewrite sbn_shift.
  specialize (Hr [c; NUL]). cbn [app] in Hr |- *. rewrite Hr.
  change (char_at [ "0"%char; a; a0; a1; a2; a3; a4; a5; a6; c; NUL] 9) with c.
  rewrite Ascii.eqb_refl. cbn [negb].
  apply ean13_of_string.
  change (cstring (set_char (set_char (set_char (set_char
            (for_down 9 11 (fun i source => set_char source i (char_at source (i - 3)))
                      [ "0"%char; a; a0; a1; a2; a3; a4; a5; a6; c; NUL])
            0 "9") 1 "7") 2 "8") 12 NUL)
          = cstring (chars "9780" ++ [a; a0; a1; a2; a3; a4; a5; a6]))
    with (cstring ((chars "9780" ++ [a; a0; a1; a2; a3; a4; a5; a6]) ++ [NUL])
          = cstring (chars "9780" ++ [a; a0; a1; a2; a3; a4; a5; a6])).
  rewrite cstring_digits_nul, cstring_digits; try reflexivity; exact Hs.
Qed.

(** [isbn] on 13 characters: twelve digits from 978 or 979 on and their
    check digit *)
Lemma isbn13_bars (symbol : zint_symbol) (s dest : list ascii) :
  forallb is_digit s = true -> List.length s = 12%nat ->
  firstn 3 s = chars "978" \/ firstn 3 s = chars "979" ->
  isbn symbol (s ++ [ean_check s 12]) 13 dest = ean13 symbol s 12 dest.
Proof.
  intros Hs Hl Hp.
  pose proof (ean_check_digit s 12 Hs ltac:(lia)) as Hc.
  assert (Hr : ean_check (s ++ [ean_check s 12]) 12 = ean_check s 12)
    by (apply (check_reads_snoc ean_check s _ 12 (fun a b => ean_check_reads a b 12)); lia).
  revert Hc Hr. generalize (ean_check s 12). intros c Hc Hr.
  assert (Hd : forallb is_digit (s ++ [c]) = true) by (apply forallb_digit_snoc; assumption).
  assert (Hall : forallb (fun c => is_digit c || Ascii.eqb c "X") (s ++ [c]) = true).
  { apply forallb_forall. intros x Hx. rewrite forallb_forall in Hd.
    rewrite (Hd x Hx). reflexivity. }
  unfold isbn. cbv zeta. rewrite (to_upper_fixed _ Hall).
  rewrite (isbn_sane (s ++ [c]) 13) by
    (try exact Hall; rewrite length_app, Hl; reflexivity).
  change (0 =? ZINT_ERROR_INVALID_DATA) with false.
  cbn [Z.eqb Pos.eqb negb andb orb]. cbv iota.
  rewrite Hr.
  assert (H12 : char_at (s ++ [c]) (13 - 1) = c).
  { change (13 - 1) with (Z.of_nat 12). rewrite <- Hl. apply char_at_app_end. }
  rewrite H12, Ascii.eqb_refl. cbn [negb].
  assert (Hpre : (Ascii.eqb (char_at (s ++ [c]) 0) "9" && Ascii.eqb (char_at (s ++ [c]) 1) "7")
                 && (Ascii.eqb (char_at (s ++ [c]) 2) "8"
                     || Ascii.eqb (char_at (s ++ [c]) 2) "9") = true).
  { do 3 (destruct s as [|? s]; try discriminate Hl).
    destruct Hp as [Hp|Hp]; cbn [firstn chars list_ascii_of_string] in Hp;
      injection Hp as -> -> ->; reflexivity. }
  rewrite Hpre. cbn [negb].
  replace (set_char (s ++ [c]) 12 NUL) with (s ++ [NUL]).
  - apply ean13_of_string. rewrite (cstring_digits_nul s [] Hs), (cstring_digits s Hs).
    reflexivity.
  - change 12 with (Z.of_nat 12). rewrite <- Hl. unfold set_char.
    rewrite Nat2Z.id, length_app. cbn [List.length].
    destruct (Nat.ltb_spec (List.length s) (List.length s + 1)); [|lia].
    rewrite firstn_app, firstn_all, Nat.sub_diag. cbn [firstn].
    rewrite app_nil_r. f_equal.
    replace (S (List.length s)) with (List.length (s ++ [c]))
      by (rewrite length_app; cbn [List.length]; lia).
    rewrite skipn_all. reflexivity.
Qed.

(** X14.  [isbn] encodes an ISBN-10 as the EAN-13 number of 978 and its
    first nine digits, an SBN as the ISBN-10 with a zero in front of it, and
    an ISBN-13 as the EAN-13 number of its first twelve digits; the check
    character has to be the one [isbn_check], or [ean_check] for ISBN-13,
    computes. *)
Theorem isbn_as_ean13 (symbol : zint_symbol) (s dest : list ascii) :
  forallb is_digit s = true ->
  (List.length s = 9%nat ->
   isbn symbol (s ++ [isbn_check s 9]) 10 dest = ean13 symbol (chars "978" ++ s) 12 dest)
  /\ (List.length s = 8%nat ->
      isbn symbol (s ++ [isbn_check ("0"%char :: s) 9]) 9 dest
      = ean13 symbol (chars "9780" ++ s) 12 dest)
  /\ (List.length s = 12%nat ->
      firstn 3 s = chars "978" \/ firstn 3 s = chars "979" ->
      isbn symbol (s ++ [ean_check s 12]) 13 dest = ean13 symbol s 12 dest).
Proof.
  intros Hs. split; [|split].
  - apply isbn10_bars, Hs.
  - apply sbn_bars, Hs.
  - apply isbn13_bars, Hs.
Qed.

Lemma isbn_as_ean13_witness :
  isbn (new_symbol BARCODE_ISBNX) (chars "080442957X") 10 []
  = ean13 (new_symbol BARCODE_ISBNX) (chars "978080442957") 12 [].
Proof.
  exact (proj1 (isbn_as_ean13 (new_symbol BARCODE_ISBNX) (chars "080442957") [] eq_refl)
               eq_refl).
Defined.

(** ** An add-on on its own *)

(** X15.  [eanx] on an EAN request of at most five digits makes an add-on
    symbol on its own, with no gap: the digits get zeroes in front to make
    2 or 5, they are the text, and the row is 20 or 47 modules wide. *)
Theorem eanx_addon_alone (symbol : zint_symbol) (source : list ascii) :
  symbology symbol = BARCODE_EANX ->
  forallb is_digit source = true -> (List.length source <= 5)%nat ->
  let addon := zero_padded (if (List.length source <=? 2)%nat then 2 else 5) source in
  exists s',
    eanx symbol source (Z.of_nat (List.length source)) = (0, s')
    /\ text s' = addon
    /\ width s' = Z.max (width symbol) (9 * Z.of_nat (List.length addon) + 2)
    /\ rows s' = rows symbol + 1.
Proof.
  intros Hy Hs Hl addon.
  set (n := if (List.length source <=? 2)%nat then 2%nat else 5%nat) in *.
  assert (Hd : forallb is_digit addon = true) by (apply zero_padded_digits, Hs).
  assert (Hm : List.length addon = 2%nat \/ List.length addon = 5%nat).
  { subst addon n. destruct (Nat.leb_spec (List.length source) 2);
      [left|right]; apply zero_padded_length; lia. }
  assert (T : fst (target_lengths symbol (Z.of_nat (List.length source)) 0) = Z.of_nat n).
  { unfold target_lengths. rewrite Hy. cbn [fst Z.eqb symbology_t_beq andb]. subst n.
    destruct (Z.leb_spec (Z.of_nat (List.length source)) 5); [|lia].
    destruct (Z.leb_spec (Z.of_nat (List.length source)) 2);
      destruct (Nat.leb_spec (List.length source) 2); try lia; reflexivity. }
  rewrite (eanx_digits symbol source n Hs ltac:(lia) T). fold addon.
  unfold eanx_primary. rewrite Hy, (ustrlen_digits addon Hd).
  assert (C : ((Z.of_nat (List.length addon) =? 2)
               || (Z.of_nat (List.length addon) =? 5)) = true)
    by (destruct Hm as [-> | ->]; reflexivity).
  rewrite C. change (0 >=? ZINT_ERROR) with false. cbv iota.
  pose proof (add_on_bars addon [] [] 0 Hd (or_introl eq_refl)) as HA.
  rewrite app_nil_r in HA. rewrite HA. unfold ustrcpy. rewrite (cstring_digits addon Hd).
  eexists. split; [reflexivity|].
  destruct (linear_symbol symbol addon
              (add_on_pattern [] 0 (add_on_parity addon (Z.of_nat (List.length addon)))
                              addon))
    as (Ht & Hw & Hr).
  - rewrite Hy. reflexivity.
  - apply cstring_add_on_pattern. left. reflexivity.
  - rewrite Ht, Hw, Hr. split; [reflexivity|]. split; [|reflexivity].
    pose proof (modules_add_on_pattern [] addon [] 0 Hd Hm (or_introl eq_refl)) as HM.
    rewrite app_nil_r in HM. rewrite HM. f_equal.
Qed.

Lemma eanx_addon_alone_witness :
  exists s',
    eanx (new_symbol BARCODE_EANX) (chars "123") 3 = (0, s')
    /\ text s' = chars "00123"
    /\ width s' = 47
    /\ rows s' = 1.
Proof.
  exact (eanx_addon_alone (new_symbol BARCODE_EANX) (chars "123") eq_refl eq_refl
                          ltac:(simpl; lia)).
Defined.

(** ** What ISBN refuses *)

(** X16.  What [isbn] refuses, on digits and [X]: a length other than 9, 10
    and 13; 13 characters that do not start with 978 or 979, or whose last
    is not the EAN check digit of the others; 10 characters whose last is
    not the ISBN check character of the others; 9 characters, an SBN, whose
    last is not the check character of the SBN with a zero in front.
    [dest] is left as it was. *)
Theorem isbn_refusals (symbol : zint_symbol) (source dest : list ascii) :
  forallb (fun c => is_digit c || Ascii.eqb c "X") source = true ->
  let n := Z.of_nat (List.length source) in
  (n <> 9 -> n <> 10 -> n <> 13 ->
   isbn symbol source n dest
   = (ZINT_ERROR_TOO_LONG, set_errtxt symbol "278: Input wrong length", dest))
  /\ (n = 13 -> firstn 3 source <> chars "978" -> firstn 3 source <> chars "979" ->
      isbn symbol source n dest
      = (ZINT_ERROR_INVALID_DATA, set_errtxt symbol "279: Invalid ISBN", dest))
  /\ (n = 13 -> firstn 3 source = chars "978" \/ firstn 3 source = chars "979" ->
      char_at source 12 <> ean_check source 12 ->
      isbn symbol source n dest
      = (ZINT_ERROR_INVALID_CHECK, set_errtxt symbol "280: Incorrect ISBN check", dest))
  /\ (n = 10 -> char_at source 9 <> isbn_check source 9 ->
      isbn symbol source n dest
      = (ZINT_ERROR_INVALID_CHECK, set_errtxt symbol "281: Incorrect ISBN check", dest))
  /\ (n = 9 -> char_at source 8 <> isbn_check ("0"%char :: source) 9 ->
      isbn symbol source n dest
      = (ZINT_ERROR_INVALID_CHECK, set_errtxt symbol "281: Incorrect SBN check", dest)).
Proof.
  intros Hall n.
  assert (Start : forall k, n = k ->
            to_upper source = source /\ is_sane (chars "0123456789X") source k = 0).
  { intros k <-. split; [apply to_upper_fixed, Hall|apply isbn_sane; [reflexivity|exact Hall]]. }
  split; [|split; [|split; [|split]]].
  - intros H9 H10 H13. destruct (Start n eq_refl) as [U S].
    unfold isbn. cbv zeta. rewrite U, S.
    change (0 =? ZINT_ERROR_INVALID_DATA) with false. cbv iota.
    destruct (Z.eqb_spec n 9); [lia|]. destruct (Z.eqb_spec n 10); [lia|].
    destruct (Z.eqb_spec n 13); [lia|]. reflexivity.
  - intros E H8 H9. rewrite E. destruct (Start 13 E) as [U S].
    unfold isbn. cbv zeta. rewrite U, S.
    change (0 =? ZINT_ERROR_INVALID_DATA) with false. cbn [Z.eqb Pos.eqb negb andb].
    assert (L : List.length source = 13%nat) by lia.
    do 3 (destruct source as [|? source]; try discriminate L).
    cbn [firstn] in H8, H9.
    change (char_at (a :: a0 :: a1 :: source) 0) with a.
    change (char_at (a :: a0 :: a1 :: source) 1) with a0.
    change (char_at (a :: a0 :: a1 :: source) 2) with a1.
    destruct (Ascii.eqb_spec a "9") as [->|]; [|reflexivity].
    destruct (Ascii.eqb_spec a0 "7") as [->|]; [|reflexivity].
    destruct (Ascii.eqb_spec a1 "8") as [->|]; [contradiction H8; reflexivity|].
    destruct (Ascii.eqb_spec a1 "9") as [->|]; [contradiction H9; reflexivity|].
    reflexivity.
  - intros E Hp Hc. rewrite E. destruct (Start 13 E) as [U S].
    unfold isbn. cbv zeta. rewrite U, S.
    change (0 =? ZINT_ERROR_INVALID_DATA) with false. cbn [Z.eqb Pos.eqb negb andb].
    assert (L : List.length source = 13%nat) by lia.
    assert (Hpre : (Ascii.eqb (char_at source 0) "9" && Ascii.eqb (char_at source 1) "7")
                   && (Ascii.eqb (char_at source 2) "8"
                       || Ascii.eqb (char_at source 2) "9") = true).
    { do 3 (destruct source as [|? source]; try discriminate L).
      destruct Hp as [Hp|Hp]; cbn [firstn chars list_ascii_of_string] in Hp;
        injection Hp as -> -> ->; reflexivity. }
    rewrite Hpre. cbn [negb]. change (13 - 1) with 12.
    rewrite (eqb_neq _ _ Hc). reflexivity.
  - intros E Hc. rewrite E. destruct (Start 10 E) as [U S].
    unfold isbn. cbv zeta. rewrite U, S.
    change (0 =? ZINT_ERROR_INVALID_DATA) with false. cbn [Z.eqb Pos.eqb negb andb orb].
    rewrite (eqb_neq (isbn_check source 9) (char_at source 9)) by congruence.
    reflexivity.
  - intros E Hc. rewrite E. destruct (Start 9 E) as [U S].
    unfold isbn. cbv zeta. rewrite U, S.
    change (0 =? ZINT_ERROR_INVALID_DATA) with false. cbn [Z.eqb Pos.eqb negb andb orb].
    assert (L : List.length source = 9%nat) by lia.
    do 10 (destruct source as [|? source]; try discriminate L).
    rewrite sbn_shift.
    assert (Hr : isbn_check ("0"%char :: [a; a0; a1; a2; a3; a4; a5; a6; a7] ++ [NUL]) 9
                 = isbn_check ("0"%char :: [a; a0; a1; a2; a3; a4; a5; a6; a7]) 9).
    { apply isbn_check_reads. intros k Hk.
      assert (K : k = 0 \/ k = 1 \/ k = 2 \/ k = 3 \/ k = 4 \/ k = 5 \/ k = 6 \/ k = 7
                  \/ k = 8) by lia.
      repeat (destruct K as [->|K]; [reflexivity|]). subst k. reflexivity. }
    rewrite Hr.
    change (char_at ("0"%char :: [a; a0; a1; a2; a3; a4; a5; a6; a7] ++ [NUL]) 9) with a7.
    change (char_at [a; a0; a1; a2; a3; a4; a5; a6; a7] 8) with a7 in Hc.
    rewrite (eqb_neq _ a7) by congruence. reflexivity.
Qed.

Lemma isbn_refusals_witness :
  isbn (new_symbol BARCODE_ISBNX) (chars "0804429571") 10 []
  = (ZINT_ERROR_INVALID_CHECK,
     set_errtxt (new_symbol BARCODE_ISBNX) "281: Incorrect ISBN check", []).
Proof.
  exact (proj1 (proj2 (proj2 (proj2 (isbn_refusals (new_symbol BARCODE_ISBNX)
                                       (chars "0804429571") [] eq_refl))))
               eq_refl ltac:(discriminate)).
Defined.

(** ** Lengths that are refused *)

Ltac case_cmp :=
  repeat match goal with
         | |- context [Z.eqb ?a ?b] => destruct (Z.eqb_spec a b); try lia
         | |- context [Z.leb ?a ?b] => destruct (Z.leb_spec a b); try lia
         | |- context [Z.geb ?a ?b] => destruct (Z.geb_spec a b); try lia
         end.

(** X17.  Digits that are too many for the symbology and still at most 13:
    [eanx] refuses 13 digits for UPC-A, 8 to 13 for UPC-E and 9 to 13 for
    UPC-E with a check digit, with [ZINT_ERROR_TOO_LONG] and the error text
    of the symbology. *)
Theorem eanx_wrong_length (symbol : zint_symbol) (source : list ascii) :
  forallb is_digit source = true ->
  let n := Z.of_nat (List.length source) in
  let refused msg := eanx symbol source n = (ZINT_ERROR_TOO_LONG, set_errtxt symbol msg) in
  (symbology symbol = BARCODE_UPCA \/ symbology symbol = BARCODE_UPCA_CHK ->
   n = 13 -> refused "288: Input wrong length"%string)
  /\ (symbology symbol = BARCODE_UPCA_CC -> n = 13 ->
      refused "289: Input wrong length"%string)
  /\ (symbology symbol = BARCODE_UPCE -> 8 <= n <= 13 ->
      refused "290: Input wrong length"%string)
  /\ (symbology symbol = BARCODE_UPCE_CHK -> 9 <= n <= 13 ->
      refused "290: Input wrong length"%string)
  /\ (symbology symbol = BARCODE_UPCE_CC -> 8 <= n <= 13 ->
      refused "291: Input wrong length"%string).
Proof.
  intros Hs n refused. subst refused. cbv beta.
  assert (Go : forall msg,
             fst (target_lengths symbol n 0) <= n -> n <= 13 ->
             eanx_primary symbol source [] = (ZINT_ERROR_TOO_LONG, set_errtxt symbol msg, []) ->
             eanx symbol source n = (ZINT_ERROR_TOO_LONG, set_errtxt symbol msg)).
  { intros msg Ht Hn Hp.
    apply (eanx_primary_error symbol source _ _ [] Hs ltac:(lia) Ht Hp).
    unfold ZINT_ERROR_TOO_LONG, ZINT_ERROR. lia. }
  pose proof (ustrlen_digits source Hs) as Hu. fold n in Hu.
  split; [|split; [|split; [|split]]].
  - intros [Hy|Hy] Hn; apply Go; try lia; unfold target_lengths, eanx_primary;
      rewrite Hy, ?Hu, ?Hn; cbn [fst]; try lia; reflexivity.
  - intros Hy Hn; apply Go; try lia; unfold target_lengths, eanx_primary;
      rewrite Hy, ?Hu, ?Hn; cbn [fst]; try lia; reflexivity.
  - intros Hy Hn; apply Go; try lia; unfold target_lengths, eanx_primary;
      rewrite Hy, ?Hu; cbn [fst symbology_t_beq]; case_cmp; reflexivity.
  - intros Hy Hn; apply Go; try lia; unfold target_lengths, eanx_primary;
      rewrite Hy, ?Hu; cbn [fst symbology_t_beq]; case_cmp; reflexivity.
  - intros Hy Hn; apply Go; try lia; unfold target_lengths, eanx_primary;
      rewrite Hy, ?Hu; cbn [fst symbology_t_beq]; case_cmp; reflexivity.
Qed.

Lemma eanx_wrong_length_witness :
  eanx (new_symbol BARCODE_UPCE) (chars "12345678") 8
  = (ZINT_ERROR_TOO_LONG, set_errtxt (new_symbol BARCODE_UPCE) "290: Input wrong length").
Proof.
  exact (proj1 (proj2 (proj2 (eanx_wrong_length (new_symbol BARCODE_UPCE)
                                (chars "12345678") eq_refl)))
               eq_refl ltac:(simpl; lia)).
Defined.

(** ** UPC-E with its check digit *)

Lemma bars_from_app (glyph : Z -> ascii -> list ascii) (s t : list ascii) :
  forall i, bars_from glyph i (s ++ t)
            = bars_from glyph i s ++ bars_from glyph (i + Z.of_nat (List.length s)) t.
Proof.
  induction s as [|c s IH]; intros i.
  - cbn [app bars_from List.length]. rewrite Z.add_0_r. reflexivity.
  - cbn [app bars_from List.length]. rewrite IH, <- app_assoc.
    replace (i + 1 + Z.of_nat (List.length s)) with (i + Z.of_nat (S (List.length s)))
      by lia.
    reflexivity.
Qed.

(** The parity of a UPC-E symbol has no seventh letter. *)
Lemma upce_parity_end (num_system : Z) (c x : ascii) :
  is_digit c = true -> parity_glyph (upce_parity num_system c) 6 x = [].
Proof.
  intros Hc. apply digit_cases in Hc. cbn [chars list_ascii_of_string In] in Hc.
  unfold upce_parity, parity_glyph. destruct (num_system =? 1);
    repeat (destruct Hc as [<-|Hc]; [reflexivity|]); contradiction.
Qed.

(** [upce] for [BARCODE_UPCE_CHK], on the six digits with the check digit
    and on these after the number system 0 *)
Lemma upce_bars_chk (symbol : zint_symbol) (source dest equivalent : list ascii) :
  symbology symbol = BARCODE_UPCE_CHK ->
  forallb is_digit source = true -> List.length source = 6%nat ->
  upce_equivalent 0 (chars "0") source = inr equivalent ->
  let chk := upc_check equivalent 11 in
  let result := (0, set_text symbol ("0"%char :: source ++ [chk]),
                 upce_pattern dest (upce_parity 0 chk) source) in
  upce symbol (source ++ [chk]) 7 dest = result
  /\ upce symbol ("0"%char :: source ++ [chk]) 8 dest = result.
Proof.
  intros Hy Hs Hl F chk result. subst result.
  destruct (upce_equivalent_digits (chars "0") _ equivalent
              (digits_upto_all _ 6 Hs ltac:(lia)) F) as [Hdig _].
  pose proof (upc_check_is_digit equivalent 11 Hdig) as Hchk. fold chk in Hchk.
  do 7 (destruct source as [|? source]; try discriminate Hl). clear Hl.
  set (six := [a; a0; a1; a2; a3; a4]) in *.
  assert (H7 : forallb is_digit (six ++ [chk]) = true)
    by (apply forallb_digit_snoc; assumption).
  assert (N7 : upce_number_system symbol (six ++ [chk]) 7
               = (0, "0"%char :: six ++ [chk], six ++ [chk], 7)).
  { unfold upce_number_system. rewrite Hy. cbn [symbology_t_beq negb andb orb Z.eqb Pos.eqb].
    unfold ustrncat. rewrite (cstring_digits _ H7). reflexivity. }
  assert (N8 : upce_number_system symbol ("0"%char :: six ++ [chk]) 8
               = (0, "0"%char :: six ++ [chk], six ++ [chk] ++ [NUL], 7)).
  { unfold upce_number_system. rewrite Hy. cbn [symbology_t_beq negb andb orb Z.eqb Pos.eqb].
    unfold ustrcpy. rewrite (cstring_digits ("0"%char :: six ++ [chk]) H7). reflexivity. }
  assert (R : forall post k, 0 <= k < 6 ->
                char_at ((six ++ [chk]) ++ post) k = char_at six k).
  { intros post k Hk.
    assert (K : k = 0 \/ k = 1 \/ k = 2 \/ k = 3 \/ k = 4 \/ k = 5) by lia.
    destruct K as [->|[->|[->|[->|[->| ->]]]]]; reflexivity. }
  assert (B : bars_from (parity_glyph (upce_parity 0 chk)) 0 (six ++ [chk])
              = bars_from (parity_glyph (upce_parity 0 chk)) 0 six).
  { rewrite bars_from_app. cbn [bars_from]. rewrite app_nil_r.
    change (0 + Z.of_nat (List.length six)) with 6.
    rewrite (upce_parity_end 0 chk chk Hchk). apply app_nil_r. }
  assert (Finish : forall post,
             upce_equivalent 0 ("0"%char :: six ++ [chk]) ((six ++ [chk]) ++ post)
             = inr equivalent
             /\ ustrcat
                  (for_range 0 7
                     (fun i dest =>
                        if Ascii.eqb (char_at (upce_parity 0 chk) i) "A"
                        then lookup NEON EANsetA (char_at ((six ++ [chk]) ++ post) i) dest
                        else if Ascii.eqb (char_at (upce_parity 0 chk) i) "B"
                        then lookup NEON EANsetB (char_at ((six ++ [chk]) ++ post) i) dest
                        else dest)
                     (ustrcat dest (chars "111")))
                  (chars "111111")
                = upce_pattern dest (upce_parity 0 chk) six).
  { intros post. split.
    - rewrite <- F. apply upce_equivalent_reads. apply R.
    - rewrite (parity_loop (upce_parity 0 chk) (six ++ [chk]) post
                           (ustrcat dest (chars "111")) 7 H7 (cstring_app _ _) eq_refl).
      rewrite B. unfold upce_pattern, ustrcat. rewrite cstring_append.
      + change (cstring (chars "111")) with (chars "111").
        change (cstring (chars "111111")) with (chars "111111").
        rewrite <- !app_assoc. reflexivity.
      + apply cstring_app.
      + apply cstring_bars_from, cstring_parity_glyph. }
  split.
  - destruct (Finish []) as [E P]. rewrite app_nil_r in E, P.
    unfold upce. rewrite N7, E, Hy. cbn [symbology_t_beq negb].
    fold chk. rewrite P.
    change (char_at ("0"%char :: six ++ [chk]) 7) with chk.
    rewrite Ascii.eqb_refl. cbn [negb]. unfold ustrcpy.
    rewrite (cstring_digits ("0"%char :: six ++ [chk]) H7). reflexivity.
  - destruct (Finish [NUL]) as [E P]. rewrite <- app_assoc in E, P.
    unfold upce. rewrite N8, E, Hy. cbn [symbology_t_beq negb].
    fold chk. rewrite P.
    change (char_at ("0"%char :: six ++ [chk]) 7) with chk.
    rewrite Ascii.eqb_refl. cbn [negb]. unfold ustrcpy.
    rewrite (cstring_digits ("0"%char :: six ++ [chk]) H7). reflexivity.
Qed.

(** X18.  The text of a UPC-E symbol made from six digits is [0], the
    digits and the check digit; given back to the symbology that takes the
    check digit, as it is or without the [0], it makes the same pattern and
    the same text. *)
Theorem upce_text_round_trip (symbol symbol' : zint_symbol) (source dest : list ascii) :
  symbology symbol <> BARCODE_UPCE_CHK -> symbology symbol' = BARCODE_UPCE_CHK ->
  forallb is_digit source = true -> List.length source = 6%nat ->
  upce_forbidden source = false ->
  exists t pattern,
    upce symbol source 6 dest = (0, set_text symbol t, pattern)
    /\ List.length t = 8%nat /\ tl (removelast t) = source
    /\ upce symbol' t 8 dest = (0, set_text symbol' t, pattern)
    /\ upce symbol' (tl t) 7 dest = (0, set_text symbol' t, pattern).
Proof.
  intros Hy Hy' Hs Hl Hf.
  pose proof (upce_equivalent_forbidden 0 (chars "0") source) as F. rewrite Hf in F.
  destruct F as [equivalent F].
  destruct (upce_bars_chk symbol' source dest equivalent Hy' Hs Hl F) as [H7 H8].
  exists ("0"%char :: source ++ [upc_check equivalent 11]).
  exists (upce_pattern dest (upce_parity 0 (upc_check equivalent 11)) source).
  split; [apply upce_bars; assumption|].
  split; [cbn [List.length]; rewrite length_app, Hl; reflexivity|].
  split.
  - change ("0"%char :: source ++ [upc_check equivalent 11])
      with (("0"%char :: source) ++ [upc_check equivalent 11]).
    rewrite removelast_last. reflexivity.
  - split; [exact H8|exact H7].
Qed.

Lemma upce_text_round_trip_witness :
  exists t pattern,
    upce (new_symbol BARCODE_UPCE) (chars "123456") 6 []
    = (0, set_text (new_symbol BARCODE_UPCE) t, pattern)
    /\ List.length t = 8%nat /\ tl (removelast t) = chars "123456"
    /\ upce (new_symbol BARCODE_UPCE_CHK) t 8 []
       = (0, set_text (new_symbol BARCODE_UPCE_CHK) t, pattern)
    /\ upce (new_symbol BARCODE_UPCE_CHK) (tl t) 7 []
       = (0, set_text (new_symbol BARCODE_UPCE_CHK) t, pattern).
Proof.
  exact (upce_text_round_trip (new_symbol BARCODE_UPCE) (new_symbol BARCODE_UPCE_CHK)
                              (chars "123456") [] ltac:(discriminate) eq_refl eq_refl
                              eq_refl eq_refl).
Defined.

(** ** Reading the digits back off the bars *)

Lemma app_same_length {A : Type} (a a' b b' : list A) :
  List.length a = List.length a' -> a ++ b = a' ++ b' -> a = a' /\ b = b'.
Proof.
  revert a'. induction a as [|x a IH]; intros [|x' a'] Hl E; try discriminate Hl.
  - split; [reflexivity|exact E].
  - cbn [app] in E. injection E as -> E. cbn [List.length] in Hl.
    destruct (IH a' ltac:(lia) E) as [-> ->]. split; reflexivity.
Qed.

(** The twenty patterns of the sets A and B are four characters long and
    differ from one another. *)
Lemma digit_bars_decode (c c' : ascii) (b b' : bool) :
  is_digit c = true -> is_digit c' = true ->
  List.length (if b then digit_bars EANsetB c else digit_bars EANsetA c) = 4%nat
  /\ ((if b then digit_bars EANsetB c else digit_bars EANsetA c)
      = (if b' then digit_bars EANsetB c' else digit_bars EANsetA c') ->
      c = c' /\ b = b').
Proof.
  intros Hc Hc'. apply digit_cases in Hc, Hc'.
  cbn [chars list_ascii_of_string In] in Hc, Hc'.
  split.
  - clear Hc'. repeat (destruct Hc as [<-|Hc]; [destruct b; reflexivity|]). contradiction.
  - repeat (destruct Hc as [<-|Hc]; [|]); try contradiction;
      repeat (destruct Hc' as [<-|Hc']; [|]); try contradiction;
      destruct b, b'; intros E; cbv in E;
      first [discriminate E | split; reflexivity].
Qed.

Lemma bars_from_read (g g' : Z -> ascii -> list ascii) :
  readable g g' ->
  forall s s' i,
    forallb is_digit s = true -> forallb is_digit s' = true ->
    List.length s = List.length s' ->
    bars_from g i s = bars_from g' i s' -> s = s'.
Proof.
  intros Hg. induction s as [|c s IH]; intros [|c' s'] i Hs Hs' Hl E;
    try discriminate Hl; [reflexivity|].
  cbn [forallb] in Hs, Hs'. apply andb_true_iff in Hs, Hs'.
  destruct Hs as [Hc Hs]. destruct Hs' as [Hc' Hs'].
  cbn [bars_from] in E. destruct (Hg i c c' Hc Hc') as [Hlen Hread].
  destruct (app_same_length _ _ _ _ Hlen E) as [E1 E2].
  rewrite (Hread E1). f_equal.
  apply (IH s' (i + 1)); try assumption. cbn [List.length] in Hl. lia.
Qed.

(** Equal bars of the same digits are equal glyph by glyph. *)
Lemma bars_from_glyphs (g g' : Z -> ascii -> list ascii) :
  readable g g' ->
  forall s i,
    forallb is_digit s = true ->
    bars_from g i s = bars_from g' i s ->
    forall k, 0 <= k < Z.of_nat (List.length s) ->
              g (i + k) (char_at s k) = g' (i + k) (char_at s k).
Proof.
  intros Hg. induction s as [|c s IH]; intros i Hs E k Hk;
    [cbn [List.length] in Hk; lia|].
  cbn [forallb] in Hs. apply andb_true_iff in Hs. destruct Hs as [Hc Hs].
  cbn [bars_from] in E. destruct (Hg i c c Hc Hc) as [Hlen _].
  destruct (app_same_length _ _ _ _ Hlen E) as [E1 E2].
  destruct (Z.eqb_spec k 0) as [->|Hk0].
  - rewrite Z.add_0_r. exact E1.
  - replace (char_at (c :: s) k) with (char_at s (k - 1)).
    + replace (i + k) with (i + 1 + (k - 1)) by lia.
      apply IH; [exact Hs|exact E2|]. cbn [List.length] in Hk. lia.
    + unfold char_at. destruct (Z.ltb_spec (k - 1) 0); [lia|].
      destruct (Z.ltb_spec k 0); [lia|].
      replace (Z.to_nat k) with (S (Z.to_nat (k - 1))) by lia. reflexivity.
Qed.

Lemma readable_upca (half_way : Z) : readable (upca_glyph half_way) (upca_glyph half_way).
Proof.
  intros i c c' Hc Hc'. unfold upca_glyph.
  destruct (digit_bars_decode c c' false false Hc Hc') as [L D].
  destruct (digit_bars_decode c' c false false Hc' Hc) as [L' _].
  cbv iota in L, L', D. split.
  - rewrite !length_app, L, L'. reflexivity.
  - intros E. apply app_inv_head in E. apply D, E.
Qed.

Lemma readable_ean13 (parity parity' : list ascii) :
  readable (ean13_glyph parity) (ean13_glyph parity').
Proof.
  intros i c c' Hc Hc'. unfold ean13_glyph.
  set (b := ((i >? 1) && (i <? 7)) && Ascii.eqb (char_at parity (i - 2)) "B").
  set (b' := ((i >? 1) && (i <? 7)) && Ascii.eqb (char_at parity' (i - 2)) "B").
  destruct (digit_bars_decode c c' b b' Hc Hc') as [L D].
  destruct (digit_bars_decode c' c b' b Hc' Hc) as [L' _].
  split.
  - rewrite !length_app, L, L'. reflexivity.
  - intros E. apply app_inv_head in E. apply D, E.
Qed.

(** The first digit of an EAN-13 number can be read off the sets of the
    next five that have one. *)
Lemma parity_first_digit (c c' : ascii) :
  is_digit c = true -> is_digit c' = true ->
  (forall j, 0 <= j < 5 ->
             Ascii.eqb (char_at (digit_bars EAN13Parity c) j) "B"
             = Ascii.eqb (char_at (digit_bars EAN13Parity c') j) "B") ->
  c = c'.
Proof.
  intros Hc Hc' H.
  pose proof (H 0 ltac:(lia)) as H0. pose proof (H 1 ltac:(lia)) as H1.
  pose proof (H 2 ltac:(lia)) as H2. pose proof (H 3 ltac:(lia)) as H3.
  pose proof (H 4 ltac:(lia)) as H4. clear H.
  apply digit_cases in Hc, Hc'. cbn [chars list_ascii_of_string In] in Hc, Hc'.
  repeat (destruct Hc as [<-|Hc]; [|]); try contradiction;
    repeat (destruct Hc' as [<-|Hc']; [|]); try contradiction;
    first [reflexivity | discriminate H0 | discriminate H1 | discriminate H2
           | discriminate H3 | discriminate H4].
Qed.

Lemma upca_pattern_read (dest g g' : list ascii) :
  forallb is_digit g = true -> forallb is_digit g' = true ->
  List.length g = List.length g' ->
  upca_pattern dest g = upca_pattern dest g' -> g = g'.
Proof.
  intros Hg Hg' Hl E. unfold upca_pattern in E. rewrite Hl in E.
  apply app_inv_head in E. apply app_inv_head in E. apply app_inv_tail in E.
  exact (bars_from_read _ _ (readable_upca (Z.quot (Z.of_nat (List.length g')) 2))
                        g g' 0 Hg Hg' Hl E).
Qed.

Lemma ean13_pattern_read (dest g g' : list ascii) :
  forallb is_digit g = true -> forallb is_digit g' = true ->
  List.length g = 13%nat -> List.length g' = 13%nat ->
  ean13_pattern dest g = ean13_pattern dest g' -> g = g'.
Proof.
  intros Hg Hg' Hl Hl' E. unfold ean13_pattern in E.
  destruct g as [|c r]; [discriminate Hl|]. destruct g' as [|c' r']; [discriminate Hl'|].
  change (char_at (c :: r) 0) with c in E. change (char_at (c' :: r') 0) with c' in E.
  cbn [tl] in E.
  cbn [forallb] in Hg, Hg'. apply andb_true_iff in Hg, Hg'.
  destruct Hg as [Hc Hr]. destruct Hg' as [Hc' Hr'].
  apply app_inv_head in E. apply app_inv_head in E. apply app_inv_tail in E.
  assert (Er : r = r').
  { apply (bars_from_read _ _ (readable_ean13 (digit_bars EAN13Parity c)
                                               (digit_bars EAN13Parity c'))
                            r r' 1 Hr Hr'); [|exact E].
    cbn [List.length] in Hl, Hl'. lia. }
  subst r'. f_equal.
  apply (parity_first_digit c c' Hc Hc'). intros j Hj.
  pose proof (bars_from_glyphs _ _ (readable_ean13 (digit_bars EAN13Parity c)
                                                   (digit_bars EAN13Parity c'))
                               r 1 Hr E (j + 1)
                ltac:(cbn [List.length] in Hl; lia)) as G.
  unfold ean13_glyph in G. apply app_inv_head in G.
  assert (Hd : is_digit (char_at r (j + 1)) = true)
    by (apply (digits_upto_all r 12 Hr); cbn [List.length] in Hl; lia).
  match type of G with
  | (if ?b then _ else _) = (if ?b' then _ else _) =>
    destruct (digit_bars_decode _ _ b b' Hd Hd) as [_ D]
  end.
  apply D in G. destruct G as [_ G].
  replace (1 + (j + 1) - 2) with j in G by lia.
  destruct (Z.gtb_spec (1 + (j + 1)) 1); [|lia].
  destruct (Z.ltb_spec (1 + (j + 1)) 7); [|lia].
  exact G.
Qed.

Lemma patterns_read (symbol : zint_symbol) (s s' dest : list ascii) :
  forallb is_digit s = true -> forallb is_digit s' = true ->
  (List.length s = 11%nat -> List.length s' = 11%nat ->
   snd (upca symbol s 11 dest) = snd (upca symbol s' 11 dest) -> s = s')
  /\ (List.length s = 12%nat -> List.length s' = 12%nat ->
      snd (ean13 symbol s 12 dest) = snd (ean13 symbol s' 12 dest) -> s = s')
  /\ (List.length s = 7%nat -> List.length s' = 7%nat ->
      snd (ean8 symbol s 7 dest) = snd (ean8 symbol s' 7 dest) -> s = s').
Proof.
  intros Hs Hs'. split; [|split]; intros Hl Hl' E.
  - rewrite (upca_bars symbol s s dest (cstring_digits s Hs) Hs Hl) in E.
    rewrite (upca_bars symbol s' s' dest (cstring_digits s' Hs') Hs' Hl') in E.
    cbn [snd] in E. apply upca_pattern_read in E.
    + apply app_inj_tail in E. apply E.
    + apply forallb_digit_snoc, upc_check_digit; [exact Hs|exact Hs|lia].
    + apply forallb_digit_snoc, upc_check_digit; [exact Hs'|exact Hs'|lia].
    + rewrite !length_app, Hl, Hl'. reflexivity.
  - rewrite (ean13_bars symbol s s dest (cstring_digits s Hs) Hs Hl) in E.
    rewrite (ean13_bars symbol s' s' dest (cstring_digits s' Hs') Hs' Hl') in E.
    cbn [snd] in E. apply ean13_pattern_read in E.
    + apply app_inj_tail in E. apply E.
    + apply forallb_digit_snoc, ean_check_digit; [exact Hs|exact Hs|lia].
    + apply forallb_digit_snoc, ean_check_digit; [exact Hs'|exact Hs'|lia].
    + rewrite length_app, Hl. reflexivity.
    + rewrite length_app, Hl'. reflexivity.
  - rewrite (ean8_bars symbol s s dest (cstring_digits s Hs) Hs Hl) in E.
    rewrite (ean8_bars symbol s' s' dest (cstring_digits s' Hs') Hs' Hl') in E.
    cbn [snd] in E. apply upca_pattern_read in E.
    + apply app_inj_tail in E. apply E.
    + apply forallb_digit_snoc, upc_check_digit; [exact Hs|exact Hs|lia].
    + apply forallb_digit_snoc, upc_check_digit; [exact Hs'|exact Hs'|lia].
    + rewrite !length_app, Hl, Hl'. reflexivity.
Qed.

(** X19.  The digits can be read back off the bars: two different numbers
    of the same length never get the same pattern from [upca], from [ean13]
    or from [ean8]. *)
Theorem patterns_decodable (symbol : zint_symbol) (s s' dest : list ascii) :
  forallb is_digit s = true -> forallb is_digit s' = true -> s <> s' ->
  (List.length s = 11%nat -> List.length s' = 11%nat ->
   snd (upca symbol s 11 dest) <> snd (upca symbol s' 11 dest))
  /\ (List.length s = 12%nat -> List.length s' = 12%nat ->
      snd (ean13 symbol s 12 dest) <> snd (ean13 symbol s' 12 dest))
  /\ (List.length s = 7%nat -> List.length s' = 7%nat ->
      snd (ean8 symbol s 7 dest) <> snd (ean8 symbol s' 7 dest)).
Proof.
  intros Hs Hs' Hne.
  destruct (patterns_read symbol s s' dest Hs Hs') as (A & B & C).
  split; [|split]; intros Hl Hl' E; apply Hne; auto.
Qed.

Lemma patterns_decodable_witness :
  snd (ean13 (new_symbol BARCODE_EANX) (chars "400638133393") 12 [])
  <> snd (ean13 (new_symbol BARCODE_EANX) (chars "500638133393") 12 []).
Proof.
  exact (proj1 (proj2 (patterns_decodable (new_symbol BARCODE_EANX)
                         (chars "400638133393") (chars "500638133393") []
                         eq_refl eq_refl ltac:(discriminate)))
               eq_refl eq_refl).
Defined.

(** ** UPC-E as a compressed UPC-A *)

Lemma upce_expansion_digits (source : list ascii) :
  forallb is_digit source = true -> List.length source = 6%nat ->
  forallb is_digit (upce_expansion "0" source) = true
  /\ List.length (upce_expansion "0" source) = 11%nat.
Proof.
  intros Hs Hl. do 7 (destruct source as [|? source]; try discriminate Hl).
  cbn [forallb] in Hs. repeat (apply andb_true_iff in Hs; destruct Hs as [? Hs]).
  unfold upce_expansion. cbv zeta.
  change (char_at [a; a0; a1; a2; a3; a4] 0) with a.
  change (char_at [a; a0; a1; a2; a3; a4] 1) with a0.
  change (char_at [a; a0; a1; a2; a3; a4] 2) with a1.
  change (char_at [a; a0; a1; a2; a3; a4] 3) with a2.
  change (char_at [a; a0; a1; a2; a3; a4] 4) with a3.
  change (char_at [a; a0; a1; a2; a3; a4] 5) with a4.
  repeat case_if; cbn [forallb List.length];
    repeat match goal with H : is_digit _ = true |- _ => rewrite H; clear H end;
    split; reflexivity.
Qed.

(** X20.  UPC-E is UPC-A with the zeroes taken out: the check digit in the
    text of the UPC-E symbol of six accepted digits is the check digit that
    [upca] puts in the text of the 11-digit number of EN Table 5. *)
Theorem upce_check_digit_of_upca (symbol : zint_symbol) (source dest : list ascii) :
  symbology symbol <> BARCODE_UPCE_CHK ->
  forallb is_digit source = true -> List.length source = 6%nat ->
  upce_forbidden source = false ->
  let number := upce_expansion "0" source in
  exists chk,
    upce symbol source 6 dest
    = (0, set_text symbol ("0"%char :: source ++ [chk]),
       snd (upce symbol source 6 dest))
    /\ upca symbol number 11 dest
       = (0, set_text symbol (number ++ [chk]), snd (upca symbol number 11 dest)).
Proof.
  intros Hy Hs Hl Hf number.
  pose proof (upce_equivalent_forbidden 0 (chars "0") source) as F. rewrite Hf in F.
  destruct F as [equivalent F].
  pose proof (upce_equivalent_expansion 0 (chars "0") source equivalent
                (digits_upto_all source 6 Hs ltac:(lia) 5 ltac:(lia)) F) as X.
  cbn [Z.eqb] in X. fold number in X.
  destruct (upce_expansion_digits source Hs Hl) as [Hn Ln]. fold number in Hn, Ln.
  assert (C : upc_check equivalent 11 = upc_check number 11).
  { rewrite X. apply upc_check_reads. intros k Hk. apply char_at_app_left. lia. }
  exists (upc_check number 11).
  rewrite (upce_bars symbol source dest equivalent Hy Hs Hl F), C.
  rewrite (upca_bars symbol number number dest (cstring_digits number Hn) Hn Ln).
  split; reflexivity.
Qed.

Lemma upce_check_digit_of_upca_witness :
  exists chk,
    upce (new_symbol BARCODE_UPCE) (chars "123456") 6 []
    = (0, set_text (new_symbol BARCODE_UPCE) ("0"%char :: chars "123456" ++ [chk]),
       snd (upce (new_symbol BARCODE_UPCE) (chars "123456") 6 []))
    /\ upca (new_symbol BARCODE_UPCE) (chars "01234500006") 11 []
       = (0, set_text (new_symbol BARCODE_UPCE) (chars "01234500006" ++ [chk]),
          snd (upca (new_symbol BARCODE_UPCE) (chars "01234500006") 11 [])).
Proof.
  exact (upce_check_digit_of_upca (new_symbol BARCODE_UPCE) (chars "123456") []
                                  ltac:(discriminate) eq_refl eq_refl eq_refl).
Defined.
